(** * Fast Session Transfer and band switching in the multi-band Wi-Fi stack

    A shallow embedding of the FST session handling of
    [RegularWifiMac] (regular-wifi-mac.cc) and of the band-switch routine of
    [MultiBandNetDevice] (multi-band-net-device.cc), with the properties the
    specification states about them, followed by the configuration of the
    MAC for a standard, the configuration of the device and further
    properties of the code. *)

From stdpp Require Import gmap list.
From Stdlib Require Import NArith Lia.

Local Open Scope N_scope.

(** ** Data model *)

(** A 48-bit MAC address, kept as its numeric value. *)
Abbreviation Mac48Address := N (only parsing).

(** Simulation time in microseconds ([MicroSeconds (...)]). *)
Abbreviation Time := N (only parsing).

(** A [uint32_t] is kept as a natural number below [2 ^ 32]; [uint32] is the
    value an arithmetic result has in that type. The session counter
    [m_fstId], the session identifier and the link-loss timeout are of this
    type: the [LLT] attribute is checked as [uint32_t], the identifier is
    handed on as [uint32_t fstsID], and the product [LLT * 32] is formed in
    it before it is given to [MicroSeconds]. *)
Definition uint32 (n : N) : N := n mod 2 ^ 32.

Arguments uint32 : simpl never.

(** The two ways the README builds the project: in the default (debug)
    build [NS_ASSERT] aborts the run when its condition is false, in the
    optimized build [NS_ASSERT] is compiled out. [NS_FATAL_ERROR] aborts in
    both. *)
Inductive BuildProfile := debug | optimized.

Global Instance BuildProfile_eq_dec : EqDecision BuildProfile.
Proof. solve_decision. Defined.

(** [NS_ASSERT (condition)]: whether the run is aborted. *)
Definition NS_ASSERT_aborts (build : BuildProfile) (condition : bool) : bool :=
  match build with
  | debug => negb condition
  | optimized => false
  end.

(** The band identifiers. The enumeration is declared in a header that is
    not among the sources; the three enumerators the code names are kept
    apart, every other value of the band field of a frame is kept as its
    code ([static_cast<BandID>] accepts any of them). *)
Inductive BandID :=
| Band_2_4GHz
| Band_4_9GHz
| Band_60GHz
| Band_other (code : N).

Global Instance BandID_eq_dec : EqDecision BandID.
Proof. solve_decision. Defined.

(** The PHY standards a technology is registered under. *)
Inductive WifiPhyStandard :=
| WIFI_PHY_STANDARD_80211ad
| WIFI_PHY_STANDARD_80211n_5GHZ
| WIFI_PHY_STANDARD_80211n_2_4GHZ
| WIFI_PHY_STANDARD_other (code : N).

Global Instance WifiPhyStandard_eq_dec : EqDecision WifiPhyStandard.
Proof. solve_decision. Defined.

Definition standard_code (s : WifiPhyStandard) : N :=
  match s with
  | WIFI_PHY_STANDARD_80211ad => 0
  | WIFI_PHY_STANDARD_80211n_5GHZ => 1
  | WIFI_PHY_STANDARD_80211n_2_4GHZ => 2
  | WIFI_PHY_STANDARD_other c => 3 + c
  end.

Definition standard_of_code (n : N) : WifiPhyStandard :=
  if decide (n = 0) then WIFI_PHY_STANDARD_80211ad
  else if decide (n = 1) then WIFI_PHY_STANDARD_80211n_5GHZ
  else if decide (n = 2) then WIFI_PHY_STANDARD_80211n_2_4GHZ
  else WIFI_PHY_STANDARD_other (n - 3).

Global Instance WifiPhyStandard_countable : Countable WifiPhyStandard.
Proof.
  refine (inj_countable' standard_code standard_of_code _).
  intros [| | |c]; try reflexivity.
  unfold standard_of_code, standard_code.
  repeat (case_decide; [lia|]). f_equal. lia.
Defined.

Inductive FST_STATES :=
| FST_INITIAL_STATE
| FST_SETUP_COMPLETION_STATE
| FST_TRANSITION_DONE_STATE
| FST_TRANSITION_CONFIRMED_STATE.

Global Instance FST_STATES_eq_dec : EqDecision FST_STATES.
Proof. solve_decision. Defined.

(** An [EventId]: the handle of a scheduled event, or the default-built
    handle that names no event. *)
Abbreviation EventId := (option N) (only parsing).

(** Modelled from the spec: the declaration of the per-peer session record
    (regular-wifi-mac.h) is not among the sources. Section 3: a session
    identifier (monotonically increasing), the current state, the initiator
    flag, the target band, the negotiated Link-Loss-Timeout value and one
    countdown handle; section 6: the timeout is an integer. The members
    carry the names the code uses; the two integers are [uint32_t] values,
    and the arithmetic on them wraps around as [uint32] says. *)
Record FstSession := {
  ID : N;
  CurrentState : FST_STATES;
  IsInitiator : bool;
  NewBandId : BandID;
  LLT : N;
  LinkLossCountDownEvent : EventId
}.

(** The value-initialised session that [m_fstSessionMap[addr]] inserts when
    [addr] has no entry: every scalar is zero, the handle names no event. *)
Definition FstSession_default : FstSession :=
  {| ID := 0; CurrentState := FST_INITIAL_STATE; IsInitiator := false;
     NewBandId := Band_other 0; LLT := 0; LinkLossCountDownEvent := None |}.

Definition set_CurrentState (st : FST_STATES) (s : FstSession) : FstSession :=
  {| ID := ID s; CurrentState := st; IsInitiator := IsInitiator s;
     NewBandId := NewBandId s; LLT := LLT s;
     LinkLossCountDownEvent := LinkLossCountDownEvent s |}.

Definition set_LinkLossCountDownEvent (e : EventId) (s : FstSession) : FstSession :=
  {| ID := ID s; CurrentState := CurrentState s; IsInitiator := IsInitiator s;
     NewBandId := NewBandId s; LLT := LLT s;
     LinkLossCountDownEvent := e |}.

(** *** Frames *)

Record Band := { Band_ID : BandID; Setup : bool; Operation : bool }.

Record SessionTransitionElement := {
  GetNewBand : Band;
  GetOldBand : Band;
  GetFstsID : N;
  GetSessionControl : N * bool
}.

Definition SessionType_InfrastructureBSS : N := 0.

Record ExtFstSetupRequest := {
  GetSessionTransition : SessionTransitionElement;
  GetLlt : N;
  GetDialogToken : N
}.

(** The FST action field with the body of the frame. *)
Inductive FstAction :=
| FST_SETUP_REQUEST (requestHdr : ExtFstSetupRequest)
| FST_SETUP_RESPONSE (token status : N)
| FST_TEAR_DOWN (fstsID : N)
| FST_ACK_REQUEST (token fstsID : N)
| FST_ACK_RESPONSE (token fstsID : N)
| FST_UNSUPPORTED (code : N).

(** The action category. Block-ack action frames (ADDBA Request, ADDBA
    Response, DELBA) are left out of the frame type: [Receive] hands them to
    [SendAddBaResponse], which pushes an ADDBA Response on an EDCA queue, and
    to the block-ack code of [QosTxop] and [MacLow], none of which touches
    the FST sessions. [UNSUPPORTED_CATEGORY] stands for a category other
    than block ack and FST. No statement below speaks of a block-ack action
    frame. *)
Inductive ActionCategory :=
| FST (a : FstAction)
| UNSUPPORTED_CATEGORY (code : N).

Inductive Packet :=
| MgtAction (c : ActionCategory)
| Data (payload : N).

(** A queued or received MPDU: the two addresses of its header and its
    contents. *)
Record WifiMacQueueItem := {
  GetAddr1 : Mac48Address;
  GetAddr2 : Mac48Address;
  GetPacket : Packet
}.

Global Instance Band_eq_dec : EqDecision Band.
Proof. solve_decision. Defined.
Global Instance SessionTransitionElement_eq_dec : EqDecision SessionTransitionElement.
Proof. solve_decision. Defined.
Global Instance ExtFstSetupRequest_eq_dec : EqDecision ExtFstSetupRequest.
Proof. solve_decision. Defined.
Global Instance FstAction_eq_dec : EqDecision FstAction.
Proof. solve_decision. Defined.
Global Instance ActionCategory_eq_dec : EqDecision ActionCategory.
Proof. solve_decision. Defined.
Global Instance Packet_eq_dec : EqDecision Packet.
Proof. solve_decision. Defined.
Global Instance WifiMacQueueItem_eq_dec : EqDecision WifiMacQueueItem.
Proof. solve_decision. Defined.

(** *** Queues and block-ack agreements *)

Inductive AcIndex := AC_VO | AC_VI | AC_BE | AC_BK.

Global Instance AcIndex_eq_dec : EqDecision AcIndex.
Proof. solve_decision. Defined.

(** An originator block-ack agreement: starting sequence number, buffer
    size, inactivity timeout and the immediate/delayed mode. *)
Record OriginatorBlockAckAgreement := {
  GetStartingSequence : N;
  GetBufferSize : N;
  GetTimeout : N;
  IsImmediateBlockAck : bool
}.

(** A [QosTxop]: its [WifiMacQueue] and, per peer, at most one agreement. *)
Record QosTxop := {
  GetWifiMacQueue : list WifiMacQueueItem;
  m_agreements : gmap Mac48Address OriginatorBlockAckAgreement
}.

Inductive TypeOfStation := STA | AP | ADHOC_STA | MESH | DMG_STA | DMG_AP | DMG_ADHOC.

Global Instance TypeOfStation_eq_dec : EqDecision TypeOfStation.
Proof. solve_decision. Defined.

(** *** The MAC instance *)

(** The members of [RegularWifiMac] the FST code and the band switch read or
    write. [m_txop] is the queue of the non-QoS [Txop]; the two callback
    members are kept as the list of calls made through them, oldest first.
    What the registered callback does on a call is not part of the MAC: on
    the multi-band device the band-change callback is
    [MultiBandNetDevice::BandChanged], given further down as [BandChanged],
    which moves frames between the MACs and has an Ack Request queued. The
    members of a MAC after a handler are therefore the members as the
    handler itself leaves them, together with the signals it made.
    The session counter [m_fstId] and the timeout attribute [m_llt] are
    [uint32_t] values, as the integers of the session record. *)
Record RegularWifiMac := {
  GetAddress : Mac48Address;
  m_qosSupported : bool;
  m_fstId : N;
  m_llt : N;
  m_fstSessionMap : gmap Mac48Address FstSession;
  m_txop : list WifiMacQueueItem;
  GetVOQueue : QosTxop;
  GetVIQueue : QosTxop;
  GetBEQueue : QosTxop;
  GetBKQueue : QosTxop;
  GetTypeOfStation : TypeOfStation;
  GetBssid : Mac48Address;
  GetMacState : N;
  m_bandChangedCallback : list (WifiPhyStandard * Mac48Address * bool);
  m_txOkCallback : list (Mac48Address * Mac48Address)
}.

Definition set_fstId (v : N) (m : RegularWifiMac) : RegularWifiMac :=
  {| GetAddress := GetAddress m; m_qosSupported := m_qosSupported m;
     m_fstId := v; m_llt := m_llt m; m_fstSessionMap := m_fstSessionMap m;
     m_txop := m_txop m; GetVOQueue := GetVOQueue m; GetVIQueue := GetVIQueue m;
     GetBEQueue := GetBEQueue m; GetBKQueue := GetBKQueue m;
     GetTypeOfStation := GetTypeOfStation m; GetBssid := GetBssid m;
     GetMacState := GetMacState m;
     m_bandChangedCallback := m_bandChangedCallback m;
     m_txOkCallback := m_txOkCallback m |}.

Definition set_fstSessionMap (v : gmap Mac48Address FstSession) (m : RegularWifiMac)
  : RegularWifiMac :=
  {| GetAddress := GetAddress m; m_qosSupported := m_qosSupported m;
     m_fstId := m_fstId m; m_llt := m_llt m; m_fstSessionMap := v;
     m_txop := m_txop m; GetVOQueue := GetVOQueue m; GetVIQueue := GetVIQueue m;
     GetBEQueue := GetBEQueue m; GetBKQueue := GetBKQueue m;
     GetTypeOfStation := GetTypeOfStation m; GetBssid := GetBssid m;
     GetMacState := GetMacState m;
     m_bandChangedCallback := m_bandChangedCallback m;
     m_txOkCallback := m_txOkCallback m |}.

Definition set_txop (v : list WifiMacQueueItem) (m : RegularWifiMac) : RegularWifiMac :=
  {| GetAddress := GetAddress m; m_qosSupported := m_qosSupported m;
     m_fstId := m_fstId m; m_llt := m_llt m; m_fstSessionMap := m_fstSessionMap m;
     m_txop := v; GetVOQueue := GetVOQueue m; GetVIQueue := GetVIQueue m;
     GetBEQueue := GetBEQueue m; GetBKQueue := GetBKQueue m;
     GetTypeOfStation := GetTypeOfStation m; GetBssid := GetBssid m;
     GetMacState := GetMacState m;
     m_bandChangedCallback := m_bandChangedCallback m;
     m_txOkCallback := m_txOkCallback m |}.

Definition set_bandChangedCallback (v : list (WifiPhyStandard * Mac48Address * bool))
  (m : RegularWifiMac) : RegularWifiMac :=
  {| GetAddress := GetAddress m; m_qosSupported := m_qosSupported m;
     m_fstId := m_fstId m; m_llt := m_llt m; m_fstSessionMap := m_fstSessionMap m;
     m_txop := m_txop m; GetVOQueue := GetVOQueue m; GetVIQueue := GetVIQueue m;
     GetBEQueue := GetBEQueue m; GetBKQueue := GetBKQueue m;
     GetTypeOfStation := GetTypeOfStation m; GetBssid := GetBssid m;
     GetMacState := GetMacState m;
     m_bandChangedCallback := v;
     m_txOkCallback := m_txOkCallback m |}.

Definition set_txOkCallback (v : list (Mac48Address * Mac48Address))
  (m : RegularWifiMac) : RegularWifiMac :=
  {| GetAddress := GetAddress m; m_qosSupported := m_qosSupported m;
     m_fstId := m_fstId m; m_llt := m_llt m; m_fstSessionMap := m_fstSessionMap m;
     m_txop := m_txop m; GetVOQueue := GetVOQueue m; GetVIQueue := GetVIQueue m;
     GetBEQueue := GetBEQueue m; GetBKQueue := GetBKQueue m;
     GetTypeOfStation := GetTypeOfStation m; GetBssid := GetBssid m;
     GetMacState := GetMacState m;
     m_bandChangedCallback := m_bandChangedCallback m;
     m_txOkCallback := v |}.

(** [GetEdca ac m] is [m_edca.find (ac)->second]. *)
Definition GetEdca (ac : AcIndex) (m : RegularWifiMac) : QosTxop :=
  match ac with
  | AC_VO => GetVOQueue m
  | AC_VI => GetVIQueue m
  | AC_BE => GetBEQueue m
  | AC_BK => GetBKQueue m
  end.

Definition set_edcas (vo vi be bk : QosTxop) (m : RegularWifiMac) : RegularWifiMac :=
  {| GetAddress := GetAddress m; m_qosSupported := m_qosSupported m;
     m_fstId := m_fstId m; m_llt := m_llt m; m_fstSessionMap := m_fstSessionMap m;
     m_txop := m_txop m;
     GetVOQueue := vo; GetVIQueue := vi; GetBEQueue := be; GetBKQueue := bk;
     GetTypeOfStation := GetTypeOfStation m; GetBssid := GetBssid m;
     GetMacState := GetMacState m;
     m_bandChangedCallback := m_bandChangedCallback m;
     m_txOkCallback := m_txOkCallback m |}.

Definition set_edca (ac : AcIndex) (q : QosTxop) (m : RegularWifiMac) : RegularWifiMac :=
  match ac with
  | AC_VO => set_edcas q (GetVIQueue m) (GetBEQueue m) (GetBKQueue m) m
  | AC_VI => set_edcas (GetVOQueue m) q (GetBEQueue m) (GetBKQueue m) m
  | AC_BE => set_edcas (GetVOQueue m) (GetVIQueue m) q (GetBKQueue m) m
  | AC_BK => set_edcas (GetVOQueue m) (GetVIQueue m) (GetBEQueue m) q m
  end.

Definition set_association (bssid : Mac48Address) (state : N) (m : RegularWifiMac)
  : RegularWifiMac :=
  {| GetAddress := GetAddress m; m_qosSupported := m_qosSupported m;
     m_fstId := m_fstId m; m_llt := m_llt m; m_fstSessionMap := m_fstSessionMap m;
     m_txop := m_txop m; GetVOQueue := GetVOQueue m; GetVIQueue := GetVIQueue m;
     GetBEQueue := GetBEQueue m; GetBKQueue := GetBKQueue m;
     GetTypeOfStation := GetTypeOfStation m; GetBssid := bssid;
     GetMacState := state;
     m_bandChangedCallback := m_bandChangedCallback m;
     m_txOkCallback := m_txOkCallback m |}.

(** ** The event scheduler *)

(** A scheduled call of [RegularWifiMac::ChangeBand], the only callback the
    FST code hands to the scheduler, with its bound arguments. *)
Record Event := {
  ev_uid : N;
  ev_ts : Time;
  ev_peer : Mac48Address;
  ev_band : BandID;
  ev_isInitiator : bool
}.

Global Instance Event_eq_dec : EqDecision Event.
Proof. solve_decision. Defined.

(** The scheduler: the clock, the next handle and the pending events in the
    order they were scheduled. *)
Record Simulator := {
  Now : Time;
  m_uid : N;
  m_events : list Event
}.

(** Modelled from the spec: the discrete-event scheduler is an external
    collaborator ([ScheduleAfter (duration, callback) -> handle],
    [Cancel (handle)], section 6); an event is due [delay] after the current
    instant. *)
Definition Schedule (delay : Time) (peer : Mac48Address) (band : BandID)
  (isInitiator : bool) (s : Simulator) : EventId * Simulator :=
  (Some (m_uid s),
   {| Now := Now s; m_uid := m_uid s + 1;
      m_events := m_events s ++
        [ {| ev_uid := m_uid s; ev_ts := Now s + delay; ev_peer := peer;
             ev_band := band; ev_isInitiator := isInitiator |} ] |}).

(** Modelled from the spec: a handle is running while its event is pending,
    that is scheduled, not cancelled and not yet run. *)
Definition IsRunning (id : EventId) (s : Simulator) : bool :=
  match id with
  | None => false
  | Some u => bool_decide (Exists (fun e => ev_uid e = u) (m_events s))
  end.

(** Modelled from the spec: cancelling takes the event out of the pending
    ones; a handle that names no pending event is left alone. *)
Definition Cancel (id : EventId) (s : Simulator) : Simulator :=
  match id with
  | None => s
  | Some u =>
      {| Now := Now s; m_uid := m_uid s;
         m_events := filter (fun e => ev_uid e <> u) (m_events s) |}
  end.

(** Modelled from the spec: the pending event that runs next has the
    earliest time stamp, and among equal time stamps it is the one scheduled
    first (section 5). *)
Fixpoint next_event (l : list Event) : option Event :=
  match l with
  | [] => None
  | e :: l' =>
      match next_event l' with
      | Some e' => if ev_ts e' <? ev_ts e then Some e' else Some e
      | None => Some e
      end
  end.

(** A MAC instance together with the scheduler it runs on. *)
Record World := {
  mac : RegularWifiMac;
  sim : Simulator
}.

(** The result of a handler: it returns, or the run is aborted by
    [NS_FATAL_ERROR] or a failed [NS_ASSERT]. *)
Inductive Outcome :=
| Returns (w : World)
| FatalError.

(** ** The FST session handling of [RegularWifiMac] *)

(** [m_fstSessionMap[addr]]: the entry of [addr], value-initialised when the
    map has none. Every use of [operator[]] in the source leaves an entry
    for [addr] in the map, which the callers below write back. *)
Definition session_at (addr : Mac48Address) (m : RegularWifiMac) : FstSession :=
  default FstSession_default (m_fstSessionMap m !! addr).

Definition store_session (addr : Mac48Address) (s : FstSession) (m : RegularWifiMac)
  : RegularWifiMac :=
  set_fstSessionMap (<[addr := s]> (m_fstSessionMap m)) m.

(** [m_txop->Queue (packet, hdr)]: the frame joins the queue of [m_txop]. *)
Definition Queue (to : Mac48Address) (a : FstAction) (m : RegularWifiMac)
  : RegularWifiMac :=
  set_txop (m_txop m ++
    [ {| GetAddr1 := to; GetAddr2 := GetAddress m; GetPacket := MgtAction (FST a) |} ]) m.

(** [RegularWifiMac::ChangeBand]: the band-change callback is called with
    the standard of the band, for the three bands the code knows; the call
    is recorded, the callback is not run here. *)
Definition ChangeBand (peerStation : Mac48Address) (bandId : BandID)
  (isInitiator : bool) (m : RegularWifiMac) : RegularWifiMac :=
  if decide (bandId = Band_60GHz) then
    set_bandChangedCallback
      (m_bandChangedCallback m ++ [(WIFI_PHY_STANDARD_80211ad, peerStation, isInitiator)]) m
  else if decide (bandId = Band_4_9GHz) then
    set_bandChangedCallback
      (m_bandChangedCallback m ++ [(WIFI_PHY_STANDARD_80211n_5GHZ, peerStation, isInitiator)]) m
  else if decide (bandId = Band_2_4GHz) then
    set_bandChangedCallback
      (m_bandChangedCallback m ++ [(WIFI_PHY_STANDARD_80211n_2_4GHZ, peerStation, isInitiator)]) m
  else m.

(** [RegularWifiMac::SetupFSTSession]. The multi-band capability element of
    the request is not modelled; [m_fstId++] wraps around at [2 ^ 32]. *)
Definition SetupFSTSession_request (fstId llt : N) : ExtFstSetupRequest :=
  {| GetSessionTransition :=
       {| GetNewBand := {| Band_ID := Band_4_9GHz; Setup := true; Operation := true |};
          GetOldBand := {| Band_ID := Band_60GHz; Setup := true; Operation := true |};
          GetFstsID := fstId;
          GetSessionControl := (SessionType_InfrastructureBSS, false) |};
     GetLlt := llt;
     GetDialogToken := 10 |}.

Definition SetupFSTSession (staAddress : Mac48Address) (m : RegularWifiMac)
  : RegularWifiMac :=
  let m1 := set_fstId (uint32 (m_fstId m + 1)) m in
  let requestHdr := SetupFSTSession_request (m_fstId m1) (m_llt m1) in
  let fstSession :=
    {| ID := m_fstId m1; CurrentState := FST_INITIAL_STATE; IsInitiator := true;
       NewBandId := Band_4_9GHz; LLT := m_llt m1; LinkLossCountDownEvent := None |} in
  let m2 := store_session staAddress fstSession m1 in
  Queue staAddress (FST_SETUP_REQUEST requestHdr) m2.

Definition SendFstSetupResponse (to : Mac48Address) (token status : N)
  (m : RegularWifiMac) : RegularWifiMac :=
  Queue to (FST_SETUP_RESPONSE token status) m.

Definition SendFstAckRequest (to : Mac48Address) (dialog fstsID : N)
  (m : RegularWifiMac) : RegularWifiMac :=
  Queue to (FST_ACK_REQUEST dialog fstsID) m.

Definition SendFstAckResponse (to : Mac48Address) (dialog fstsID : N)
  (m : RegularWifiMac) : RegularWifiMac :=
  Queue to (FST_ACK_RESPONSE dialog fstsID) m.

Definition SendFstTearDownFrame (to : Mac48Address) (m : RegularWifiMac)
  : RegularWifiMac :=
  Queue to (FST_TEAR_DOWN 0) m.

(** [RegularWifiMac::NotifyBandChanged]. *)
Definition NotifyBandChanged (standard : WifiPhyStandard) (address : Mac48Address)
  (isInitiator : bool) (m : RegularWifiMac) : RegularWifiMac :=
  if isInitiator then
    let fstSession := session_at address m in
    SendFstAckRequest address 0 (ID fstSession) (store_session address fstSession m)
  else m.

(** The body shared by the two places that act on a Setup Response: the
    session of [peer] moves to the setup-completion state; with a zero
    link-loss timeout it moves on to the transition-done state and
    [ChangeBand] is called at once, otherwise the countdown is scheduled,
    for [MicroSeconds (fstSession->LLT * 32)] with the product formed in
    [uint32_t]. *)
Definition setup_response_done (peer : Mac48Address) (isInitiator : bool)
  (w : World) : World :=
  let fstSession := set_CurrentState FST_SETUP_COMPLETION_STATE (session_at peer (mac w)) in
  if decide (LLT fstSession = 0) then
    let fstSession := set_CurrentState FST_TRANSITION_DONE_STATE fstSession in
    {| mac := ChangeBand peer (NewBandId fstSession) isInitiator
                (store_session peer fstSession (mac w));
       sim := sim w |}
  else
    let '(id, sim') :=
      Schedule (uint32 (LLT fstSession * 32)) peer (NewBandId fstSession) isInitiator
               (sim w) in
    {| mac := store_session peer (set_LinkLossCountDownEvent id fstSession) (mac w);
       sim := sim' |}.

(** [RegularWifiMac::TxOk]: the link layer confirmed the delivery of the
    frame [item] this station sent. *)
Definition TxOk (item : WifiMacQueueItem) (w : World) : World :=
  let trace w :=
    {| mac := set_txOkCallback
                (m_txOkCallback (mac w) ++ [(GetAddr1 item, GetAddr2 item)]) (mac w);
       sim := sim w |} in
  match GetPacket item with
  | MgtAction (FST (FST_SETUP_RESPONSE _ _)) =>
      setup_response_done (GetAddr1 item) false w
  | MgtAction (FST (FST_ACK_RESPONSE _ _)) =>
      let fstSession := session_at (GetAddr1 item) (mac w) in
      {| mac := store_session (GetAddr1 item)
                  (set_CurrentState FST_TRANSITION_CONFIRMED_STATE fstSession) (mac w);
         sim := sim w |}
  | _ => trace w
  end.

(** [RegularWifiMac::Receive], for the frames of the model (the branch for
    the block-ack category is not part of it), in the build [build]:
    [NS_ASSERT (m_qosSupported)] stops a station without QoS support in the
    debug build only; in the optimized build such a station handles the
    frame like any other. *)
Definition Receive_in (build : BuildProfile) (mpdu : WifiMacQueueItem) (w : World)
  : Outcome :=
  let to := GetAddr1 mpdu in
  let from := GetAddr2 mpdu in
  if decide (to <> GetAddress (mac w)) then Returns w
  else
    match GetPacket mpdu with
    | MgtAction category =>
        if NS_ASSERT_aborts build (m_qosSupported (mac w)) then FatalError
        else
          match category with
          | FST (FST_SETUP_REQUEST requestHdr) =>
              let fstSession :=
                {| ID := GetFstsID (GetSessionTransition requestHdr);
                   CurrentState := FST_INITIAL_STATE;
                   IsInitiator := false;
                   NewBandId := Band_ID (GetNewBand (GetSessionTransition requestHdr));
                   LLT := GetLlt requestHdr;
                   LinkLossCountDownEvent := None |} in
              Returns
                {| mac := SendFstSetupResponse from (GetDialogToken requestHdr) 0
                            (store_session from fstSession (mac w));
                   sim := sim w |}
          | FST (FST_SETUP_RESPONSE _ status) =>
              if decide (status = 0) then Returns (setup_response_done from true w)
              else Returns w
          | FST (FST_TEAR_DOWN _) =>
              let fstSession := session_at from (mac w) in
              Returns
                {| mac := store_session from
                            (set_CurrentState FST_INITIAL_STATE fstSession) (mac w);
                   sim := sim w |}
          | FST (FST_ACK_REQUEST token fstsID) =>
              Returns {| mac := SendFstAckResponse from token fstsID (mac w);
                         sim := sim w |}
          | FST (FST_ACK_RESPONSE _ _) =>
              let fstSession := session_at from (mac w) in
              Returns
                {| mac := store_session from
                            (set_CurrentState FST_TRANSITION_CONFIRMED_STATE fstSession)
                            (mac w);
                   sim := sim w |}
          | FST (FST_UNSUPPORTED _) => FatalError
          | UNSUPPORTED_CATEGORY _ => FatalError
          end
    | Data _ => FatalError
    end.

(** [Receive] in the default build of the README, where assertions are on. *)
Definition Receive (mpdu : WifiMacQueueItem) (w : World) : Outcome :=
  Receive_in debug mpdu w.

(** [RegularWifiMac::MacTxOk] and [RegularWifiMac::MacRxOk] have the same
    body; [refresh_countdown] is that body. *)
Definition refresh_countdown (address : Mac48Address) (w : World) : World :=
  match m_fstSessionMap (mac w) !! address with
  | Some fstSession =>
      if bool_decide (CurrentState fstSession = FST_SETUP_COMPLETION_STATE)
         && IsRunning (LinkLossCountDownEvent fstSession) (sim w)
      then
        let sim1 := Cancel (LinkLossCountDownEvent fstSession) (sim w) in
        let '(id, sim2) :=
          Schedule (uint32 (LLT fstSession * 32)) address (NewBandId fstSession)
                   (IsInitiator fstSession) sim1 in
        {| mac := store_session address (set_LinkLossCountDownEvent id fstSession) (mac w);
           sim := sim2 |}
      else w
  | None => w
  end.

Definition MacTxOk (address : Mac48Address) (w : World) : World :=
  refresh_countdown address w.

Definition MacRxOk (address : Mac48Address) (w : World) : World :=
  refresh_countdown address w.

(** Modelled from the spec: one step of the external scheduler. The next
    pending event leaves the pending ones, the clock moves to its time stamp
    and its callback, [ChangeBand] with the arguments bound when it was
    scheduled, runs. There is no step when nothing is pending. *)
Definition run_next (w : World) : option World :=
  match next_event (m_events (sim w)) with
  | Some e =>
      Some {| mac := ChangeBand (ev_peer e) (ev_band e) (ev_isInitiator e) (mac w);
              sim := {| Now := ev_ts e; m_uid := m_uid (sim w);
                        m_events := filter (fun e' => ev_uid e' <> ev_uid e)
                                           (m_events (sim w)) |} |}
  | None => None
  end.

(** Modelled from the spec: the scheduler left alone for [n] steps (no frame
    arrives and no delivery is confirmed in between). *)
Fixpoint run_steps (n : nat) (w : World) : option World :=
  match n with
  | O => Some w
  | S n' => w' ← run_next w; run_steps n' w'
  end.

(** The clock moves on to [t] with no event in between. *)
Definition advance_to (t : Time) (w : World) : World :=
  {| mac := mac w;
     sim := {| Now := t; m_uid := m_uid (sim w); m_events := m_events (sim w) |} |}.

(** ** The multi-band device and the band switch *)

(** A [Ptr<...>]: the identity of the object it points to; [0] is the null
    pointer. Two pointers that are equal name the same object. *)
Abbreviation Ptr := N (only parsing).

(** A technology of the device (the [Standard] member repeats the key it is
    registered under and is never read). *)
Record WifiTechnology := {
  Phy : Ptr;
  Mac : Ptr;
  StationManager : Ptr;
  Operational : bool
}.

(** The value-initialised technology [m_list[standard]] inserts for a
    standard that was never added: three null pointers. *)
Definition WifiTechnology_default : WifiTechnology :=
  {| Phy := 0; Mac := 0; StationManager := 0; Operational := false |}.

(** One of the five queues of a MAC: the queue of the non-QoS [Txop] and the
    queues of the four access categories. *)
Inductive QueueId :=
| DCA
| EDCA (ac : AcIndex).

Global Instance QueueId_eq_dec : EqDecision QueueId.
Proof. solve_decision. Defined.

(** The calls the band switch makes on its collaborators, in the order it
    makes them. *)
Inductive Call :=
| TransferPacketsByAddress_call (q : QueueId) (address : Mac48Address) (src dst : Ptr)
| CopyBlockAckAgreements_call (ac : AcIndex) (address : Mac48Address) (src dst : Ptr)
| NotifyBandChanged_call (standard : WifiPhyStandard) (address : Mac48Address)
    (isInitiator : bool) (on : Ptr).

(** The device: its members, the MAC and station-manager objects its pointers
    refer to ([m_managers] holds, per station manager, the peers recorded by
    [RecordGotAssocTxOk]), and the calls made so far. *)
Record MultiBandNetDevice := {
  m_list : gmap WifiPhyStandard WifiTechnology;
  m_mac : Ptr;
  m_phy : Ptr;
  m_stationManager : Ptr;
  m_standard : WifiPhyStandard;
  m_macs : gmap Ptr RegularWifiMac;
  m_managers : gmap Ptr (gset Mac48Address);
  m_calls : list Call
}.

Definition set_macs (h : gmap Ptr RegularWifiMac) (d : MultiBandNetDevice)
  : MultiBandNetDevice :=
  {| m_list := m_list d; m_mac := m_mac d; m_phy := m_phy d;
     m_stationManager := m_stationManager d; m_standard := m_standard d;
     m_macs := h; m_managers := m_managers d; m_calls := m_calls d |}.

Definition set_managers (g : gmap Ptr (gset Mac48Address)) (d : MultiBandNetDevice)
  : MultiBandNetDevice :=
  {| m_list := m_list d; m_mac := m_mac d; m_phy := m_phy d;
     m_stationManager := m_stationManager d; m_standard := m_standard d;
     m_macs := m_macs d; m_managers := g; m_calls := m_calls d |}.

Definition record_call (c : Call) (d : MultiBandNetDevice) : MultiBandNetDevice :=
  {| m_list := m_list d; m_mac := m_mac d; m_phy := m_phy d;
     m_stationManager := m_stationManager d; m_standard := m_standard d;
     m_macs := m_macs d; m_managers := m_managers d; m_calls := m_calls d ++ [c] |}.

Definition queue_of (q : QueueId) (m : RegularWifiMac) : list WifiMacQueueItem :=
  match q with
  | DCA => m_txop m
  | EDCA ac => GetWifiMacQueue (GetEdca ac m)
  end.

Definition set_queue (q : QueueId) (items : list WifiMacQueueItem) (m : RegularWifiMac)
  : RegularWifiMac :=
  match q with
  | DCA => set_txop items m
  | EDCA ac =>
      set_edca ac {| GetWifiMacQueue := items;
                     m_agreements := m_agreements (GetEdca ac m) |} m
  end.

Definition set_agreements (ac : AcIndex)
  (a : gmap Mac48Address OriginatorBlockAckAgreement) (m : RegularWifiMac)
  : RegularWifiMac :=
  set_edca ac {| GetWifiMacQueue := GetWifiMacQueue (GetEdca ac m);
                 m_agreements := a |} m.

(** The frames of a queue addressed to [addr], and the others, both in
    queue order. *)
Definition frames_for (addr : Mac48Address) (l : list WifiMacQueueItem)
  : list WifiMacQueueItem :=
  filter (fun i => GetAddr1 i = addr) l.

Definition frames_not_for (addr : Mac48Address) (l : list WifiMacQueueItem)
  : list WifiMacQueueItem :=
  filter (fun i => GetAddr1 i <> addr) l.

(** Modelled from the spec: [WifiMacQueue::TransferPacketsByAddress] is
    defined in wifi-mac-queue.cc, which is not among the sources. Section 4.1
    ([TransferByDestination]): it removes, in original order, every queued
    frame addressed to the destination from this queue and appends it, in
    the same relative order, to the target queue; frames for other
    destinations are untouched and retain their position. The queue [q] of
    the MAC [src] is this queue, the queue [q] of the MAC [dst] the target.
    Section 4.1 speaks of two queues; for a queue that is its own target
    section 4.3, step 2, applies (a switch onto the bundle in use is a
    no-op), so the queue is left as it is. A null or dangling pointer ends
    the run. *)
Definition TransferPacketsByAddress (addr : Mac48Address) (q : QueueId)
  (src dst : Ptr) (h : gmap Ptr RegularWifiMac) : option (gmap Ptr RegularWifiMac) :=
  match h !! src, h !! dst with
  | Some srcMac, Some dstMac =>
      if decide (src = dst) then Some h
      else
        let moved := frames_for addr (queue_of q srcMac) in
        let h1 := <[src := set_queue q (frames_not_for addr (queue_of q srcMac)) srcMac]> h in
        Some (<[dst := set_queue q (queue_of q dstMac ++ moved) dstMac]> h1)
  | _, _ => None
  end.

(** Modelled from the spec: [QosTxop::CopyBlockAckAgreements] is defined in
    qos-txop.cc, which is not among the sources. Section 4.1
    ([CopyAgreement]): if an agreement exists for the destination, it
    installs an equivalent agreement on the target queue, replacing any
    prior agreement for that destination there, and does not remove the
    source agreement. *)
Definition CopyBlockAckAgreements (addr : Mac48Address) (ac : AcIndex)
  (src dst : Ptr) (h : gmap Ptr RegularWifiMac) : option (gmap Ptr RegularWifiMac) :=
  match h !! src, h !! dst with
  | Some srcMac, Some dstMac =>
      match m_agreements (GetEdca ac srcMac) !! addr with
      | Some agreement =>
          Some (<[dst := set_agreements ac
                           (<[addr := agreement]> (m_agreements (GetEdca ac dstMac)))
                           dstMac]> h)
      | None => Some h
      end
  | _, _ => None
  end.

(** [MultiBandNetDevice::SwitchTechnology]. *)
Definition SwitchTechnology (standard : WifiPhyStandard) (d : MultiBandNetDevice)
  : MultiBandNetDevice :=
  let technology := default WifiTechnology_default (m_list d !! standard) in
  {| m_list := <[standard := technology]> (m_list d);
     m_mac := Mac technology;
     m_phy := Phy technology;
     m_stationManager := StationManager technology;
     m_standard := standard;
     m_macs := m_macs d; m_managers := m_managers d; m_calls := m_calls d |}.

Definition transfer_step (address : Mac48Address) (q : QueueId) (oldMac newMac : Ptr)
  (d : MultiBandNetDevice) : option MultiBandNetDevice :=
  h ← TransferPacketsByAddress address q oldMac newMac (m_macs d);
  Some (record_call (TransferPacketsByAddress_call q address oldMac newMac) (set_macs h d)).

Definition copy_step (address : Mac48Address) (ac : AcIndex) (oldMac newMac : Ptr)
  (d : MultiBandNetDevice) : option MultiBandNetDevice :=
  h ← CopyBlockAckAgreements address ac oldMac newMac (m_macs d);
  Some (record_call (CopyBlockAckAgreements_call ac address oldMac newMac) (set_macs h d)).

(** Modelled from the spec: [SetBssid] and the [SetState] of the client MACs
    ([StaWifiMac], [DmgStaWifiMac]) are defined outside the sources. Section
    4.3, step 5: a client copies the BSS identifier and the association
    state; the setters store the value they are given. *)
Definition SetBssid (bssid : Mac48Address) (m : RegularWifiMac) : RegularWifiMac :=
  set_association bssid (GetMacState m) m.

Definition SetState (value : N) (m : RegularWifiMac) : RegularWifiMac :=
  set_association (GetBssid m) value m.

(** Modelled from the spec: [WifiRemoteStationManager::RecordGotAssocTxOk] is
    defined outside the sources. Section 4.3, step 5: an access point marks
    the peer as successfully associated in the station-tracking table of the
    new bundle. *)
Definition RecordGotAssocTxOk (address : Mac48Address) (associated : gset Mac48Address)
  : gset Mac48Address :=
  {[ address ]} ∪ associated.

(** The association step of [MultiBandNetDevice::BandChanged]: the branch on
    the type of the new MAC. *)
Definition copy_association (address : Mac48Address) (oldMac newMac : Ptr)
  (d : MultiBandNetDevice) : option MultiBandNetDevice :=
  match m_macs d !! oldMac, m_macs d !! newMac with
  | Some o, Some n =>
      if decide (GetTypeOfStation n = DMG_STA) then
        Some (set_macs
                (<[newMac := SetState (GetMacState o) (SetBssid (GetBssid o) n)]> (m_macs d)) d)
      else if decide (GetTypeOfStation n = STA) then
        Some (set_macs
                (<[newMac := SetState (GetMacState o) (SetBssid (GetBssid o) n)]> (m_macs d)) d)
      else if decide (GetTypeOfStation n = AP \/ GetTypeOfStation n = DMG_AP) then
        match m_managers d !! m_stationManager d with
        | Some associated =>
            Some (set_managers
                    (<[m_stationManager d := RecordGotAssocTxOk address associated]>
                       (m_managers d)) d)
        | None => None
        end
      else Some d
  | _, _ => None
  end.

Definition notify_step (standard : WifiPhyStandard) (address : Mac48Address)
  (isInitiator : bool) (d : MultiBandNetDevice) : option MultiBandNetDevice :=
  m ← m_macs d !! m_mac d;
  Some (record_call (NotifyBandChanged_call standard address isInitiator (m_mac d))
          (set_macs (<[m_mac d := NotifyBandChanged standard address isInitiator m]>
                       (m_macs d)) d)).

(** The part of [MultiBandNetDevice::BandChanged] before the completion
    notification. *)
Definition BandChanged_migrate (standard : WifiPhyStandard) (address : Mac48Address)
  (d : MultiBandNetDevice) : option MultiBandNetDevice :=
  let oldMac := m_mac d in
  let d := SwitchTechnology standard d in
  let newMac := m_mac d in
  d ← transfer_step address DCA oldMac newMac d;
  d ← transfer_step address (EDCA AC_VO) oldMac newMac d;
  d ← transfer_step address (EDCA AC_VI) oldMac newMac d;
  d ← transfer_step address (EDCA AC_BE) oldMac newMac d;
  d ← transfer_step address (EDCA AC_BK) oldMac newMac d;
  d ← copy_step address AC_VO oldMac newMac d;
  d ← copy_step address AC_VI oldMac newMac d;
  d ← copy_step address AC_BE oldMac newMac d;
  d ← copy_step address AC_BK oldMac newMac d;
  copy_association address oldMac newMac d.

(** [MultiBandNetDevice::BandChanged]. *)
Definition BandChanged (standard : WifiPhyStandard) (address : Mac48Address)
  (isInitiator : bool) (d : MultiBandNetDevice) : option MultiBandNetDevice :=
  d ← BandChanged_migrate standard address d;
  notify_step standard address isInitiator d.

(** [MultiBandNetDevice::EstablishFastSessionTransferSession]. *)
Definition EstablishFastSessionTransferSession (address : Mac48Address)
  (d : MultiBandNetDevice) : option MultiBandNetDevice :=
  m ← m_macs d !! m_mac d;
  Some (set_macs (<[m_mac d := SetupFSTSession address m]> (m_macs d)) d).

(** ** Notions the statements are written with *)

(** An FST action frame. *)
Definition fst_frame (to from : Mac48Address) (a : FstAction) : WifiMacQueueItem :=
  {| GetAddr1 := to; GetAddr2 := from; GetPacket := MgtAction (FST a) |}.

(** Handles are fresh: every pending event was given a handle below the
    next one. *)
Definition sim_wf (s : Simulator) : Prop :=
  Forall (fun e => ev_uid e < m_uid s) (m_events s).

(** The countdown event the handlers schedule for the session [s] of [peer]
    in the world [w]. *)
Definition countdown (peer : Mac48Address) (s : FstSession) (isInitiator : bool)
  (w : World) : Event :=
  {| ev_uid := m_uid (sim w); ev_ts := Now (sim w) + uint32 (LLT s * 32);
     ev_peer := peer; ev_band := NewBandId s; ev_isInitiator := isInitiator |}.

(** What a call of [ChangeBand] hands to the band-change callback: one
    signal for each of the three bands the code knows, none for another. *)
Definition band_change_signal (bandId : BandID) (peer : Mac48Address)
  (isInitiator : bool) : list (WifiPhyStandard * Mac48Address * bool) :=
  match bandId with
  | Band_60GHz => [(WIFI_PHY_STANDARD_80211ad, peer, isInitiator)]
  | Band_4_9GHz => [(WIFI_PHY_STANDARD_80211n_5GHZ, peer, isInitiator)]
  | Band_2_4GHz => [(WIFI_PHY_STANDARD_80211n_2_4GHZ, peer, isInitiator)]
  | Band_other _ => []
  end.

(** [fires e w]: left alone from [w] on, the scheduler comes to run the
    pending event [e]: after some steps, each running another pending event,
    [e] is the next event, and its step moves the clock to the time stamp of
    [e] and makes the band-change signal of [e]. *)
Definition fires (e : Event) (w : World) : Prop :=
  exists n w1 w2,
    run_steps n w = Some w1 /\
    next_event (m_events (sim w1)) = Some e /\
    run_next w1 = Some w2 /\
    Now (sim w2) = ev_ts e /\
    m_bandChangedCallback (mac w2) =
      m_bandChangedCallback (mac w1) ++
      band_change_signal (ev_band e) (ev_peer e) (ev_isInitiator e).

(** [countdown_armed peer s before w w']: in [w'] the session of [peer] is
    the session [s] moved to the setup-completion state, and it holds the
    handle of a countdown scheduled in [w]; the pending events are [before]
    followed by that countdown, due exactly [LLT s * 32] after the current
    instant of [w] and bound to the band and the initiator flag of [s]; no
    band change was signalled and the clock was not moved; and the
    countdown fires when the scheduler is left alone. *)
Definition countdown_armed (peer : Mac48Address) (s : FstSession)
  (before : list Event) (w w' : World) : Prop :=
  let e :=
    {| ev_uid := m_uid (sim w); ev_ts := Now (sim w) + LLT s * 32; ev_peer := peer;
       ev_band := NewBandId s; ev_isInitiator := IsInitiator s |} in
  (exists s',
     m_fstSessionMap (mac w') !! peer = Some s' /\
     CurrentState s' = FST_SETUP_COMPLETION_STATE /\
     LinkLossCountDownEvent s' = Some (m_uid (sim w)) /\
     ID s' = ID s /\ IsInitiator s' = IsInitiator s /\
     NewBandId s' = NewBandId s /\ LLT s' = LLT s) /\
  m_bandChangedCallback (mac w') = m_bandChangedCallback (mac w) /\
  Now (sim w') = Now (sim w) /\
  m_events (sim w') = before ++ [e] /\
  IsRunning (Some (m_uid (sim w))) (sim w') = true /\
  fires e w'.

(** What one transfer does to the source MAC and to a distinct target
    MAC. *)
Definition strip (q : QueueId) (addr : Mac48Address) (m : RegularWifiMac)
  : RegularWifiMac :=
  set_queue q (frames_not_for addr (queue_of q m)) m.

Definition take_over (q : QueueId) (addr : Mac48Address) (src dst : RegularWifiMac)
  : RegularWifiMac :=
  set_queue q (queue_of q dst ++ frames_for addr (queue_of q src)) dst.

Definition adopt (ac : AcIndex) (addr : Mac48Address) (src dst : RegularWifiMac)
  : RegularWifiMac :=
  match m_agreements (GetEdca ac src) !! addr with
  | Some agreement =>
      set_agreements ac (<[addr := agreement]> (m_agreements (GetEdca ac dst))) dst
  | None => dst
  end.

(** The members of the device a transfer or a copy leaves alone. *)
Definition routing (d : MultiBandNetDevice) :=
  (m_list d, m_mac d, m_phy d, m_stationManager d, m_standard d, m_managers d).

(** The association state the new MAC ends with, and the peers the station
    manager in use has on record, after the association step. *)
Definition associate (o n : RegularWifiMac) : RegularWifiMac :=
  if decide (GetTypeOfStation n = DMG_STA \/ GetTypeOfStation n = STA)
  then SetState (GetMacState o) (SetBssid (GetBssid o) n)
  else n.

Definition recorded (address : Mac48Address) (n : RegularWifiMac)
  (associated : gset Mac48Address) : gset Mac48Address :=
  if decide (GetTypeOfStation n = AP \/ GetTypeOfStation n = DMG_AP)
  then RecordGotAssocTxOk address associated
  else associated.

(** The calls of one band switch from the MAC [old] to the MAC [new]. *)
Definition BandChanged_calls (standard : WifiPhyStandard) (addr : Mac48Address)
  (isInitiator : bool) (old new : Ptr) : list Call :=
  [ TransferPacketsByAddress_call DCA addr old new;
    TransferPacketsByAddress_call (EDCA AC_VO) addr old new;
    TransferPacketsByAddress_call (EDCA AC_VI) addr old new;
    TransferPacketsByAddress_call (EDCA AC_BE) addr old new;
    TransferPacketsByAddress_call (EDCA AC_BK) addr old new;
    CopyBlockAckAgreements_call AC_VO addr old new;
    CopyBlockAckAgreements_call AC_VI addr old new;
    CopyBlockAckAgreements_call AC_BE addr old new;
    CopyBlockAckAgreements_call AC_BK addr old new;
    NotifyBandChanged_call standard addr isInitiator new ].




(** The claim on the session identifier, as it is worded: of two successive
    local initiations the second uses an identifier exactly one greater. *)
Definition identifier_one_greater (m : RegularWifiMac) (first second : Mac48Address)
  : Prop :=
  forall s1 s2,
    m_fstSessionMap (SetupFSTSession first m) !! first = Some s1 ->
    m_fstSessionMap (SetupFSTSession second (SetupFSTSession first m)) !! second
      = Some s2 ->
    ID s2 = ID s1 + 1.

(** ** Concrete stations, devices and runs *)

Definition QosTxop_empty : QosTxop :=
  {| GetWifiMacQueue := []; m_agreements := ∅ |}.

(** The MAC as its constructor leaves it: session counter at zero, empty
    queues, no session; the address, the link-loss timeout attribute and the
    station type are the configuration. *)
Definition RegularWifiMac_new (address : Mac48Address) (llt : N) (type : TypeOfStation)
  : RegularWifiMac :=
  {| GetAddress := address; m_qosSupported := true; m_fstId := 0; m_llt := llt;
     m_fstSessionMap := ∅; m_txop := [];
     GetVOQueue := QosTxop_empty; GetVIQueue := QosTxop_empty;
     GetBEQueue := QosTxop_empty; GetBKQueue := QosTxop_empty;
     GetTypeOfStation := type; GetBssid := 0; GetMacState := 0;
     m_bandChangedCallback := []; m_txOkCallback := [] |}.

Definition Simulator_new : Simulator :=
  {| Now := 0; m_uid := 0; m_events := [] |}.

Definition World_new (address : Mac48Address) (llt : N) : World :=
  {| mac := RegularWifiMac_new address llt STA; sim := Simulator_new |}.

(** Sequencing of handlers that may abort. *)
Definition and_then (o : Outcome) (f : World -> Outcome) : Outcome :=
  match o with
  | Returns w => f w
  | FatalError => FatalError
  end.

Definition on_mac (f : RegularWifiMac -> RegularWifiMac) (w : World) : World :=
  {| mac := f (mac w); sim := sim w |}.


(** Station 1, with link-loss timeout [llt], initiates a session with peer 7
    and receives the peer's successful Setup Response. *)
Definition initiator_after_response (llt : N) : Outcome :=
  Receive (fst_frame 1 7 (FST_SETUP_RESPONSE 10 0))
    (on_mac (SetupFSTSession 7) (World_new 1 llt)).

(** ... then, at time 10, the peer's Teardown arrives. *)
Definition initiator_after_teardown : Outcome :=
  and_then (initiator_after_response 5)
    (fun w => Receive (fst_frame 1 7 (FST_TEAR_DOWN 0)) (advance_to 10 w)).

(** ... or instead, at time 10, the station initiates a new session with the
    same peer. *)
Definition initiator_after_second_setup : Outcome :=
  and_then (initiator_after_response 5)
    (fun w => Returns (on_mac (SetupFSTSession 7) (advance_to 10 w))).

(** ... or instead, at time 10, a Setup Request of the same peer arrives. *)
Definition initiator_after_peer_request : Outcome :=
  and_then (initiator_after_response 5)
    (fun w => Receive (fst_frame 1 7 (FST_SETUP_REQUEST (SetupFSTSession_request 3 9)))
                (advance_to 10 w)).

Definition data_frame (to : Mac48Address) (payload : N) : WifiMacQueueItem :=
  {| GetAddr1 := to; GetAddr2 := 1; GetPacket := Data payload |}.

Definition agreement_100 : OriginatorBlockAckAgreement :=
  {| GetStartingSequence := 100; GetBufferSize := 64; GetTimeout := 0;
     IsImmediateBlockAck := true |}.

(** A MAC of station 1 whose best-effort queue holds two frames for peer 7
    around one for peer 8, with a best-effort agreement with peer 7. *)
Definition busy_mac (type : TypeOfStation) : RegularWifiMac :=
  set_edca AC_BE
    {| GetWifiMacQueue := [data_frame 7 1; data_frame 8 2; data_frame 7 3];
       m_agreements := {[ 7 := agreement_100 ]} |}
    (RegularWifiMac_new 1 5 type).

(** A device with a 60 GHz technology, in use, and a 5 GHz technology. *)
Definition two_band_device (type : TypeOfStation) : MultiBandNetDevice :=
  {| m_list :=
       <[WIFI_PHY_STANDARD_80211ad :=
           {| Phy := 10; Mac := 11; StationManager := 12; Operational := true |}]>
       (<[WIFI_PHY_STANDARD_80211n_5GHZ :=
           {| Phy := 20; Mac := 21; StationManager := 22; Operational := true |}]> ∅);
     m_mac := 11; m_phy := 10; m_stationManager := 12;
     m_standard := WIFI_PHY_STANDARD_80211ad;
     m_macs := <[11 := busy_mac type]> (<[21 := RegularWifiMac_new 1 5 type]> ∅);
     m_managers := <[12 := ∅]> (<[22 := ∅]> ∅);
     m_calls := [] |}.


Definition technology_5GHz : WifiTechnology :=
  {| Phy := 20; Mac := 21; StationManager := 22; Operational := true |}.




(** Station 1 after it initiated [2 ^ 32 - 2] sessions with peer 9, one
    after the other: its session counter is two below [2 ^ 32]. *)
Definition mac_before_wrap : RegularWifiMac :=
  N.iter 4294967294 (SetupFSTSession 9) (RegularWifiMac_new 1 5 STA).

(** Station 1 after it initiated a session with peer 7, and the session. *)
Definition initiator_world : World :=
  on_mac (SetupFSTSession 7) (World_new 1 5).

Definition initiator_session : FstSession :=
  {| ID := 1; CurrentState := FST_INITIAL_STATE; IsInitiator := true;
     NewBandId := Band_4_9GHz; LLT := 5; LinkLossCountDownEvent := None |}.

(** The same station with the countdown of the session armed, and the
    session then. *)
Definition armed_world : World :=
  setup_response_done 7 true initiator_world.



Definition responder_session : FstSession :=
  {| ID := 3; CurrentState := FST_INITIAL_STATE; IsInitiator := false;
     NewBandId := Band_4_9GHz; LLT := 0; LinkLossCountDownEvent := None |}.

(** ** The configuration of the MAC for a standard *)

(** [m_qosSupported = enable]. *)
Definition set_qosSupported (v : bool) (m : RegularWifiMac) : RegularWifiMac :=
  {| GetAddress := GetAddress m; m_qosSupported := v;
     m_fstId := m_fstId m; m_llt := m_llt m; m_fstSessionMap := m_fstSessionMap m;
     m_txop := m_txop m; GetVOQueue := GetVOQueue m; GetVIQueue := GetVIQueue m;
     GetBEQueue := GetBEQueue m; GetBKQueue := GetBKQueue m;
     GetTypeOfStation := GetTypeOfStation m; GetBssid := GetBssid m;
     GetMacState := GetMacState m;
     m_bandChangedCallback := m_bandChangedCallback m;
     m_txOkCallback := m_txOkCallback m |}.

(** The enumerators of [WifiPhyStandard] the switch of
    [RegularWifiMac::FinishConfigureStandard] names, under the names the
    source gives them; every other value of the enumeration is kept as its
    code. (The band switch above tells three standards apart and keeps its
    own, shorter, list.) *)
Module PhyStandard.
Inductive WifiPhyStandard :=
| WIFI_PHY_STANDARD_80211ad
| WIFI_PHY_STANDARD_80211ay
| WIFI_PHY_STANDARD_80211ax_5GHZ
| WIFI_PHY_STANDARD_80211ac
| WIFI_PHY_STANDARD_80211n_5GHZ
| WIFI_PHY_STANDARD_80211ax_2_4GHZ
| WIFI_PHY_STANDARD_80211n_2_4GHZ
| WIFI_PHY_STANDARD_80211g
| WIFI_PHY_STANDARD_holland
| WIFI_PHY_STANDARD_80211a
| WIFI_PHY_STANDARD_80211_10MHZ
| WIFI_PHY_STANDARD_80211_5MHZ
| WIFI_PHY_STANDARD_80211b
| WIFI_PHY_STANDARD_unlisted (code : N).
End PhyStandard.

(** The members of [RegularWifiMac] the configuration reads and writes,
    around the members of the session handling ([GetSessions]).
    [GetHtConfiguration] is the HT configuration object, as the value of its
    [RifsSupported] member, or [None] for the null pointer; the two
    aggregator members say whether [m_low] holds an aggregator;
    [ConfigureDcf_calls] keeps, oldest first and once per call of
    [ConfigureContentionWindow], the minimal and maximal contention window
    and the DSSS-only flag that [ConfigureDcf] was called with for [m_txop]
    and for each EDCA function. *)
Record MacConfiguration := {
  GetSessions : RegularWifiMac;
  m_dmgSupported : bool;
  m_edmgSupported : bool;
  m_erpSupported : bool;
  m_dsssSupported : bool;
  m_rifsSupported : bool;
  GetHtConfiguration : option bool;
  GetMsduAggregator : bool;
  GetMpduAggregator : bool;
  ConfigureDcf_calls : list (N * N * bool)
}.

(** [RegularWifiMac::SetQosSupported]. *)
Definition SetQosSupported (enable : bool) (c : MacConfiguration) : MacConfiguration :=
  {| GetSessions := set_qosSupported enable (GetSessions c);
     m_dmgSupported := m_dmgSupported c; m_edmgSupported := m_edmgSupported c;
     m_erpSupported := m_erpSupported c; m_dsssSupported := m_dsssSupported c;
     m_rifsSupported := m_rifsSupported c; GetHtConfiguration := GetHtConfiguration c;
     GetMsduAggregator := GetMsduAggregator c; GetMpduAggregator := GetMpduAggregator c;
     ConfigureDcf_calls := ConfigureDcf_calls c |}.

(** [RegularWifiMac::SetDsssSupported]. *)
Definition SetDsssSupported (enable : bool) (c : MacConfiguration) : MacConfiguration :=
  {| GetSessions := GetSessions c;
     m_dmgSupported := m_dmgSupported c; m_edmgSupported := m_edmgSupported c;
     m_erpSupported := m_erpSupported c; m_dsssSupported := enable;
     m_rifsSupported := m_rifsSupported c; GetHtConfiguration := GetHtConfiguration c;
     GetMsduAggregator := GetMsduAggregator c; GetMpduAggregator := GetMpduAggregator c;
     ConfigureDcf_calls := ConfigureDcf_calls c |}.

(** [RegularWifiMac::SetErpSupported]. *)
Definition SetErpSupported (enable : bool) (c : MacConfiguration) : MacConfiguration :=
  let c := if enable then SetDsssSupported true c else c in
  {| GetSessions := GetSessions c;
     m_dmgSupported := m_dmgSupported c; m_edmgSupported := m_edmgSupported c;
     m_erpSupported := enable; m_dsssSupported := m_dsssSupported c;
     m_rifsSupported := m_rifsSupported c; GetHtConfiguration := GetHtConfiguration c;
     GetMsduAggregator := GetMsduAggregator c; GetMpduAggregator := GetMpduAggregator c;
     ConfigureDcf_calls := ConfigureDcf_calls c |}.

Definition SetMsduAggregator (present : bool) (c : MacConfiguration) : MacConfiguration :=
  {| GetSessions := GetSessions c;
     m_dmgSupported := m_dmgSupported c; m_edmgSupported := m_edmgSupported c;
     m_erpSupported := m_erpSupported c; m_dsssSupported := m_dsssSupported c;
     m_rifsSupported := m_rifsSupported c; GetHtConfiguration := GetHtConfiguration c;
     GetMsduAggregator := present; GetMpduAggregator := GetMpduAggregator c;
     ConfigureDcf_calls := ConfigureDcf_calls c |}.

Definition SetMpduAggregator (present : bool) (c : MacConfiguration) : MacConfiguration :=
  {| GetSessions := GetSessions c;
     m_dmgSupported := m_dmgSupported c; m_edmgSupported := m_edmgSupported c;
     m_erpSupported := m_erpSupported c; m_dsssSupported := m_dsssSupported c;
     m_rifsSupported := m_rifsSupported c; GetHtConfiguration := GetHtConfiguration c;
     GetMsduAggregator := GetMsduAggregator c; GetMpduAggregator := present;
     ConfigureDcf_calls := ConfigureDcf_calls c |}.

(** [RegularWifiMac::EnableAggregation]: an aggregator is created where
    [m_low] holds none. *)
Definition EnableAggregation (c : MacConfiguration) : MacConfiguration :=
  let c := if GetMsduAggregator c then c else SetMsduAggregator true c in
  if GetMpduAggregator c then c else SetMpduAggregator true c.

(** [RegularWifiMac::DisableAggregation]. *)
Definition DisableAggregation (c : MacConfiguration) : MacConfiguration :=
  SetMpduAggregator false (SetMsduAggregator false c).

(** [RegularWifiMac::SetDmgSupported]. *)
Definition SetDmgSupported (enable : bool) (c : MacConfiguration) : MacConfiguration :=
  let c :=
    {| GetSessions := GetSessions c;
       m_dmgSupported := enable; m_edmgSupported := m_edmgSupported c;
       m_erpSupported := m_erpSupported c; m_dsssSupported := m_dsssSupported c;
       m_rifsSupported := m_rifsSupported c; GetHtConfiguration := GetHtConfiguration c;
       GetMsduAggregator := GetMsduAggregator c; GetMpduAggregator := GetMpduAggregator c;
       ConfigureDcf_calls := ConfigureDcf_calls c |} in
  if enable then EnableAggregation (SetQosSupported true c)
  else DisableAggregation c.

(** [RegularWifiMac::SetEdmgSupported]. *)
Definition SetEdmgSupported (enable : bool) (c : MacConfiguration) : MacConfiguration :=
  let c :=
    {| GetSessions := GetSessions c;
       m_dmgSupported := m_dmgSupported c; m_edmgSupported := enable;
       m_erpSupported := m_erpSupported c; m_dsssSupported := m_dsssSupported c;
       m_rifsSupported := m_rifsSupported c; GetHtConfiguration := GetHtConfiguration c;
       GetMsduAggregator := GetMsduAggregator c; GetMpduAggregator := GetMpduAggregator c;
       ConfigureDcf_calls := ConfigureDcf_calls c |} in
  if enable then EnableAggregation (SetQosSupported true c)
  else DisableAggregation c.

(** [RegularWifiMac::ConfigureContentionWindow]. *)
Definition ConfigureContentionWindow (cwMin cwMax : N) (c : MacConfiguration)
  : MacConfiguration :=
  let isDsssOnly := m_dsssSupported c && negb (m_erpSupported c) in
  {| GetSessions := GetSessions c;
     m_dmgSupported := m_dmgSupported c; m_edmgSupported := m_edmgSupported c;
     m_erpSupported := m_erpSupported c; m_dsssSupported := m_dsssSupported c;
     m_rifsSupported := m_rifsSupported c; GetHtConfiguration := GetHtConfiguration c;
     GetMsduAggregator := GetMsduAggregator c; GetMpduAggregator := GetMpduAggregator c;
     ConfigureDcf_calls := ConfigureDcf_calls c ++ [(cwMin, cwMax, isDsssOnly)] |}.

(** The statements the two groups of HT cases of the switch share:
    aggregation is enabled, the HT configuration must exist
    ([NS_ASSERT (htConfiguration)]) and is given the RIFS attribute, and QoS
    is switched on. *)
Definition configure_ht (c : MacConfiguration) : option MacConfiguration :=
  let c := EnableAggregation c in
  match GetHtConfiguration c with
  | None => None
  | Some _ =>
      Some (SetQosSupported true
              {| GetSessions := GetSessions c;
                 m_dmgSupported := m_dmgSupported c; m_edmgSupported := m_edmgSupported c;
                 m_erpSupported := m_erpSupported c; m_dsssSupported := m_dsssSupported c;
                 m_rifsSupported := m_rifsSupported c;
                 GetHtConfiguration := Some (m_rifsSupported c);
                 GetMsduAggregator := GetMsduAggregator c;
                 GetMpduAggregator := GetMpduAggregator c;
                 ConfigureDcf_calls := ConfigureDcf_calls c |})
  end.

(** [RegularWifiMac::FinishConfigureStandard]. The cases of the 2.4 GHz HT
    standards fall through into the case of 802.11g, and that one into the
    cases of the OFDM standards; [None] is the run aborted by the failed
    assertion or by [NS_FATAL_ERROR]. *)
Definition FinishConfigureStandard (standard : PhyStandard.WifiPhyStandard)
  (c : MacConfiguration) : option MacConfiguration :=
  match standard with
  | PhyStandard.WIFI_PHY_STANDARD_80211ad =>
      Some (ConfigureContentionWindow 15 1023 (SetDmgSupported true c))
  | PhyStandard.WIFI_PHY_STANDARD_80211ay =>
      Some (ConfigureContentionWindow 15 1023 (SetEdmgSupported true c))
  | PhyStandard.WIFI_PHY_STANDARD_80211ax_5GHZ
  | PhyStandard.WIFI_PHY_STANDARD_80211ac
  | PhyStandard.WIFI_PHY_STANDARD_80211n_5GHZ =>
      c ← configure_ht c;
      Some (ConfigureContentionWindow 15 1023 c)
  | PhyStandard.WIFI_PHY_STANDARD_80211ax_2_4GHZ
  | PhyStandard.WIFI_PHY_STANDARD_80211n_2_4GHZ =>
      c ← configure_ht c;
      Some (ConfigureContentionWindow 15 1023 (SetErpSupported true c))
  | PhyStandard.WIFI_PHY_STANDARD_80211g =>
      Some (ConfigureContentionWindow 15 1023 (SetErpSupported true c))
  | PhyStandard.WIFI_PHY_STANDARD_holland
  | PhyStandard.WIFI_PHY_STANDARD_80211a
  | PhyStandard.WIFI_PHY_STANDARD_80211_10MHZ
  | PhyStandard.WIFI_PHY_STANDARD_80211_5MHZ =>
      Some (ConfigureContentionWindow 15 1023 c)
  | PhyStandard.WIFI_PHY_STANDARD_80211b =>
      Some (ConfigureContentionWindow 31 1023 (SetDsssSupported true c))
  | PhyStandard.WIFI_PHY_STANDARD_unlisted _ => None
  end.

(** [RegularWifiMac::SetRifsSupported] and [RegularWifiMac::GetRifsSupported]:
    the value goes to, and comes from, the HT configuration when there is
    one ([None] also stands for a device that is not a [WifiNetDevice]). *)
Definition SetRifsSupported (enable : bool) (c : MacConfiguration) : MacConfiguration :=
  {| GetSessions := GetSessions c;
     m_dmgSupported := m_dmgSupported c; m_edmgSupported := m_edmgSupported c;
     m_erpSupported := m_erpSupported c; m_dsssSupported := m_dsssSupported c;
     m_rifsSupported := enable;
     GetHtConfiguration :=
       match GetHtConfiguration c with
       | Some _ => Some enable
       | None => None
       end;
     GetMsduAggregator := GetMsduAggregator c; GetMpduAggregator := GetMpduAggregator c;
     ConfigureDcf_calls := ConfigureDcf_calls c |}.

Definition GetRifsSupported (c : MacConfiguration) : bool :=
  match GetHtConfiguration c with
  | Some rifsSupported => rifsSupported
  | None => m_rifsSupported c
  end.

(** The members as the constructor of [RegularWifiMac] initialises them: no
    support flag is set and [m_low] holds no aggregator; the address, the
    RIFS attribute and the HT configuration are the surroundings. *)
Definition MacConfiguration_new (address : Mac48Address) (rifs : bool)
  (htConfiguration : option bool) : MacConfiguration :=
  {| GetSessions := set_qosSupported false (RegularWifiMac_new address 0 STA);
     m_dmgSupported := false; m_edmgSupported := false;
     m_erpSupported := false; m_dsssSupported := false;
     m_rifsSupported := rifs; GetHtConfiguration := htConfiguration;
     GetMsduAggregator := false; GetMpduAggregator := false;
     ConfigureDcf_calls := [] |}.

(** ** The configuration of the device *)

Definition set_list (l : gmap WifiPhyStandard WifiTechnology) (d : MultiBandNetDevice)
  : MultiBandNetDevice :=
  {| m_list := l; m_mac := m_mac d; m_phy := m_phy d;
     m_stationManager := m_stationManager d; m_standard := m_standard d;
     m_macs := m_macs d; m_managers := m_managers d; m_calls := m_calls d |}.

(** [MultiBandNetDevice::AddNewWifiTechnology]. *)
Definition AddNewWifiTechnology (phy mac station : Ptr) (standard : WifiPhyStandard)
  (operational : bool) (d : MultiBandNetDevice) : MultiBandNetDevice :=
  let technology :=
    {| Phy := phy; Mac := mac; StationManager := station; Operational := operational |} in
  set_list (<[standard := technology]> (m_list d)) d.

(** [MultiBandNetDevice::GetTechnologyMac] and
    [MultiBandNetDevice::GetTechnologyPhy]: the pointer returned and the
    device after the call ([m_list[standard]] leaves an entry for
    [standard]). *)
Definition GetTechnologyMac (standard : WifiPhyStandard) (d : MultiBandNetDevice)
  : Ptr * MultiBandNetDevice :=
  let technology := default WifiTechnology_default (m_list d !! standard) in
  (Mac technology, set_list (<[standard := technology]> (m_list d)) d).

Definition GetTechnologyPhy (standard : WifiPhyStandard) (d : MultiBandNetDevice)
  : Ptr * MultiBandNetDevice :=
  let technology := default WifiTechnology_default (m_list d !! standard) in
  (Phy technology, set_list (<[standard := technology]> (m_list d)) d).

(** The device with the members its configuration reads and writes.
    [m_connected] keeps what the second loop of [CompleteConfig] did: the
    MAC, PHY and station manager of each technology it connected with one
    another and with the callbacks of the device. *)
Record DeviceConfiguration := {
  GetDevice : MultiBandNetDevice;
  m_node : Ptr;
  m_configComplete : bool;
  m_connected : gset (Ptr * Ptr * Ptr)
}.

Definition on_device (f : MultiBandNetDevice -> MultiBandNetDevice)
  (d : DeviceConfiguration) : DeviceConfiguration :=
  {| GetDevice := f (GetDevice d); m_node := m_node d;
     m_configComplete := m_configComplete d; m_connected := m_connected d |}.

(** The technologies of [m_list]. *)
Definition technologies (d : DeviceConfiguration) : list WifiTechnology :=
  (map_to_list (m_list (GetDevice d))).*2.

(** The test of the first loop of [CompleteConfig], negated. *)
Definition technology_ready (t : WifiTechnology) : bool :=
  negb (bool_decide (Mac t = 0) || bool_decide (Phy t = 0)
        || bool_decide (StationManager t = 0)).

(** [MultiBandNetDevice::CompleteConfig]. *)
Definition CompleteConfig (d : DeviceConfiguration) : DeviceConfiguration :=
  if bool_decide (m_node d = 0) || m_configComplete d then d
  else if forallb technology_ready (technologies d) then
    {| GetDevice := GetDevice d; m_node := m_node d;
       m_configComplete := true;
       m_connected :=
         m_connected d ∪
         list_to_set ((fun t => (Mac t, Phy t, StationManager t)) <$> technologies d) |}
  else d.

(** [MultiBandNetDevice::SetNode]. *)
Definition SetNode (node : Ptr) (d : DeviceConfiguration) : DeviceConfiguration :=
  CompleteConfig
    {| GetDevice := GetDevice d; m_node := node;
       m_configComplete := m_configComplete d; m_connected := m_connected d |}.

(** [MultiBandNetDevice::DoInitialize]: the three objects of every
    technology are initialised, which ends the run at a null pointer; what
    [Initialize] does to an object is not looked into. *)
Definition DoInitialize (d : DeviceConfiguration) : option DeviceConfiguration :=
  if forallb technology_ready (technologies d) then Some d else None.

(** The device as its constructor leaves it, with the MAC objects [h] in the
    store: no technology is registered, none is in use and there is no node;
    [standard] is the value of [m_standard], which the constructor does not
    set. *)
Definition MultiBandNetDevice_new (h : gmap Ptr RegularWifiMac)
  (standard : WifiPhyStandard) : DeviceConfiguration :=
  {| GetDevice :=
       {| m_list := ∅; m_mac := 0; m_phy := 0; m_stationManager := 0;
          m_standard := standard;
          m_macs := h; m_managers := ∅; m_calls := [] |};
     m_node := 0; m_configComplete := false; m_connected := ∅ |}.

(** The calls that set a device up, and a sequence of them. *)
Inductive SetupCall :=
| AddNewWifiTechnology_call (phy mac station : Ptr) (standard : WifiPhyStandard)
    (operational : bool)
| GetTechnologyMac_call (standard : WifiPhyStandard)
| GetTechnologyPhy_call (standard : WifiPhyStandard)
| SwitchTechnology_call (standard : WifiPhyStandard)
| CompleteConfig_call
| SetNode_call (node : Ptr).

Definition setup_call (c : SetupCall) (d : DeviceConfiguration) : DeviceConfiguration :=
  match c with
  | AddNewWifiTechnology_call phy mac station standard operational =>
      on_device (AddNewWifiTechnology phy mac station standard operational) d
  | GetTechnologyMac_call standard => on_device (fun d => (GetTechnologyMac standard d).2) d
  | GetTechnologyPhy_call standard => on_device (fun d => (GetTechnologyPhy standard d).2) d
  | SwitchTechnology_call standard => on_device (SwitchTechnology standard) d
  | CompleteConfig_call => CompleteConfig d
  | SetNode_call node => SetNode node d
  end.

Definition setup_calls (calls : list SetupCall) (d : DeviceConfiguration)
  : DeviceConfiguration :=
  foldl (fun d c => setup_call c d) d calls.

(** ** The capability elements *)

(** [std::max ({m_voMaxAmsduSize, m_viMaxAmsduSize, m_beMaxAmsduSize,
    m_bkMaxAmsduSize})]. *)
Definition maxAmsduSize (vo vi be bk : N) : N :=
  N.max vo (N.max vi (N.max be bk)).

(** The maximum A-MSDU length [RegularWifiMac::GetHtCapabilities] puts in
    the HT capabilities. *)
Definition GetHtCapabilities_MaxAmsduLength (vo vi be bk : N) : N :=
  if maxAmsduSize vo vi be bk <=? 3839 then 3839 else 7935.

(** The maximum MPDU length [RegularWifiMac::GetVhtCapabilities] puts in the
    VHT capabilities. *)
Definition GetVhtCapabilities_MaxMpduLength (vo vi be bk : N) : N :=
  if maxAmsduSize vo vi be bk <=? 3839 then 3895
  else if maxAmsduSize vo vi be bk <=? 7935 then 7991
  else 11454.

(** The channel width set [RegularWifiMac::GetHeCapabilities] puts in the HE
    capabilities, from the channel width of the PHY and the two tests on its
    frequency. *)
Definition GetHeCapabilities_ChannelWidthSet (channelWidth : N) (is2_4Ghz is5Ghz : bool)
  : N :=
  let channelWidthSet := 0 in
  let channelWidthSet :=
    if (40 <=? channelWidth) && is2_4Ghz then N.lor channelWidthSet 1
    else channelWidthSet in
  let channelWidthSet :=
    if (80 <=? channelWidth) && is5Ghz then N.lor channelWidthSet 2
    else channelWidthSet in
  let channelWidthSet :=
    if (160 <=? channelWidth) && is5Ghz then N.lor channelWidthSet 4
    else channelWidthSet in
  channelWidthSet.

(** The guard-interval field of the same element, from the guard interval
    of the HE configuration in nanoseconds. *)
Definition GetHeCapabilities_HeLtfAndGi (guardInterval : Z) : N :=
  let gi := 0 in
  let gi := if (guardInterval <=? 1600)%Z then N.lor gi 1 else gi in
  let gi := if (guardInterval =? 800)%Z then N.lor gi 2 else gi in
  gi.

(** ** More concrete stations and devices *)

(** A Setup Request of a peer that names a band the code has no standard
    for, with a zero link-loss timeout. *)
Definition request_for_unknown_band : ExtFstSetupRequest :=
  {| GetSessionTransition :=
       {| GetNewBand := {| Band_ID := Band_other 9; Setup := true; Operation := true |};
          GetOldBand := {| Band_ID := Band_60GHz; Setup := true; Operation := true |};
          GetFstsID := 3;
          GetSessionControl := (SessionType_InfrastructureBSS, false) |};
     GetLlt := 0;
     GetDialogToken := 10 |}.

(** Station 1 with a responder session with peer 7 whose link-loss timeout
    is 9, and the session. *)
Definition responder_session_9 : FstSession :=
  {| ID := 3; CurrentState := FST_INITIAL_STATE; IsInitiator := false;
     NewBandId := Band_4_9GHz; LLT := 9; LinkLossCountDownEvent := None |}.

Definition responder_world_9 : World :=
  on_mac (store_session 7 responder_session_9) (World_new 1 5).

(** A MAC without HT configuration after its configuration for 802.11a, and
    a MAC after its configuration for 802.11g. *)
Definition configured_for_80211a : MacConfiguration :=
  ConfigureContentionWindow 15 1023 (MacConfiguration_new 1 false None).

Definition configured_for_80211g : MacConfiguration :=
  ConfigureContentionWindow 15 1023
    (SetErpSupported true (MacConfiguration_new 1 false None)).

(** ** Properties of the scheduler *)

Lemma Schedule_wf delay peer band isInitiator s :
  sim_wf s -> sim_wf (Schedule delay peer band isInitiator s).2.
Proof.
  unfold sim_wf. intros Hwf. cbn. apply Forall_app. split.
  - eapply Forall_impl; [exact Hwf|]. cbn. intros e He. lia.
  - constructor; [cbn; lia | constructor].
Qed.

Lemma Cancel_wf id s : sim_wf s -> sim_wf (Cancel id s).
Proof.
  unfold sim_wf. destruct id as [u|]; cbn; [|done].
  intros Hwf. apply Forall_forall. intros e He.
  apply list_elem_of_filter in He as [_ He].
  rewrite Forall_forall in Hwf. by apply Hwf.
Qed.

Lemma IsRunning_Cancel id s : IsRunning id (Cancel id s) = false.
Proof.
  destruct id as [u|]; [|done]. cbn.
  apply bool_decide_eq_false. rewrite Exists_exists.
  intros (e & He & Hu). apply list_elem_of_filter in He as [Hne _]. done.
Qed.

Lemma IsRunning_fresh s : sim_wf s -> IsRunning (Some (m_uid s)) s = false.
Proof.
  unfold sim_wf. intros Hwf. cbn.
  apply bool_decide_eq_false. rewrite Exists_exists.
  intros (e & He & Hu). rewrite Forall_forall in Hwf.
  specialize (Hwf e He). lia.
Qed.

Lemma next_event_elem_of l e : next_event l = Some e -> e ∈ l.
Proof.
  revert e. induction l as [|a l IH]; intros e; cbn; [done|].
  destruct (next_event l) as [e'|].
  - destruct (ev_ts e' <? ev_ts a); intros [= <-].
    + right. by apply IH.
    + left.
  - intros [= <-]. left.
Qed.

Lemma next_event_earliest l e :
  next_event l = Some e -> Forall (fun e' => ev_ts e <= ev_ts e') l.
Proof.
  revert e. induction l as [|a l IH]; intros e; cbn; [constructor|].
  destruct (next_event l) as [e'|] eqn:Hn.
  - specialize (IH e' eq_refl).
    destruct (ev_ts e' <? ev_ts a) eqn:Hlt; intros [= <-].
    + apply N.ltb_lt in Hlt. constructor; [lia | done].
    + apply N.ltb_ge in Hlt. constructor; [lia|].
      eapply Forall_impl; [exact IH|]. cbn. intros x Hx. lia.
  - intros [= <-]. destruct l as [|b l].
    + constructor; [lia | constructor].
    + cbn in Hn. destruct (next_event l); [destruct (_ <? _)|]; done.
Qed.

(** When the event [e] is the next one to run, the scheduler step moves the
    clock to its time stamp and calls [ChangeBand] with its arguments. *)
Lemma run_next_calls_ChangeBand w e :
  next_event (m_events (sim w)) = Some e ->
  exists w', run_next w = Some w' /\
    mac w' = ChangeBand (ev_peer e) (ev_band e) (ev_isInitiator e) (mac w) /\
    Now (sim w') = ev_ts e.
Proof. intros He. unfold run_next. rewrite He. eauto. Qed.

Lemma uint32_small n : n < 2 ^ 32 -> uint32 n = n.
Proof. intros Hn. unfold uint32. by apply N.mod_small. Qed.

(** A timeout below [2 ^ 27] is the range in which [LLT * 32] does not wrap
    around. *)
Lemma uint32_LLT llt : llt < 2 ^ 27 -> uint32 (llt * 32) = llt * 32.
Proof.
  intros Hl. apply uint32_small.
  change (2 ^ 27) with 134217728 in Hl. change (2 ^ 32) with 4294967296. lia.
Qed.

Lemma ChangeBand_signal peer band isInitiator m :
  m_bandChangedCallback (ChangeBand peer band isInitiator m) =
    m_bandChangedCallback m ++ band_change_signal band peer isInitiator.
Proof.
  unfold ChangeBand, band_change_signal.
  destruct band; repeat case_decide; try done. by rewrite app_nil_r.
Qed.

Lemma next_event_is_Some l e : e ∈ l -> is_Some (next_event l).
Proof.
  destruct l as [|a l]; [by intros ?%elem_of_nil|]. intros _. cbn.
  destruct (next_event l); [destruct (_ <? _)|]; eauto.
Qed.

(** The scheduler, left alone, comes to every pending event whose handle no
    other pending event shares. *)
Lemma run_steps_reaches e k : forall w,
  (length (m_events (sim w)) <= k)%nat ->
  e ∈ m_events (sim w) ->
  (forall e', e' ∈ m_events (sim w) -> ev_uid e' = ev_uid e -> e' = e) ->
  exists n w1, run_steps n w = Some w1 /\ next_event (m_events (sim w1)) = Some e.
Proof.
  induction k as [|k IH]; intros w Hlen He Huniq.
  { destruct (m_events (sim w)); [by apply elem_of_nil in He | cbn in Hlen; lia]. }
  destruct (next_event_is_Some _ _ He) as [e0 He0].
  destruct (decide (e0 = e)) as [->|Hne]; [by exists O, w|].
  assert (Hin0 : e0 ∈ m_events (sim w)) by (by apply next_event_elem_of).
  assert (Huid : ev_uid e <> ev_uid e0).
  { intros Heq. apply Hne. apply Huniq; [exact Hin0 | by symmetry]. }
  set (w' := {| mac := ChangeBand (ev_peer e0) (ev_band e0) (ev_isInitiator e0) (mac w);
                sim := {| Now := ev_ts e0; m_uid := m_uid (sim w);
                          m_events := filter (fun e' => ev_uid e' <> ev_uid e0)
                                             (m_events (sim w)) |} |}).
  assert (Hstep : run_next w = Some w') by (unfold run_next; by rewrite He0).
  destruct (IH w') as (n & w1 & Hrun & Hnext).
  - cbn [w' sim m_events].
    assert (Hlt : (length (filter (fun e' => ev_uid e' <> ev_uid e0) (m_events (sim w)))
                   < length (m_events (sim w)))%nat).
    { apply (length_filter_lt _ _ e0); [exact Hin0 | by intros H]. }
    lia.
  - cbn [w' sim m_events]. by apply list_elem_of_filter.
  - intros e' He' Heq. cbn [w' sim m_events] in He'.
    apply list_elem_of_filter in He' as [_ He']. by apply Huniq.
  - exists (S n), w1. split; [|exact Hnext]. cbn. by rewrite Hstep.
Qed.

(** An event scheduled last with a fresh handle fires. *)
Lemma last_event_fires before e w :
  m_events (sim w) = before ++ [e] ->
  Forall (fun e' => ev_uid e' < ev_uid e) before ->
  fires e w.
Proof.
  intros Hev Hfresh.
  destruct (run_steps_reaches e (length (m_events (sim w))) w) as (n & w1 & Hrun & Hnext).
  - done.
  - rewrite Hev. apply elem_of_app. right. by apply list_elem_of_singleton.
  - intros e' He' Heq. rewrite Hev in He'. apply elem_of_app in He' as [He'|He'].
    + rewrite Forall_forall in Hfresh. specialize (Hfresh e' He'). lia.
    + by apply list_elem_of_singleton in He'.
  - destruct (run_next_calls_ChangeBand _ _ Hnext) as (w2 & Hstep & Hmac & Hnow).
    exists n, w1, w2. do 3 (split; [done|]). split; [done|].
    rewrite Hmac. apply ChangeBand_signal.
Qed.
(** ** Properties of the session handling *)

Lemma session_at_lookup addr m s :
  m_fstSessionMap m !! addr = Some s -> session_at addr m = s.
Proof. unfold session_at. by intros ->. Qed.

Lemma store_session_lookup addr s m :
  m_fstSessionMap (store_session addr s m) !! addr = Some s.
Proof. cbn. apply lookup_insert_eq. Qed.

Lemma store_session_lookup_ne addr addr' s m :
  addr <> addr' ->
  m_fstSessionMap (store_session addr s m) !! addr' = m_fstSessionMap m !! addr'.
Proof. intros Hne. cbn. by apply lookup_insert_ne. Qed.

Lemma ChangeBand_fstSessionMap peer band isInitiator m :
  m_fstSessionMap (ChangeBand peer band isInitiator m) = m_fstSessionMap m.
Proof. unfold ChangeBand. repeat case_decide; reflexivity. Qed.

Lemma setup_response_done_zero peer isInitiator w s :
  m_fstSessionMap (mac w) !! peer = Some s -> LLT s = 0 ->
  setup_response_done peer isInitiator w =
    {| mac := ChangeBand peer (NewBandId s) isInitiator
                (store_session peer (set_CurrentState FST_TRANSITION_DONE_STATE s) (mac w));
       sim := sim w |}.
Proof.
  intros Hs Hz. unfold setup_response_done.
  rewrite (session_at_lookup _ _ _ Hs). cbn. by rewrite decide_True.
Qed.

Lemma setup_response_done_pos peer isInitiator w s :
  m_fstSessionMap (mac w) !! peer = Some s -> LLT s <> 0 ->
  setup_response_done peer isInitiator w =
    {| mac := store_session peer
                (set_LinkLossCountDownEvent (Some (m_uid (sim w)))
                   (set_CurrentState FST_SETUP_COMPLETION_STATE s)) (mac w);
       sim := {| Now := Now (sim w); m_uid := m_uid (sim w) + 1;
                 m_events := m_events (sim w) ++ [countdown peer s isInitiator w] |} |}.
Proof.
  intros Hs Hz. unfold setup_response_done.
  rewrite (session_at_lookup _ _ _ Hs). cbn. by rewrite decide_False.
Qed.

Lemma IsRunning_last before e s :
  m_events s = before ++ [e] -> IsRunning (Some (ev_uid e)) s = true.
Proof.
  intros He. cbn. apply bool_decide_eq_true. rewrite He.
  apply Exists_app. right. by constructor.
Qed.

Lemma sim_wf_fresh s :
  sim_wf s -> Forall (fun e' => ev_uid e' < m_uid s) (m_events s).
Proof. done. Qed.

(** With a timeout in the range where the product does not wrap around, the
    shared body arms the countdown; the flag bound into it is the one the
    caller passes. *)
Lemma setup_response_done_armed peer w s :
  sim_wf (sim w) ->
  m_fstSessionMap (mac w) !! peer = Some s -> LLT s <> 0 -> LLT s < 2 ^ 27 ->
  countdown_armed peer s (m_events (sim w)) w
    (setup_response_done peer (IsInitiator s) w).
Proof.
  intros Hwf Hs Hz Hb. rewrite (setup_response_done_pos _ _ _ _ Hs Hz).
  unfold countdown_armed, countdown. rewrite (uint32_LLT _ Hb).
  cbn [mac sim m_events Now].
  split.
  { eexists. split; [apply store_session_lookup|]. done. }
  do 3 (split; [reflexivity|]).
  split; [apply bool_decide_eq_true, Exists_app; right; by constructor|].
  apply (last_event_fires (m_events (sim w))); [reflexivity | exact Hwf].
Qed.





(** A peer without a session is not affected by the two notifications. *)
Lemma refresh_countdown_unknown w address :
  m_fstSessionMap (mac w) !! address = None -> refresh_countdown address w = w.
Proof. intros Hs. unfold refresh_countdown. by rewrite Hs. Qed.


(** C8: a Setup Response with a non-zero status code leaves the station as
    it was: the initiator's session stays in the initial state, no countdown
    is scheduled and no band change is signalled. *)
Theorem setup_response_failure_aborts (w : World) (peer token status : N)
  (s : FstSession) :
  m_qosSupported (mac w) = true ->
  m_fstSessionMap (mac w) !! peer = Some s ->
  IsInitiator s = true ->
  CurrentState s = FST_INITIAL_STATE ->
  status <> 0 ->
  exists w',
    Receive {| GetAddr1 := GetAddress (mac w); GetAddr2 := peer;
               GetPacket := MgtAction (FST (FST_SETUP_RESPONSE token status)) |} w
      = Returns w' /\
    w' = w /\
    CurrentState <$> m_fstSessionMap (mac w') !! peer = Some FST_INITIAL_STATE /\
    LinkLossCountDownEvent <$> m_fstSessionMap (mac w') !! peer
      = Some (LinkLossCountDownEvent s) /\
    m_events (sim w') = m_events (sim w) /\
    m_bandChangedCallback (mac w') = m_bandChangedCallback (mac w).
Proof.
  intros Hqos Hs Hini Hst Hstatus. exists w. split.
  - unfold Receive, Receive_in. cbn. rewrite decide_False by (intros H; by apply H).
    rewrite Hqos. cbn. by rewrite decide_False.
  - rewrite Hs. cbn. by rewrite Hst.
Qed.

Lemma SetupFSTSession_fstId staAddress m :
  m_fstId (SetupFSTSession staAddress m) = uint32 (m_fstId m + 1).
Proof. reflexivity. Qed.

Lemma SetupFSTSession_session staAddress m :
  m_fstSessionMap (SetupFSTSession staAddress m) !! staAddress =
    Some {| ID := uint32 (m_fstId m + 1); CurrentState := FST_INITIAL_STATE;
            IsInitiator := true; NewBandId := Band_4_9GHz; LLT := m_llt m;
            LinkLossCountDownEvent := None |}.
Proof. apply lookup_insert_eq. Qed.

(** The session counter after [n] local initiations. *)
Lemma SetupFSTSession_iter staAddress m n :
  m_fstId m < 2 ^ 32 ->
  m_fstId (N.iter n (SetupFSTSession staAddress) m) = uint32 (m_fstId m + n).
Proof.
  intros Hb. induction n as [|n IH] using N.peano_ind.
  - cbn [N.iter]. rewrite N.add_0_r. symmetry. by apply uint32_small.
  - rewrite N.iter_succ, SetupFSTSession_fstId, IH. unfold uint32.
    rewrite N.Div0.add_mod_idemp_l. f_equal. lia.
Qed.

(** C10, as amended: a local initiation, whatever technology the device
    currently uses, advances the session counter by one in [uint32_t], stores
    for the peer an initiator session in the initial state whose identifier
    is the new counter value and whose new band is 4.9 GHz, and queues a
    Setup Request whose session-transition element carries new band 4.9 GHz,
    old band 60 GHz and the same identifier. The next local initiation uses
    that identifier advanced by one in [uint32_t]: the identifier exactly
    one greater as long as that is below [2 ^ 32], and 0 after
    [2 ^ 32 - 1]. *)
Theorem SetupFSTSession_fixed_band_pair (d : MultiBandNetDevice) (m : RegularWifiMac)
  (staAddress next : N) :
  m_macs d !! m_mac d = Some m ->
  exists d' m' requestHdr,
    EstablishFastSessionTransferSession staAddress d = Some d' /\
    m_standard d' = m_standard d /\
    m_macs d' !! m_mac d = Some m' /\
    m' = SetupFSTSession staAddress m /\
    m_fstId m' = uint32 (m_fstId m + 1) /\
    (m_fstId m + 1 < 2 ^ 32 -> m_fstId m' = m_fstId m + 1) /\
    m_fstSessionMap m' !! staAddress =
      Some {| ID := m_fstId m'; CurrentState := FST_INITIAL_STATE;
              IsInitiator := true; NewBandId := Band_4_9GHz; LLT := m_llt m;
              LinkLossCountDownEvent := None |} /\
    m_txop m' = m_txop m ++
      [ {| GetAddr1 := staAddress; GetAddr2 := GetAddress m;
           GetPacket := MgtAction (FST (FST_SETUP_REQUEST requestHdr)) |} ] /\
    Band_ID (GetNewBand (GetSessionTransition requestHdr)) = Band_4_9GHz /\
    Band_ID (GetOldBand (GetSessionTransition requestHdr)) = Band_60GHz /\
    GetFstsID (GetSessionTransition requestHdr) = m_fstId m' /\
    ID <$> m_fstSessionMap (SetupFSTSession next m') !! next
      = Some (uint32 (m_fstId m' + 1)) /\
    (m_fstId m' + 1 < 2 ^ 32 ->
       ID <$> m_fstSessionMap (SetupFSTSession next m') !! next
         = Some (m_fstId m' + 1)) /\
    (m_fstId m' = 2 ^ 32 - 1 ->
       ID <$> m_fstSessionMap (SetupFSTSession next m') !! next = Some 0).
Proof.
  intros Hm. unfold EstablishFastSessionTransferSession. rewrite Hm. cbn.
  eexists _, _, _. split; [reflexivity|]. split; [reflexivity|].
  split; [apply lookup_insert_eq|]. split; [reflexivity|].
  split; [reflexivity|]. split; [intros Hb; by apply uint32_small|].
  split; [apply lookup_insert_eq|].
  split; [reflexivity|]. do 3 (split; [reflexivity|]).
  rewrite lookup_insert_eq. cbn [fmap option_fmap option_map ID].
  split; [reflexivity|]. split.
  - intros Hb. by rewrite uint32_small.
  - intros ->. reflexivity.
Qed.

(** *** Fresh handles are an invariant of every handler and of the scheduler *)

Lemma Simulator_new_wf : sim_wf Simulator_new.
Proof. constructor. Qed.

Lemma setup_response_done_wf peer isInitiator w :
  sim_wf (sim w) -> sim_wf (sim (setup_response_done peer isInitiator w)).
Proof.
  intros Hwf. unfold setup_response_done. case_decide; [done|].
  apply (Schedule_wf _ peer _ isInitiator _ Hwf).
Qed.

Lemma TxOk_wf item w : sim_wf (sim w) -> sim_wf (sim (TxOk item w)).
Proof.
  intros Hwf. unfold TxOk.
  destruct (GetPacket item) as [[[]|]|]; try done.
  by apply setup_response_done_wf.
Qed.

Lemma Receive_wf mpdu w w' :
  Receive mpdu w = Returns w' -> sim_wf (sim w) -> sim_wf (sim w').
Proof.
  intros HR Hwf. unfold Receive, Receive_in in HR.
  case_decide; [by injection HR as <-|].
  destruct (GetPacket mpdu) as [[[]|]|]; try done;
    destruct (m_qosSupported (mac w)); try done; cbn in HR;
    try (by injection HR as <-).
  case_decide; injection HR as <-; [by apply setup_response_done_wf | done].
Qed.

Lemma refresh_countdown_wf address w :
  sim_wf (sim w) -> sim_wf (sim (refresh_countdown address w)).
Proof.
  intros Hwf. unfold refresh_countdown.
  destruct (m_fstSessionMap (mac w) !! address) as [s|]; [|done].
  destruct (_ && _); [|done].
  apply (Schedule_wf _ address _ _ _ (Cancel_wf _ _ Hwf)).
Qed.

Lemma run_next_wf w w' : run_next w = Some w' -> sim_wf (sim w) -> sim_wf (sim w').
Proof.
  unfold run_next, sim_wf. destruct (next_event _) as [e|]; [|done].
  intros [= <-] Hwf. cbn. apply Forall_forall. intros e' He'.
  apply list_elem_of_filter in He' as [_ He'].
  rewrite Forall_forall in Hwf. by apply Hwf.
Qed.

(** A session that exists for the peer is moved to the initial state by a
    Teardown, and nothing else changes; in particular the scheduler is left
    as it was. *)
Lemma Receive_teardown w peer fstsID s :
  m_qosSupported (mac w) = true ->
  m_fstSessionMap (mac w) !! peer = Some s ->
  Receive (fst_frame (GetAddress (mac w)) peer (FST_TEAR_DOWN fstsID)) w =
    Returns {| mac := store_session peer (set_CurrentState FST_INITIAL_STATE s) (mac w);
               sim := sim w |}.
Proof.
  intros Hqos Hs. unfold Receive, Receive_in. cbn. rewrite decide_False by (intros H; by apply H).
  rewrite Hqos. cbn. by rewrite (session_at_lookup _ _ _ Hs).
Qed.

(** A Teardown for a session already in the initial state changes nothing. *)
Lemma Receive_teardown_initial w peer fstsID s :
  m_qosSupported (mac w) = true ->
  m_fstSessionMap (mac w) !! peer = Some s ->
  CurrentState s = FST_INITIAL_STATE ->
  Receive (fst_frame (GetAddress (mac w)) peer (FST_TEAR_DOWN fstsID)) w = Returns w.
Proof.
  intros Hqos Hs Hst. rewrite (Receive_teardown _ _ _ _ Hqos Hs). f_equal.
  destruct w as [m sm]. cbn in *. f_equal.
  destruct s as [id st ini band llt ev]. cbn in Hst. subst st.
  unfold store_session, set_CurrentState. cbn.
  rewrite (insert_id _ _ _ Hs). by destruct m.
Qed.

(** A Teardown leaves the countdown of the session as it was: the session
    keeps its handle and the scheduler its pending events, so a countdown
    that was running is still running. *)
Lemma Receive_teardown_keeps_countdown w peer fstsID s :
  m_qosSupported (mac w) = true ->
  m_fstSessionMap (mac w) !! peer = Some s ->
  exists w' s',
    Receive (fst_frame (GetAddress (mac w)) peer (FST_TEAR_DOWN fstsID)) w = Returns w' /\
    m_fstSessionMap (mac w') !! peer = Some s' /\
    CurrentState s' = FST_INITIAL_STATE /\
    LinkLossCountDownEvent s' = LinkLossCountDownEvent s /\
    sim w' = sim w /\
    IsRunning (LinkLossCountDownEvent s') (sim w') =
      IsRunning (LinkLossCountDownEvent s) (sim w).
Proof.
  intros Hqos Hs. rewrite (Receive_teardown _ _ _ _ Hqos Hs).
  eexists _, _. split; [reflexivity|]. split; [apply store_session_lookup|]. done.
Qed.

(** A local initiation and a received Setup Request leave the scheduler as
    it was and store a session whose handle names no event. *)
Lemma session_replaced_keeps_events w peer requestHdr :
  m_qosSupported (mac w) = true ->
  (LinkLossCountDownEvent <$> m_fstSessionMap (SetupFSTSession peer (mac w)) !! peer
     = Some None) /\
  exists w',
    Receive (fst_frame (GetAddress (mac w)) peer (FST_SETUP_REQUEST requestHdr)) w
      = Returns w' /\
    sim w' = sim w /\
    LinkLossCountDownEvent <$> m_fstSessionMap (mac w') !! peer = Some None.
Proof.
  intros Hqos. split.
  - cbn. by rewrite lookup_insert_eq.
  - unfold Receive, Receive_in. cbn. rewrite decide_False by (intros H; by apply H).
    rewrite Hqos. cbn. eexists. split; [reflexivity|]. split; [done|].
    cbn. by rewrite lookup_insert_eq.
Qed.

(** C1, evaluated on a run: station 1 (link-loss timeout 5) initiates a
    session with peer 7 and receives the successful Setup Response, which
    arms the countdown for time 160; at time 10 the Teardown of the peer
    arrives. The session is back in the initial state, but its countdown is
    still running, and the next scheduler step, at time 160, signals the band
    change for the peer. *)
Theorem teardown_leaves_countdown_armed :
  exists w s w',
    initiator_after_teardown = Returns w /\
    m_fstSessionMap (mac w) !! 7 = Some s /\
    CurrentState s = FST_INITIAL_STATE /\
    IsRunning (LinkLossCountDownEvent s) (sim w) = true /\
    run_next w = Some w' /\
    Now (sim w') = 160 /\
    m_bandChangedCallback (mac w') = [(WIFI_PHY_STANDARD_80211n_5GHZ, 7, true)].
Proof.
  eexists _, _, _.
  split; [vm_compute; reflexivity|].
  split; [vm_compute; reflexivity|].
  split; [reflexivity|].
  split; [vm_compute; reflexivity|].
  split; [vm_compute; reflexivity|].
  split; reflexivity.
Qed.

(** C9, evaluated on two runs: with the countdown of the session with peer 7
    pending (due at time 160), the station initiates a new session with the
    peer, or a Setup Request of the peer arrives. Either way the stored
    session is replaced by one whose handle names no event, the countdown of
    the replaced session is still pending, and the next scheduler step
    signals the band change with the arguments of the replaced session. *)
Theorem session_replaced_with_countdown_pending :
  let pending :=
    [ {| ev_uid := 0; ev_ts := 160; ev_peer := 7; ev_band := Band_4_9GHz;
         ev_isInitiator := true |} ] in
  (exists w w',
     initiator_after_second_setup = Returns w /\
     m_fstSessionMap (mac w) !! 7 =
       Some {| ID := 2; CurrentState := FST_INITIAL_STATE; IsInitiator := true;
               NewBandId := Band_4_9GHz; LLT := 5; LinkLossCountDownEvent := None |} /\
     m_events (sim w) = pending /\
     run_next w = Some w' /\
     m_bandChangedCallback (mac w') = [(WIFI_PHY_STANDARD_80211n_5GHZ, 7, true)]) /\
  (exists w w',
     initiator_after_peer_request = Returns w /\
     m_fstSessionMap (mac w) !! 7 =
       Some {| ID := 3; CurrentState := FST_INITIAL_STATE; IsInitiator := false;
               NewBandId := Band_4_9GHz; LLT := 9; LinkLossCountDownEvent := None |} /\
     m_events (sim w) = pending /\
     run_next w = Some w' /\
     m_bandChangedCallback (mac w') = [(WIFI_PHY_STANDARD_80211n_5GHZ, 7, true)]).
Proof.
  split; eexists _, _.
  - split; [vm_compute; reflexivity|].
    split; [vm_compute; reflexivity|].
    split; [reflexivity|].
    split; [vm_compute; reflexivity|]. reflexivity.
  - split; [vm_compute; reflexivity|].
    split; [vm_compute; reflexivity|].
    split; [reflexivity|].
    split; [vm_compute; reflexivity|]. reflexivity.
Qed.

(** C7, evaluated: station 1 has no session with peer 9. An Ack Response, a
    Teardown and a successful Setup Response of that peer are each accepted,
    and each leaves a session for the peer in the map: in the
    transition-confirmed, the initial and the transition-done state. *)
Theorem unknown_peer_frames_create_sessions :
  m_fstSessionMap (mac (World_new 1 5)) !! 9 = None /\
  (exists w,
     Receive (fst_frame 1 9 (FST_ACK_RESPONSE 0 4)) (World_new 1 5) = Returns w /\
     m_fstSessionMap (mac w) !! 9 =
       Some (set_CurrentState FST_TRANSITION_CONFIRMED_STATE FstSession_default)) /\
  (exists w,
     Receive (fst_frame 1 9 (FST_TEAR_DOWN 4)) (World_new 1 5) = Returns w /\
     m_fstSessionMap (mac w) !! 9 = Some FstSession_default) /\
  (exists w,
     Receive (fst_frame 1 9 (FST_SETUP_RESPONSE 0 0)) (World_new 1 5) = Returns w /\
     m_fstSessionMap (mac w) !! 9 =
       Some (set_CurrentState FST_TRANSITION_DONE_STATE FstSession_default)).
Proof.
  split; [reflexivity|].
  split; [|split]; eexists; (split; [vm_compute; reflexivity|]); vm_compute; reflexivity.
Qed.

(** ** Properties of the band switch *)

Lemma queue_of_set_queue q l m : queue_of q (set_queue q l m) = l.
Proof. by destruct q as [|[]]. Qed.

Lemma set_queue_set_queue q l1 l2 m :
  set_queue q l2 (set_queue q l1 m) = set_queue q l2 m.
Proof. by destruct q as [|[]]. Qed.

Lemma set_agreements_id ac m : set_agreements ac (m_agreements (GetEdca ac m)) m = m.
Proof. destruct m as [? ? ? ? ? ? [] [] [] [] ? ? ? ? ?]. by destruct ac. Qed.

Lemma set_association_id m : SetState (GetMacState m) (SetBssid (GetBssid m) m) = m.
Proof. by destruct m. Qed.

Lemma set_macs_id d : set_macs (m_macs d) d = d.
Proof. by destruct d. Qed.

Lemma adopt_same ac addr m : adopt ac addr m m = m.
Proof.
  unfold adopt. destruct (m_agreements (GetEdca ac m) !! addr) as [a|] eqn:Ha; [|done].
  rewrite (insert_id _ _ _ Ha). apply set_agreements_id.
Qed.

(** *** One step between two distinct MAC objects *)

Section distinct_objects.
Context (addr : Mac48Address) (src dst : Ptr) (Hne : src <> dst).

Lemma TransferPacketsByAddress_distinct q h ms md :
  h !! src = Some ms -> h !! dst = Some md ->
  exists h', TransferPacketsByAddress addr q src dst h = Some h' /\
    h' !! src = Some (strip q addr ms) /\
    h' !! dst = Some (take_over q addr ms md) /\
    forall p, p <> src -> p <> dst -> h' !! p = h !! p.
Proof.
  intros Hs Hd. unfold TransferPacketsByAddress. rewrite Hs, Hd.
  rewrite decide_False by done. eexists. split; [reflexivity|].
  split; [|split].
  - rewrite lookup_insert_ne by done. apply lookup_insert_eq.
  - apply lookup_insert_eq.
  - intros p Hps Hpd. by rewrite !lookup_insert_ne.
Qed.

Lemma CopyBlockAckAgreements_distinct ac h ms md :
  h !! src = Some ms -> h !! dst = Some md ->
  exists h', CopyBlockAckAgreements addr ac src dst h = Some h' /\
    h' !! src = Some ms /\
    h' !! dst = Some (adopt ac addr ms md) /\
    forall p, p <> src -> p <> dst -> h' !! p = h !! p.
Proof.
  intros Hs Hd. unfold CopyBlockAckAgreements, adopt. rewrite Hs, Hd.
  destruct (m_agreements (GetEdca ac ms) !! addr) as [a|].
  - eexists. split; [reflexivity|]. split; [|split].
    + by rewrite lookup_insert_ne.
    + apply lookup_insert_eq.
    + intros p Hps Hpd. by rewrite lookup_insert_ne.
  - eauto.
Qed.

Lemma transfer_step_distinct q d mo mn :
  m_macs d !! src = Some mo -> m_macs d !! dst = Some mn ->
  exists d', transfer_step addr q src dst d = Some d' /\
    m_macs d' !! src = Some (strip q addr mo) /\
    m_macs d' !! dst = Some (take_over q addr mo mn) /\
    m_calls d' = m_calls d ++ [TransferPacketsByAddress_call q addr src dst] /\
    routing d' = routing d.
Proof.
  intros Ho Hn. unfold transfer_step.
  destruct (TransferPacketsByAddress_distinct q _ _ _ Ho Hn)
    as (h' & -> & Ho' & Hn' & _).
  cbn. eauto 10.
Qed.

Lemma copy_step_distinct ac d mo mn :
  m_macs d !! src = Some mo -> m_macs d !! dst = Some mn ->
  exists d', copy_step addr ac src dst d = Some d' /\
    m_macs d' !! src = Some mo /\
    m_macs d' !! dst = Some (adopt ac addr mo mn) /\
    m_calls d' = m_calls d ++ [CopyBlockAckAgreements_call ac addr src dst] /\
    routing d' = routing d.
Proof.
  intros Ho Hn. unfold copy_step.
  destruct (CopyBlockAckAgreements_distinct ac _ _ _ Ho Hn)
    as (h' & -> & Ho' & Hn' & _).
  cbn. eauto 10.
Qed.

End distinct_objects.

(** *** One step on a MAC object that is both source and target *)

Section same_object.
Context (addr : Mac48Address) (p : Ptr).

Lemma TransferPacketsByAddress_same q h m :
  h !! p = Some m -> TransferPacketsByAddress addr q p p h = Some h.
Proof.
  intros Hm. unfold TransferPacketsByAddress. rewrite Hm. by rewrite decide_True.
Qed.

Lemma CopyBlockAckAgreements_same ac h m :
  h !! p = Some m -> CopyBlockAckAgreements addr ac p p h = Some h.
Proof.
  intros Hm. unfold CopyBlockAckAgreements. rewrite Hm.
  destruct (m_agreements (GetEdca ac m) !! addr) as [a|] eqn:Ha; [|done].
  rewrite (insert_id _ _ _ Ha), set_agreements_id. by rewrite (insert_id _ _ _ Hm).
Qed.

Lemma transfer_step_same q d m :
  m_macs d !! p = Some m ->
  exists d', transfer_step addr q p p d = Some d' /\
    m_macs d' = m_macs d /\
    m_calls d' = m_calls d ++ [TransferPacketsByAddress_call q addr p p] /\
    routing d' = routing d.
Proof.
  intros Hm. unfold transfer_step. rewrite (TransferPacketsByAddress_same q _ _ Hm).
  cbn. eauto 10.
Qed.

Lemma copy_step_same ac d m :
  m_macs d !! p = Some m ->
  exists d', copy_step addr ac p p d = Some d' /\
    m_macs d' = m_macs d /\
    m_calls d' = m_calls d ++ [CopyBlockAckAgreements_call ac addr p p] /\
    routing d' = routing d.
Proof.
  intros Hm. unfold copy_step. rewrite (CopyBlockAckAgreements_same ac _ _ Hm).
  cbn. eauto 10.
Qed.

End same_object.

Lemma copy_association_spec addr old new d o n associated :
  m_macs d !! old = Some o -> m_macs d !! new = Some n ->
  m_managers d !! m_stationManager d = Some associated ->
  exists d', copy_association addr old new d = Some d' /\
    m_macs d' = <[new := associate o n]> (m_macs d) /\
    m_managers d' = <[m_stationManager d := recorded addr n associated]> (m_managers d) /\
    m_calls d' = m_calls d /\
    m_list d' = m_list d /\ m_mac d' = m_mac d /\ m_standard d' = m_standard d /\
    m_stationManager d' = m_stationManager d.
Proof.
  intros Ho Hn Hmgr. unfold copy_association, associate, recorded.
  rewrite Ho, Hn.
  destruct (GetTypeOfStation n) eqn:Hty; cbn; rewrite ?Hmgr; cbn;
    (eexists; split; [reflexivity|]; cbn;
     repeat match goal with
       | |- context [decide ?P] => destruct (decide P) as [[?|?]|?]; try discriminate
       end;
     rewrite ?(insert_id _ _ _ Hn), ?(insert_id _ _ _ Hmgr); try done;
     try (exfalso; naive_solver)).
Qed.

(** *** Queues and agreements of the MACs the steps build *)

Lemma queue_of_strip_eq q addr m :
  queue_of q (strip q addr m) = frames_not_for addr (queue_of q m).
Proof. apply queue_of_set_queue. Qed.

Lemma queue_of_set_queue_ne q q' l m :
  q <> q' -> queue_of q (set_queue q' l m) = queue_of q m.
Proof. intros Hne. by destruct q as [|[]], q' as [|[]]. Qed.

Lemma queue_of_strip_ne q q' addr m :
  q <> q' -> queue_of q (strip q' addr m) = queue_of q m.
Proof. apply queue_of_set_queue_ne. Qed.

Lemma queue_of_take_over_eq q addr src dst :
  queue_of q (take_over q addr src dst) =
    queue_of q dst ++ frames_for addr (queue_of q src).
Proof. apply queue_of_set_queue. Qed.

Lemma queue_of_take_over_ne q q' addr src dst :
  q <> q' -> queue_of q (take_over q' addr src dst) = queue_of q dst.
Proof. apply queue_of_set_queue_ne. Qed.

Lemma queue_of_set_agreements q ac a m :
  queue_of q (set_agreements ac a m) = queue_of q m.
Proof. by destruct q as [|[]], ac. Qed.

Lemma queue_of_adopt q ac addr src dst :
  queue_of q (adopt ac addr src dst) = queue_of q dst.
Proof.
  unfold adopt. destruct (_ !! addr); [apply queue_of_set_agreements | done].
Qed.

Lemma GetEdca_associate ac o n : GetEdca ac (associate o n) = GetEdca ac n.
Proof. unfold associate. case_decide; by destruct ac. Qed.

Lemma agreements_set_queue ac q l m :
  m_agreements (GetEdca ac (set_queue q l m)) = m_agreements (GetEdca ac m).
Proof. by destruct q as [|[]], ac. Qed.

Lemma agreements_set_agreements_eq ac a m :
  m_agreements (GetEdca ac (set_agreements ac a m)) = a.
Proof. by destruct ac. Qed.

Lemma agreements_set_agreements_ne ac ac' a m :
  ac <> ac' ->
  m_agreements (GetEdca ac (set_agreements ac' a m)) = m_agreements (GetEdca ac m).
Proof. intros Hne. by destruct ac, ac'. Qed.

Lemma agreements_adopt_ne ac ac' addr src dst :
  ac <> ac' ->
  m_agreements (GetEdca ac (adopt ac' addr src dst)) = m_agreements (GetEdca ac dst).
Proof.
  intros Hne. unfold adopt.
  destruct (_ !! addr); [by apply agreements_set_agreements_ne | done].
Qed.

(** Only the agreements of the source decide what is adopted. *)
Lemma agreements_adopt_eq ac addr src src' dst dst' :
  m_agreements (GetEdca ac src) = m_agreements (GetEdca ac src') ->
  m_agreements (GetEdca ac dst) = m_agreements (GetEdca ac dst') ->
  m_agreements (GetEdca ac (adopt ac addr src dst)) =
    m_agreements (GetEdca ac (adopt ac addr src' dst')).
Proof.
  intros Hs Hd. unfold adopt. rewrite Hs.
  destruct (_ !! addr); [|done].
  by rewrite !agreements_set_agreements_eq, Hd.
Qed.

Lemma NotifyBandChanged_queue standard addr isInitiator m ac :
  GetEdca ac (NotifyBandChanged standard addr isInitiator m) = GetEdca ac m.
Proof. unfold NotifyBandChanged. by destruct isInitiator, ac. Qed.

Ltac project_queue :=
  repeat first
    [ rewrite queue_of_strip_eq
    | rewrite queue_of_take_over_eq
    | rewrite queue_of_adopt
    | rewrite queue_of_strip_ne by done
    | rewrite queue_of_take_over_ne by done ].

Ltac project_agreements :=
  unfold strip, take_over;
  repeat first
    [ rewrite agreements_set_queue
    | rewrite agreements_adopt_ne by done ].

(** The band switch between two distinct MAC objects. *)
Lemma BandChanged_distinct standard addr isInitiator d t mo mn associated :
  m_list d !! standard = Some t ->
  m_mac d <> Mac t ->
  m_macs d !! m_mac d = Some mo ->
  m_macs d !! Mac t = Some mn ->
  m_managers d !! StationManager t = Some associated ->
  exists d' mo' mn',
    BandChanged standard addr isInitiator d = Some d' /\
    m_mac d' = Mac t /\ m_standard d' = standard /\
    m_macs d' !! m_mac d = Some mo' /\
    m_macs d' !! Mac t = Some mn' /\
    (forall ac, GetWifiMacQueue (GetEdca ac mo') =
                frames_not_for addr (GetWifiMacQueue (GetEdca ac mo))) /\
    (forall ac, GetWifiMacQueue (GetEdca ac mn') =
                GetWifiMacQueue (GetEdca ac mn) ++
                frames_for addr (GetWifiMacQueue (GetEdca ac mo))) /\
    (forall ac, m_agreements (GetEdca ac mo') = m_agreements (GetEdca ac mo)) /\
    (forall ac, m_agreements (GetEdca ac mn') =
                m_agreements (GetEdca ac (adopt ac addr mo mn))) /\
    m_calls d' = m_calls d ++ BandChanged_calls standard addr isInitiator (m_mac d) (Mac t).
Proof.
  intros Hlist Hne Ho Hn Hmgr. unfold BandChanged, BandChanged_migrate.
  set (old := m_mac d) in *.
  set (d0 := SwitchTechnology standard d).
  assert (Hmac0 : m_mac d0 = Mac t) by (cbn; by rewrite Hlist).
  assert (Hsm0 : m_stationManager d0 = StationManager t) by (cbn; by rewrite Hlist).
  assert (Hstd0 : m_standard d0 = standard) by reflexivity.
  assert (Ho0 : m_macs d0 !! old = Some mo) by exact Ho.
  assert (Hn0 : m_macs d0 !! Mac t = Some mn) by exact Hn.
  assert (Hg0 : m_managers d0 = m_managers d) by reflexivity.
  assert (Hc0 : m_calls d0 = m_calls d) by reflexivity.
  rewrite Hmac0. set (new := Mac t) in *. clearbody d0.
  destruct (transfer_step_distinct addr old new Hne DCA d0 _ _ Ho0 Hn0)
    as (d1 & -> & Ho1 & Hn1 & Hc1 & Hr1).
  destruct (transfer_step_distinct addr old new Hne (EDCA AC_VO) d1 _ _ Ho1 Hn1)
    as (d2 & E2 & Ho2 & Hn2 & Hc2 & Hr2).
  destruct (transfer_step_distinct addr old new Hne (EDCA AC_VI) d2 _ _ Ho2 Hn2)
    as (d3 & E3 & Ho3 & Hn3 & Hc3 & Hr3).
  destruct (transfer_step_distinct addr old new Hne (EDCA AC_BE) d3 _ _ Ho3 Hn3)
    as (d4 & E4 & Ho4 & Hn4 & Hc4 & Hr4).
  destruct (transfer_step_distinct addr old new Hne (EDCA AC_BK) d4 _ _ Ho4 Hn4)
    as (d5 & E5 & Ho5 & Hn5 & Hc5 & Hr5).
  destruct (copy_step_distinct addr old new Hne AC_VO d5 _ _ Ho5 Hn5)
    as (d6 & E6 & Ho6 & Hn6 & Hc6 & Hr6).
  destruct (copy_step_distinct addr old new Hne AC_VI d6 _ _ Ho6 Hn6)
    as (d7 & E7 & Ho7 & Hn7 & Hc7 & Hr7).
  destruct (copy_step_distinct addr old new Hne AC_BE d7 _ _ Ho7 Hn7)
    as (d8 & E8 & Ho8 & Hn8 & Hc8 & Hr8).
  destruct (copy_step_distinct addr old new Hne AC_BK d8 _ _ Ho8 Hn8)
    as (d9 & E9 & Ho9 & Hn9 & Hc9 & Hr9).
  unfold routing in *.
  assert (Hsm9 : m_stationManager d9 = StationManager t) by congruence.
  assert (Hg9 : m_managers d9 = m_managers d) by congruence.
  assert (Hmac9 : m_mac d9 = new) by congruence.
  assert (Hstd9 : m_standard d9 = standard) by congruence.
  assert (Hmgr9 : m_managers d9 !! m_stationManager d9 = Some associated)
    by (by rewrite Hsm9, Hg9).
  destruct (copy_association_spec addr old new d9 _ _ _ Ho9 Hn9 Hmgr9)
    as (d10 & E10 & Hm10 & Hg10 & Hc10 & _ & Hmac10 & Hstd10 & _).
  cbn [mbind option_bind]. rewrite E2. cbn [mbind option_bind].
  rewrite E3. cbn [mbind option_bind]. rewrite E4. cbn [mbind option_bind].
  rewrite E5. cbn [mbind option_bind]. rewrite E6. cbn [mbind option_bind].
  rewrite E7. cbn [mbind option_bind]. rewrite E8. cbn [mbind option_bind].
  rewrite E9. cbn [mbind option_bind]. rewrite E10. cbn [mbind option_bind].
  unfold notify_step. rewrite Hmac10, Hmac9, Hm10, lookup_insert_eq.
  cbn [mbind option_bind].
  eexists _, _, _. split; [reflexivity|].
  cbn [m_mac m_standard m_macs m_calls record_call set_macs].
  split; [congruence|]. split; [congruence|].
  split; [rewrite !lookup_insert_ne by done; exact Ho9|].
  split; [apply lookup_insert_eq|].
  split.
  { intros ac. change (GetWifiMacQueue (GetEdca ac ?m)) with (queue_of (EDCA ac) m).
    destruct ac; by project_queue. }
  split.
  { intros ac. rewrite NotifyBandChanged_queue, GetEdca_associate.
    change (GetWifiMacQueue (GetEdca ac ?m)) with (queue_of (EDCA ac) m).
    destruct ac; by project_queue. }
  split.
  { intros ac. by project_agreements. }
  split.
  { intros ac. rewrite NotifyBandChanged_queue, GetEdca_associate.
    destruct ac; project_agreements; apply agreements_adopt_eq;
      by project_agreements. }
  rewrite Hc10, Hc9, Hc8, Hc7, Hc6, Hc5, Hc4, Hc3, Hc2, Hc1, Hc0.
  by rewrite <- !app_assoc.
Qed.

Lemma frames_for_not_for addr l : frames_for addr (frames_not_for addr l) = [].
Proof.
  unfold frames_for, frames_not_for. induction l as [|x l IH]; [done|].
  rewrite (filter_cons (fun i => GetAddr1 i <> addr)).
  case_decide; [|done]. rewrite filter_cons. by rewrite decide_False.
Qed.

Lemma frames_for_sublist addr l : frames_for addr l `sublist_of` l.
Proof. apply sublist_filter. Qed.

Lemma frames_not_for_sublist addr l : frames_not_for addr l `sublist_of` l.
Proof. apply sublist_filter. Qed.

Lemma associate_same m : associate m m = m.
Proof. unfold associate. case_decide; [apply set_association_id | done]. Qed.

(** The band switch onto the MAC object already in use, up to the completion
    notification. *)
Lemma BandChanged_migrate_same standard addr d t m associated :
  m_list d !! standard = Some t ->
  Mac t = m_mac d ->
  m_macs d !! m_mac d = Some m ->
  m_managers d !! StationManager t = Some associated ->
  exists d',
    BandChanged_migrate standard addr d = Some d' /\
    m_mac d' = m_mac d /\ m_standard d' = standard /\
    m_list d' = m_list d /\
    m_macs d' = m_macs d /\
    m_managers d' = <[StationManager t := recorded addr m associated]> (m_managers d) /\
    m_calls d' = m_calls d ++
      removelast (BandChanged_calls standard addr false (m_mac d) (m_mac d)).
Proof.
  intros Hlist Hsame Hm Hmgr. unfold BandChanged_migrate.
  set (p := m_mac d) in *.
  set (d0 := SwitchTechnology standard d).
  assert (Hmac0 : m_mac d0 = p) by (cbn; by rewrite Hlist).
  assert (Hsm0 : m_stationManager d0 = StationManager t) by (cbn; by rewrite Hlist).
  assert (Hstd0 : m_standard d0 = standard) by reflexivity.
  assert (Hl0 : m_list d0 = m_list d) by (cbn; rewrite Hlist; by apply insert_id).
  assert (Hm0 : m_macs d0 = m_macs d) by reflexivity.
  assert (Hg0 : m_managers d0 = m_managers d) by reflexivity.
  assert (Hc0 : m_calls d0 = m_calls d) by reflexivity.
  rewrite Hmac0. clearbody d0.
  assert (H0 : m_macs d0 !! p = Some m) by (by rewrite Hm0).
  destruct (transfer_step_same addr p DCA d0 _ H0) as (d1 & -> & Hm1 & Hc1 & Hr1).
  assert (H1 : m_macs d1 !! p = Some m) by (by rewrite Hm1).
  destruct (transfer_step_same addr p (EDCA AC_VO) d1 _ H1) as (d2 & E2 & Hm2 & Hc2 & Hr2).
  assert (H2 : m_macs d2 !! p = Some m) by (by rewrite Hm2).
  destruct (transfer_step_same addr p (EDCA AC_VI) d2 _ H2) as (d3 & E3 & Hm3 & Hc3 & Hr3).
  assert (H3 : m_macs d3 !! p = Some m) by (by rewrite Hm3).
  destruct (transfer_step_same addr p (EDCA AC_BE) d3 _ H3) as (d4 & E4 & Hm4 & Hc4 & Hr4).
  assert (H4 : m_macs d4 !! p = Some m) by (by rewrite Hm4).
  destruct (transfer_step_same addr p (EDCA AC_BK) d4 _ H4) as (d5 & E5 & Hm5 & Hc5 & Hr5).
  assert (H5 : m_macs d5 !! p = Some m) by (by rewrite Hm5).
  destruct (copy_step_same addr p AC_VO d5 _ H5) as (d6 & E6 & Hm6 & Hc6 & Hr6).
  assert (H6 : m_macs d6 !! p = Some m) by (by rewrite Hm6).
  destruct (copy_step_same addr p AC_VI d6 _ H6) as (d7 & E7 & Hm7 & Hc7 & Hr7).
  assert (H7 : m_macs d7 !! p = Some m) by (by rewrite Hm7).
  destruct (copy_step_same addr p AC_BE d7 _ H7) as (d8 & E8 & Hm8 & Hc8 & Hr8).
  assert (H8 : m_macs d8 !! p = Some m) by (by rewrite Hm8).
  destruct (copy_step_same addr p AC_BK d8 _ H8) as (d9 & E9 & Hm9 & Hc9 & Hr9).
  assert (H9 : m_macs d9 !! p = Some m) by (by rewrite Hm9).
  unfold routing in *.
  assert (Hsm9 : m_stationManager d9 = StationManager t) by congruence.
  assert (Hg9 : m_managers d9 = m_managers d) by congruence.
  assert (Hmac9 : m_mac d9 = p) by congruence.
  assert (Hstd9 : m_standard d9 = standard) by congruence.
  assert (Hl9 : m_list d9 = m_list d) by congruence.
  assert (Hmgr9 : m_managers d9 !! m_stationManager d9 = Some associated)
    by (by rewrite Hsm9, Hg9).
  destruct (copy_association_spec addr p p d9 _ _ _ H9 H9 Hmgr9)
    as (d10 & E10 & Hm10 & Hg10 & Hc10 & Hl10 & Hmac10 & Hstd10 & _).
  cbn [mbind option_bind]. rewrite E2. cbn [mbind option_bind].
  rewrite E3. cbn [mbind option_bind]. rewrite E4. cbn [mbind option_bind].
  rewrite E5. cbn [mbind option_bind]. rewrite E6. cbn [mbind option_bind].
  rewrite E7. cbn [mbind option_bind]. rewrite E8. cbn [mbind option_bind].
  rewrite E9. cbn [mbind option_bind]. rewrite E10.
  rewrite associate_same in Hm10. rewrite (insert_id _ _ _ H9) in Hm10.
  eexists. split; [reflexivity|].
  split; [congruence|]. split; [congruence|]. split; [congruence|].
  split; [congruence|].
  split.
  { rewrite Hg10, Hsm9, Hg9. reflexivity. }
  rewrite Hc10, Hc9, Hc8, Hc7, Hc6, Hc5, Hc4, Hc3, Hc2, Hc1, Hc0.
  by rewrite <- !app_assoc.
Qed.

(** C4: a band switch for the peer [addr] from the MAC in use to the MAC of
    the target technology, a different object, calls the queue transfer for
    the [Txop] queue and then for the voice, video, best-effort and
    background queues, then the agreement copy in the same category order,
    then the completion notification. For each access category the target
    queue ends with its former content followed by exactly the frames of the
    source queue addressed to [addr], in their source order, and the source
    queue keeps the other frames and none for [addr]. For each access
    category the target then holds for [addr] the agreement the source holds
    for [addr], when it holds one, and its other agreements as before, and
    the source keeps all its agreements. *)
Theorem BandChanged_moves_frames_in_order (standard : WifiPhyStandard)
  (addr : N) (isInitiator : bool) (d : MultiBandNetDevice) (t : WifiTechnology)
  (mo mn : RegularWifiMac) (associated : gset N) :
  m_list d !! standard = Some t ->
  m_mac d <> Mac t ->
  m_macs d !! m_mac d = Some mo ->
  m_macs d !! Mac t = Some mn ->
  m_managers d !! StationManager t = Some associated ->
  exists d' mo' mn',
    BandChanged standard addr isInitiator d = Some d' /\
    m_macs d' !! m_mac d = Some mo' /\
    m_macs d' !! Mac t = Some mn' /\
    (forall ac,
       let source := GetWifiMacQueue (GetEdca ac mo) in
       GetWifiMacQueue (GetEdca ac mn') =
         GetWifiMacQueue (GetEdca ac mn) ++ frames_for addr source /\
       GetWifiMacQueue (GetEdca ac mo') = frames_not_for addr source /\
       frames_for addr (GetWifiMacQueue (GetEdca ac mo')) = [] /\
       frames_for addr source `sublist_of` source /\
       (forall i, i ∈ frames_for addr source <-> GetAddr1 i = addr /\ i ∈ source)) /\
    (forall ac,
       m_agreements (GetEdca ac mo') = m_agreements (GetEdca ac mo) /\
       m_agreements (GetEdca ac mn') =
         match m_agreements (GetEdca ac mo) !! addr with
         | Some agreement => <[addr := agreement]> (m_agreements (GetEdca ac mn))
         | None => m_agreements (GetEdca ac mn)
         end) /\
    m_calls d' = m_calls d ++
      [ TransferPacketsByAddress_call DCA addr (m_mac d) (Mac t);
        TransferPacketsByAddress_call (EDCA AC_VO) addr (m_mac d) (Mac t);
        TransferPacketsByAddress_call (EDCA AC_VI) addr (m_mac d) (Mac t);
        TransferPacketsByAddress_call (EDCA AC_BE) addr (m_mac d) (Mac t);
        TransferPacketsByAddress_call (EDCA AC_BK) addr (m_mac d) (Mac t);
        CopyBlockAckAgreements_call AC_VO addr (m_mac d) (Mac t);
        CopyBlockAckAgreements_call AC_VI addr (m_mac d) (Mac t);
        CopyBlockAckAgreements_call AC_BE addr (m_mac d) (Mac t);
        CopyBlockAckAgreements_call AC_BK addr (m_mac d) (Mac t);
        NotifyBandChanged_call standard addr isInitiator (Mac t) ].
Proof.
  intros Hlist Hne Ho Hn Hmgr.
  destruct (BandChanged_distinct standard addr isInitiator d t mo mn associated
              Hlist Hne Ho Hn Hmgr)
    as (d' & mo' & mn' & HB & _ & _ & Ho' & Hn' & Hqo & Hqn & Hao & Han & Hc).
  exists d', mo', mn'. do 3 (split; [done|]). split; [|split; [|exact Hc]].
  - intros ac source. rewrite Hqn, Hqo. split; [done|]. split; [done|].
    split; [apply frames_for_not_for|]. split; [apply frames_for_sublist|].
    intros i. unfold frames_for. by rewrite list_elem_of_filter.
  - intros ac. split; [apply Hao|]. rewrite Han. unfold adopt.
    destruct (m_agreements (GetEdca ac mo) !! addr); [|done].
    apply agreements_set_agreements_eq.
Qed.

(** C5: a block-ack agreement the MAC in use holds for the peer in some
    access category is, after the band switch, held with the same parameters
    by the MAC of the target technology in that category, and still held by
    the MAC that was in use. *)
Theorem BandChanged_copies_agreement (standard : WifiPhyStandard)
  (addr : N) (isInitiator : bool) (d : MultiBandNetDevice) (t : WifiTechnology)
  (mo mn : RegularWifiMac) (associated : gset N) (ac : AcIndex)
  (agreement : OriginatorBlockAckAgreement) :
  m_list d !! standard = Some t ->
  m_macs d !! m_mac d = Some mo ->
  m_macs d !! Mac t = Some mn ->
  m_managers d !! StationManager t = Some associated ->
  m_agreements (GetEdca ac mo) !! addr = Some agreement ->
  exists d' mo' mn',
    BandChanged standard addr isInitiator d = Some d' /\
    m_macs d' !! m_mac d = Some mo' /\
    m_macs d' !! Mac t = Some mn' /\
    m_agreements (GetEdca ac mn') !! addr = Some agreement /\
    m_agreements (GetEdca ac mo') !! addr = Some agreement.
Proof.
  intros Hlist Ho Hn Hmgr Ha.
  destruct (decide (m_mac d = Mac t)) as [Hsame | Hne].
  - destruct (BandChanged_migrate_same standard addr d t mo associated
                Hlist (eq_sym Hsame) Ho Hmgr)
      as (d' & HB & Hmac & _ & _ & Hm' & _).
    unfold BandChanged. rewrite HB. cbn [mbind option_bind].
    unfold notify_step. rewrite Hmac, Hm', Ho. cbn [mbind option_bind].
    eexists _, _, _. split; [reflexivity|].
    cbn [m_macs record_call set_macs]. rewrite <- Hsame, lookup_insert_eq.
    do 2 (split; [reflexivity|]).
    by rewrite NotifyBandChanged_queue.
  - destruct (BandChanged_distinct standard addr isInitiator d t mo mn associated
                Hlist Hne Ho Hn Hmgr)
      as (d' & mo' & mn' & HB & _ & _ & Ho' & Hn' & _ & _ & Hao & Han & _).
    exists d', mo', mn'. do 3 (split; [done|]).
    rewrite Han, Hao. split; [|done].
    unfold adopt. rewrite Ha, agreements_set_agreements_eq. apply lookup_insert_eq.
Qed.


(** ** The theorems at concrete stations *)





(** C8 at station 1: peer 7 answers with status 37. *)
Lemma setup_response_failure_aborts_witness :
  m_qosSupported (mac initiator_world) = true /\
  m_fstSessionMap (mac initiator_world) !! 7 = Some initiator_session /\
  Receive (fst_frame 1 7 (FST_SETUP_RESPONSE 10 37)) initiator_world
    = Returns initiator_world.
Proof.
  split; [reflexivity|]. split; [vm_compute; reflexivity|].
  destruct (setup_response_failure_aborts initiator_world 7 10 37 initiator_session)
    as (w' & HR & -> & _);
    [reflexivity | vm_compute; reflexivity | reflexivity | reflexivity | discriminate |].
  exact HR.
Defined.

(** C10 on a device whose 60 GHz technology is in use: the first local
    initiation uses the identifier 1, the next one the identifier 2. *)
Lemma SetupFSTSession_fixed_band_pair_witness :
  m_macs (two_band_device STA) !! m_mac (two_band_device STA) = Some (busy_mac STA) /\
  exists d' m',
    EstablishFastSessionTransferSession 7 (two_band_device STA) = Some d' /\
    m_macs d' !! 11 = Some m' /\
    NewBandId <$> m_fstSessionMap m' !! 7 = Some Band_4_9GHz /\
    ID <$> m_fstSessionMap m' !! 7 = Some 1 /\
    ID <$> m_fstSessionMap (SetupFSTSession 8 m') !! 8 = Some 2.
Proof.
  split; [vm_compute; reflexivity|].
  destruct (SetupFSTSession_fixed_band_pair (two_band_device STA) (busy_mac STA) 7 8)
    as (d' & m' & requestHdr & HE & _ & Hm' & _ & _ & Hid & Hs & _ & _ & _ & _ & _
        & Hnext & _);
    [vm_compute; reflexivity|].
  assert (Hc : m_fstId m' = 1) by (rewrite Hid; [reflexivity | vm_compute; reflexivity]).
  exists d', m'. split; [exact HE|]. split; [exact Hm'|].
  rewrite Hs. cbn [fmap option_fmap option_map NewBandId ID].
  split; [reflexivity|]. split; [by rewrite Hc|].
  rewrite Hnext by (rewrite Hc; vm_compute; reflexivity). by rewrite Hc.
Defined.

(** C10, refuted as stated: station 1 initiated [2 ^ 32 - 2] sessions, so
    that its session counter is [2 ^ 32 - 2]. The next local initiation uses
    the identifier [2 ^ 32 - 1] and the one after it the identifier 0. *)
Lemma identifier_wraps_around :
  m_fstId mac_before_wrap = 4294967294 /\
  ID <$> m_fstSessionMap (SetupFSTSession 7 mac_before_wrap) !! 7 = Some 4294967295 /\
  ID <$> m_fstSessionMap (SetupFSTSession 8 (SetupFSTSession 7 mac_before_wrap)) !! 8
    = Some 0 /\
  ~ identifier_one_greater mac_before_wrap 7 8.
Proof.
  assert (Hc : m_fstId mac_before_wrap = 4294967294).
  { unfold mac_before_wrap. rewrite SetupFSTSession_iter by reflexivity. reflexivity. }
  pose proof (SetupFSTSession_session 7 mac_before_wrap) as H1.
  pose proof (SetupFSTSession_session 8 (SetupFSTSession 7 mac_before_wrap)) as H2.
  rewrite SetupFSTSession_fstId in H2. rewrite Hc in H1, H2.
  split; [exact Hc|]. split; [rewrite H1; reflexivity|].
  split; [rewrite H2; reflexivity|].
  intros Hclaim. specialize (Hclaim _ _ H1 H2).
  cbn [ID] in Hclaim. discriminate Hclaim.
Qed.

(** C4 on a client device switching from 60 GHz to 5 GHz for peer 7. *)
Lemma BandChanged_moves_frames_in_order_witness :
  m_list (two_band_device STA) !! WIFI_PHY_STANDARD_80211n_5GHZ = Some technology_5GHz /\
  m_mac (two_band_device STA) <> Mac technology_5GHz /\
  exists d' mo' mn',
    BandChanged WIFI_PHY_STANDARD_80211n_5GHZ 7 true (two_band_device STA) = Some d' /\
    m_macs d' !! 11 = Some mo' /\
    m_macs d' !! 21 = Some mn' /\
    GetWifiMacQueue (GetEdca AC_BE mn') = [data_frame 7 1; data_frame 7 3] /\
    GetWifiMacQueue (GetEdca AC_BE mo') = [data_frame 8 2] /\
    m_agreements (GetEdca AC_BE mn') = {[ 7 := agreement_100 ]} /\
    m_agreements (GetEdca AC_BE mo') = m_agreements (GetEdca AC_BE (busy_mac STA)).
Proof.
  split; [vm_compute; reflexivity|]. split; [discriminate|].
  destruct (BandChanged_moves_frames_in_order WIFI_PHY_STANDARD_80211n_5GHZ 7 true
              (two_band_device STA) technology_5GHz (busy_mac STA)
              (RegularWifiMac_new 1 5 STA) ∅)
    as (d' & mo' & mn' & HB & Ho & Hn & Hq & Ha & _);
    [vm_compute; reflexivity | discriminate | vm_compute; reflexivity
    | vm_compute; reflexivity | vm_compute; reflexivity |].
  exists d', mo', mn'. do 3 (split; [assumption|]).
  destruct (Hq AC_BE) as (-> & -> & _). destruct (Ha AC_BE) as (-> & ->).
  repeat split; vm_compute; reflexivity.
Defined.

(** C5 on the same switch: the best-effort agreement with peer 7. *)
Lemma BandChanged_copies_agreement_witness :
  m_agreements (GetEdca AC_BE (busy_mac STA)) !! 7 = Some agreement_100 /\
  exists d' mo' mn',
    BandChanged WIFI_PHY_STANDARD_80211n_5GHZ 7 true (two_band_device STA) = Some d' /\
    m_macs d' !! 11 = Some mo' /\
    m_macs d' !! 21 = Some mn' /\
    m_agreements (GetEdca AC_BE mn') !! 7 = Some agreement_100 /\
    m_agreements (GetEdca AC_BE mo') !! 7 = Some agreement_100.
Proof.
  split; [vm_compute; reflexivity|].
  apply (BandChanged_copies_agreement WIFI_PHY_STANDARD_80211n_5GHZ 7 true
           (two_band_device STA) technology_5GHz (busy_mac STA)
           (RegularWifiMac_new 1 5 STA) ∅ AC_BE agreement_100);
    vm_compute; reflexivity.
Defined.


(** The refresh at work: the countdown (link-loss timeout 5, so 160 time
    units) is armed at time 0; a frame to the peer is acknowledged at time
    10 and a frame of the peer is received at time 20. One event is then
    pending, and the scheduler step signals the band change at time 180. *)
Lemma refresh_at_10_and_20_fires_at_180 :
  let w := MacRxOk 7 (advance_to 20 (MacTxOk 7 (advance_to 10 armed_world))) in
  length (m_events (sim w)) = 1%nat /\
  exists w', run_next w = Some w' /\
    Now (sim w') = 180 /\
    m_events (sim w') = [] /\
    m_bandChangedCallback (mac w') = [(WIFI_PHY_STANDARD_80211n_5GHZ, 7, true)].
Proof.
  cbv zeta. split; [vm_compute; reflexivity|].
  eexists. split; [vm_compute; reflexivity|].
  repeat split; reflexivity.
Qed.

(** ** Further properties of the session handling *)

(** What the shared body of the two Setup Response handlers does to the
    session map and to the pending events. *)
Lemma setup_response_done_effect peer isInitiator w :
  let s := session_at peer (mac w) in
  (exists s', m_fstSessionMap (mac (setup_response_done peer isInitiator w)) =
                <[peer := s']> (m_fstSessionMap (mac w)) /\
              ID s' = ID s /\ IsInitiator s' = IsInitiator s /\
              NewBandId s' = NewBandId s /\ LLT s' = LLT s) /\
  Now (sim (setup_response_done peer isInitiator w)) = Now (sim w) /\
  m_events (sim (setup_response_done peer isInitiator w)) =
    m_events (sim w) ++
    (if decide (LLT s = 0) then [] else [countdown peer s isInitiator w]).
Proof.
  cbv zeta. unfold setup_response_done. cbn [LLT set_CurrentState].
  destruct (decide (LLT (session_at peer (mac w)) = 0)) as [Hz|Hz].
  - split; [|split; [done|by rewrite app_nil_r]].
    eexists. split; [cbn [mac]; rewrite ChangeBand_fstSessionMap; reflexivity | done].
  - split; [|done]. eexists. split; [reflexivity|done].
Qed.

(** X1: in either build, [Receive] ignores a frame addressed to another
    station, whatever it holds. On a frame of the model addressed to this
    station it aborts exactly when the frame is not a management action
    frame, or the action category or the FST action is not supported, or, in
    the debug build only, the station is not a QoS station: the optimized
    build has no assertion and handles the frame there. *)
Theorem Receive_fatal_iff (build : BuildProfile) (mpdu : WifiMacQueueItem) (w : World) :
  (GetAddr1 mpdu <> GetAddress (mac w) -> Receive_in build mpdu w = Returns w) /\
  (Receive_in build mpdu w = FatalError <->
     GetAddr1 mpdu = GetAddress (mac w) /\
     match GetPacket mpdu with
     | Data _ => True
     | MgtAction category =>
         (build = debug /\ m_qosSupported (mac w) = false) \/
         match category with
         | UNSUPPORTED_CATEGORY _ | FST (FST_UNSUPPORTED _) => True
         | FST _ => False
         end
     end).
Proof.
  unfold Receive_in. split.
  - intros Hne. by rewrite decide_True.
  - case_decide as Hto.
    + split; [done|]. intros [Heq _]. done.
    + assert (Heq : GetAddr1 mpdu = GetAddress (mac w))
        by (destruct (decide (GetAddr1 mpdu = GetAddress (mac w))); done).
      destruct (GetPacket mpdu) as [[[req|token status| | | |]|]|];
        destruct build, (m_qosSupported (mac w)); cbn;
        try case_decide; split; intros Hx;
        try discriminate; try reflexivity;
        try (split; [exact Heq|]; by auto);
        destruct Hx as [_ [[Hx1 Hx2]|Hx]]; done.
Qed.

(** X2: no handler of the session code and no scheduler step ever removes a
    session: [Receive], [TxOk], [SetupFSTSession] and [NotifyBandChanged]
    keep every peer that had a session (a Teardown resets the state and keeps
    the entry), and [MacTxOk], [MacRxOk] and the expiry of a countdown
    neither remove nor add one. *)
Theorem sessions_never_removed (w : World) :
  (forall mpdu w', Receive mpdu w = Returns w' ->
     dom (m_fstSessionMap (mac w)) ⊆ dom (m_fstSessionMap (mac w'))) /\
  (forall item,
     dom (m_fstSessionMap (mac w)) ⊆ dom (m_fstSessionMap (mac (TxOk item w)))) /\
  (forall staAddress,
     dom (m_fstSessionMap (mac w)) ⊆
       dom (m_fstSessionMap (SetupFSTSession staAddress (mac w)))) /\
  (forall standard address isInitiator,
     dom (m_fstSessionMap (mac w)) ⊆
       dom (m_fstSessionMap (NotifyBandChanged standard address isInitiator (mac w)))) /\
  (forall address,
     dom (m_fstSessionMap (mac (MacTxOk address w))) = dom (m_fstSessionMap (mac w)) /\
     dom (m_fstSessionMap (mac (MacRxOk address w))) = dom (m_fstSessionMap (mac w))) /\
  (forall w', run_next w = Some w' ->
     m_fstSessionMap (mac w') = m_fstSessionMap (mac w)).
Proof.
  assert (Hdone : forall peer flag,
    dom (m_fstSessionMap (mac w)) ⊆
      dom (m_fstSessionMap (mac (setup_response_done peer flag w)))).
  { intros peer flag.
    destruct (setup_response_done_effect peer flag w) as [(s' & -> & _) _].
    rewrite dom_insert_L. set_solver. }
  split; [|split; [|split; [|split; [|split]]]].
  - intros mpdu w' HR. unfold Receive, Receive_in in HR.
    case_decide; [by injection HR as <-|].
    destruct (GetPacket mpdu) as [[[]|]|]; try done;
      destruct (m_qosSupported (mac w)); try done; cbn in HR;
      try case_decide; injection HR as <-; cbn;
      rewrite ?dom_insert_L; try done; first [apply Hdone | set_solver].
  - intros item. unfold TxOk.
    destruct (GetPacket item) as [[[]|]|]; cbn; rewrite ?dom_insert_L;
      try done; first [apply Hdone | set_solver].
  - intros sta. cbn. rewrite dom_insert_L. set_solver.
  - intros standard address [|]; cbn; rewrite ?dom_insert_L; set_solver.
  - intros address. unfold MacTxOk, MacRxOk, refresh_countdown.
    destruct (m_fstSessionMap (mac w) !! address) as [s|] eqn:Hs; [|done].
    destruct (_ && _); [|done]. cbn. rewrite dom_insert_L.
    assert (Hin : address ∈ dom (m_fstSessionMap (mac w))) by (apply elem_of_dom; eauto).
    apply singleton_subseteq_l in Hin.
    by rewrite (subseteq_union_1_L _ _ Hin).
  - intros w'. unfold run_next. destruct (next_event _) as [e|]; [|done].
    intros [= <-]. cbn. apply ChangeBand_fstSessionMap.
Qed.

(** X3: a frame received from one peer, a delivery confirmed for a frame to
    one peer and a notification about one peer never change the session of
    another peer. *)
Theorem other_sessions_untouched (w : World) (q : N) :
  (forall mpdu w', Receive mpdu w = Returns w' -> GetAddr2 mpdu <> q ->
     m_fstSessionMap (mac w') !! q = m_fstSessionMap (mac w) !! q) /\
  (forall item, GetAddr1 item <> q ->
     m_fstSessionMap (mac (TxOk item w)) !! q = m_fstSessionMap (mac w) !! q) /\
  (forall address, address <> q ->
     m_fstSessionMap (mac (MacTxOk address w)) !! q = m_fstSessionMap (mac w) !! q /\
     m_fstSessionMap (mac (MacRxOk address w)) !! q = m_fstSessionMap (mac w) !! q) /\
  (forall staAddress, staAddress <> q ->
     m_fstSessionMap (SetupFSTSession staAddress (mac w)) !! q =
       m_fstSessionMap (mac w) !! q).
Proof.
  assert (Hdone : forall peer flag, peer <> q ->
    m_fstSessionMap (mac (setup_response_done peer flag w)) !! q =
      m_fstSessionMap (mac w) !! q).
  { intros peer flag Hne.
    destruct (setup_response_done_effect peer flag w) as [(s' & -> & _) _].
    by apply lookup_insert_ne. }
  split; [|split; [|split]].
  - intros mpdu w' HR Hne. unfold Receive, Receive_in in HR.
    case_decide; [by injection HR as <-|].
    destruct (GetPacket mpdu) as [[[]|]|]; try done;
      destruct (m_qosSupported (mac w)); try done; cbn in HR;
      try case_decide; injection HR as <-; cbn;
      rewrite ?lookup_insert_ne by done; try done; by apply Hdone.
  - intros item Hne. unfold TxOk.
    destruct (GetPacket item) as [[[]|]|]; cbn;
      rewrite ?lookup_insert_ne by done; try done; by apply Hdone.
  - intros address Hne. unfold MacTxOk, MacRxOk, refresh_countdown.
    destruct (m_fstSessionMap (mac w) !! address) as [s|]; [|done].
    destruct (_ && _); [|done]. cbn. by rewrite lookup_insert_ne.
  - intros sta Hne. cbn. by rewrite lookup_insert_ne.
Qed.

(** X4: [Receive] and [TxOk] never cancel and never run a pending event:
    the events pending before are still pending afterwards, in the same
    order, followed by at most one new event, and the clock is not moved. *)
Theorem handlers_never_cancel (w : World) :
  (forall mpdu w', Receive mpdu w = Returns w' ->
     exists new,
       m_events (sim w') = m_events (sim w) ++ new /\ (length new <= 1)%nat /\
       Now (sim w') = Now (sim w)) /\
  (forall item,
     exists new,
       m_events (sim (TxOk item w)) = m_events (sim w) ++ new /\
       (length new <= 1)%nat /\
       Now (sim (TxOk item w)) = Now (sim w)).
Proof.
  assert (Hdone : forall peer flag, exists new,
    m_events (sim (setup_response_done peer flag w)) = m_events (sim w) ++ new /\
    (length new <= 1)%nat /\
    Now (sim (setup_response_done peer flag w)) = Now (sim w)).
  { intros peer flag.
    destruct (setup_response_done_effect peer flag w) as (_ & HNow & Hev).
    eexists. split; [exact Hev|]. split; [|exact HNow].
    case_decide; cbn; lia. }
  assert (Hsame : exists new : list Event,
    m_events (sim w) = m_events (sim w) ++ new /\ (length new <= 1)%nat /\
    Now (sim w) = Now (sim w)).
  { exists []. rewrite app_nil_r. cbn. split; [done|]. split; [lia|done]. }
  split.
  - intros mpdu w' HR. unfold Receive, Receive_in in HR.
    case_decide; [by injection HR as <-|].
    destruct (GetPacket mpdu) as [[[]|]|]; try done;
      destruct (m_qosSupported (mac w)); try done; cbn in HR;
      try case_decide; injection HR as <-; cbn; first [apply Hdone | exact Hsame].
  - intros item. unfold TxOk.
    destruct (GetPacket item) as [[[]|]|]; cbn; first [apply Hdone | exact Hsame].
Qed.

(** What the receipt of a Setup Request does. *)
Lemma Receive_setup_request (w : World) (peer : N) (requestHdr : ExtFstSetupRequest) :
  m_qosSupported (mac w) = true ->
  Receive (fst_frame (GetAddress (mac w)) peer (FST_SETUP_REQUEST requestHdr)) w =
    Returns
      {| mac := SendFstSetupResponse peer (GetDialogToken requestHdr) 0
                  (store_session peer
                     {| ID := GetFstsID (GetSessionTransition requestHdr);
                        CurrentState := FST_INITIAL_STATE; IsInitiator := false;
                        NewBandId := Band_ID (GetNewBand (GetSessionTransition requestHdr));
                        LLT := GetLlt requestHdr; LinkLossCountDownEvent := None |}
                     (mac w));
         sim := sim w |}.
Proof.
  intros Hqos. unfold Receive, Receive_in. cbn [fst_frame GetAddr1 GetAddr2 GetPacket].
  rewrite decide_False by (intros H; by apply H). by rewrite Hqos.
Qed.

(** X5: the responder side of the setup. A Setup Request is always accepted:
    the station stores a responder session with the identifier, the new band
    and the link-loss timeout of the request, and queues, behind what its
    [Txop] queue holds, one Setup Response to the sender with status 0 and
    the dialog token of the request; nothing is scheduled. When the delivery
    of that response is confirmed, a zero timeout gives the transition-done
    state and one [ChangeBand] call with the initiator flag off, which
    signals the band change for the band of the request; a non-zero timeout
    below [2 ^ 27] arms the countdown of [32] times the timeout, which fires
    when the scheduler, with fresh handles, is left alone. *)
Theorem responder_setup (w : World) (peer : N) (requestHdr : ExtFstSetupRequest) :
  m_qosSupported (mac w) = true ->
  let s := {| ID := GetFstsID (GetSessionTransition requestHdr);
              CurrentState := FST_INITIAL_STATE; IsInitiator := false;
              NewBandId := Band_ID (GetNewBand (GetSessionTransition requestHdr));
              LLT := GetLlt requestHdr; LinkLossCountDownEvent := None |} in
  let response :=
    fst_frame peer (GetAddress (mac w))
      (FST_SETUP_RESPONSE (GetDialogToken requestHdr) 0) in
  exists w1,
    Receive (fst_frame (GetAddress (mac w)) peer (FST_SETUP_REQUEST requestHdr)) w
      = Returns w1 /\
    m_fstSessionMap (mac w1) !! peer = Some s /\
    m_txop (mac w1) = m_txop (mac w) ++ [response] /\
    sim w1 = sim w /\
    m_bandChangedCallback (mac w1) = m_bandChangedCallback (mac w) /\
    (GetLlt requestHdr = 0 ->
       TxOk response w1 =
         {| mac := ChangeBand peer (NewBandId s) false
                     (store_session peer
                        (set_CurrentState FST_TRANSITION_DONE_STATE s) (mac w1));
            sim := sim w |} /\
       CurrentState <$> m_fstSessionMap (mac (TxOk response w1)) !! peer
         = Some FST_TRANSITION_DONE_STATE /\
       m_bandChangedCallback (mac (TxOk response w1)) =
         m_bandChangedCallback (mac w) ++ band_change_signal (NewBandId s) peer false) /\
    (GetLlt requestHdr <> 0 -> GetLlt requestHdr < 2 ^ 27 -> sim_wf (sim w) ->
       countdown_armed peer s (m_events (sim w)) w1 (TxOk response w1)).
Proof.
  intros Hqos s response. rewrite (Receive_setup_request _ _ _ Hqos).
  eexists. split; [reflexivity|]. cbn [mac sim].
  split; [apply lookup_insert_eq|]. do 3 (split; [reflexivity|]).
  set (w1 := {| mac := _; sim := sim w |}).
  assert (Hs : m_fstSessionMap (mac w1) !! peer = Some s) by apply lookup_insert_eq.
  split.
  - intros Hz. unfold TxOk. cbn [GetPacket response fst_frame GetAddr1].
    rewrite (setup_response_done_zero _ _ _ _ Hs Hz). split; [reflexivity|].
    cbn [mac]. rewrite ChangeBand_fstSessionMap, store_session_lookup.
    split; [reflexivity|]. by rewrite ChangeBand_signal.
  - intros Hz Hb Hwf. unfold TxOk. cbn [GetPacket response fst_frame GetAddr1].
    apply (setup_response_done_armed peer w1 s Hwf Hs Hz Hb).
Qed.

Lemma ChangeBand_4_9GHz peer isInitiator m :
  ChangeBand peer Band_4_9GHz isInitiator m =
    set_bandChangedCallback
      (m_bandChangedCallback m ++ [(WIFI_PHY_STANDARD_80211n_5GHZ, peer, isInitiator)]) m.
Proof. reflexivity. Qed.

(** X6: [ChangeBand] signals nothing for a band other than 60 GHz, 4.9 GHz
    and 2.4 GHz. A responder whose Setup Request names such a band, with a
    zero link-loss timeout, is in the transition-done state once its
    response is delivered although no band change was signalled. *)
Theorem transition_done_without_band_change (w : World) (peer : N)
  (requestHdr : ExtFstSetupRequest) (code : N) :
  m_qosSupported (mac w) = true ->
  Band_ID (GetNewBand (GetSessionTransition requestHdr)) = Band_other code ->
  GetLlt requestHdr = 0 ->
  exists w1 w2,
    Receive (fst_frame (GetAddress (mac w)) peer (FST_SETUP_REQUEST requestHdr)) w
      = Returns w1 /\
    w2 = TxOk (fst_frame peer (GetAddress (mac w))
                 (FST_SETUP_RESPONSE (GetDialogToken requestHdr) 0)) w1 /\
    CurrentState <$> m_fstSessionMap (mac w2) !! peer = Some FST_TRANSITION_DONE_STATE /\
    m_bandChangedCallback (mac w2) = m_bandChangedCallback (mac w) /\
    m_events (sim w2) = m_events (sim w).
Proof.
  intros Hqos Hband Hz. rewrite (Receive_setup_request _ _ _ Hqos).
  eexists _, _. split; [reflexivity|]. split; [reflexivity|].
  unfold TxOk. cbn [GetPacket fst_frame GetAddr1].
  erewrite setup_response_done_zero; [|apply lookup_insert_eq|exact Hz].
  cbn [mac sim NewBandId]. rewrite Hband.
  unfold ChangeBand. rewrite !decide_False by done.
  split; [by rewrite store_session_lookup | done].
Qed.

Lemma setup_response_done_txOkCallback peer isInitiator w :
  m_txOkCallback (mac (setup_response_done peer isInitiator w)) = m_txOkCallback (mac w).
Proof.
  unfold setup_response_done. case_decide; [|done].
  cbn [mac]. unfold ChangeBand. repeat case_decide; reflexivity.
Qed.

(** X7: the confirmed delivery of a frame is reported to the registered
    [TxOk] callback, once and with the two addresses of the frame, unless
    the frame is an FST Setup Response or an FST Ack Response: for these two
    the report is left out. A reported delivery changes neither the sessions
    nor the scheduler nor the band-change signals. No other handler of the
    session code reports a delivery. *)
Theorem TxOk_reported_upward (w : World) :
  (forall item,
     match GetPacket item with
     | MgtAction (FST (FST_SETUP_RESPONSE _ _))
     | MgtAction (FST (FST_ACK_RESPONSE _ _)) =>
         m_txOkCallback (mac (TxOk item w)) = m_txOkCallback (mac w)
     | _ =>
         m_txOkCallback (mac (TxOk item w)) =
           m_txOkCallback (mac w) ++ [(GetAddr1 item, GetAddr2 item)] /\
         m_fstSessionMap (mac (TxOk item w)) = m_fstSessionMap (mac w) /\
         m_bandChangedCallback (mac (TxOk item w)) = m_bandChangedCallback (mac w) /\
         m_txop (mac (TxOk item w)) = m_txop (mac w) /\
         sim (TxOk item w) = sim w
     end) /\
  (forall mpdu w', Receive mpdu w = Returns w' ->
     m_txOkCallback (mac w') = m_txOkCallback (mac w)) /\
  (forall address,
     m_txOkCallback (mac (MacTxOk address w)) = m_txOkCallback (mac w) /\
     m_txOkCallback (mac (MacRxOk address w)) = m_txOkCallback (mac w)) /\
  (forall w', run_next w = Some w' ->
     m_txOkCallback (mac w') = m_txOkCallback (mac w)).
Proof.
  split; [|split; [|split]].
  - intros item. unfold TxOk.
    destruct (GetPacket item) as [[[]|]|]; cbn; try done.
    apply setup_response_done_txOkCallback.
  - intros mpdu w' HR. unfold Receive, Receive_in in HR.
    case_decide; [by injection HR as <-|].
    destruct (GetPacket mpdu) as [[[]|]|]; try done;
      destruct (m_qosSupported (mac w)); try done; cbn in HR;
      try case_decide; injection HR as <-; try done.
    apply setup_response_done_txOkCallback.
  - intros address. unfold MacTxOk, MacRxOk, refresh_countdown.
    destruct (m_fstSessionMap (mac w) !! address) as [s|]; [|done].
    by destruct (_ && _).
  - intros w'. unfold run_next. destruct (next_event _) as [e|]; [|done].
    intros [= <-]. cbn. unfold ChangeBand. repeat case_decide; reflexivity.
Qed.

(** X8: the acknowledgement exchange after a band change, between the
    initiator [wi] and the responder [wr]. [NotifyBandChanged] with the
    initiator flag queues one Ack Request to the peer with dialog token 0 and
    the identifier of the stored session, and without the flag does nothing.
    The responder answers that request with an Ack Response that repeats the
    token and the identifier, without looking at its sessions; the confirmed
    delivery of the answer puts the responder's session with the initiator in
    the transition-confirmed state, and the receipt of the answer does the
    same to the initiator's session, whatever state either session was in. *)
Theorem ack_exchange (wi wr : World) (standard : WifiPhyStandard) :
  m_qosSupported (mac wi) = true ->
  m_qosSupported (mac wr) = true ->
  let a := GetAddress (mac wi) in
  let b := GetAddress (mac wr) in
  let si := session_at b (mac wi) in
  let request := fst_frame b a (FST_ACK_REQUEST 0 (ID si)) in
  let response := fst_frame a b (FST_ACK_RESPONSE 0 (ID si)) in
  let wi1 := on_mac (NotifyBandChanged standard b true) wi in
  NotifyBandChanged standard b false (mac wi) = mac wi /\
  m_txop (mac wi1) = m_txop (mac wi) ++ [request] /\
  m_fstSessionMap (mac wi1) !! b = Some si /\
  exists wr1 wi2,
    Receive request wr = Returns wr1 /\
    m_txop (mac wr1) = m_txop (mac wr) ++ [response] /\
    m_fstSessionMap (mac wr1) = m_fstSessionMap (mac wr) /\
    m_fstSessionMap (mac (TxOk response wr1)) !! a =
      Some (set_CurrentState FST_TRANSITION_CONFIRMED_STATE (session_at a (mac wr))) /\
    Receive response wi1 = Returns wi2 /\
    m_fstSessionMap (mac wi2) !! b =
      Some (set_CurrentState FST_TRANSITION_CONFIRMED_STATE si) /\
    sim wi2 = sim wi /\ sim (TxOk response wr1) = sim wr.
Proof.
  intros Hqi Hqr a b si request response wi1.
  split; [reflexivity|]. split; [reflexivity|].
  split; [apply lookup_insert_eq|].
  unfold Receive, Receive_in. cbn [request response fst_frame GetAddr1 GetAddr2 GetPacket].
  rewrite !decide_False by (intros H; by apply H).
  cbn [wi1 on_mac mac]. 
  replace (m_qosSupported (NotifyBandChanged standard b true (mac wi))) with true
    by (symmetry; exact Hqi).
  rewrite Hqr. cbn [negb].
  eexists _, _. split; [reflexivity|]. split; [reflexivity|].
  split; [reflexivity|]. split; [apply lookup_insert_eq|].
  split; [reflexivity|]. split; [|done].
  cbn [mac]. rewrite store_session_lookup. do 2 f_equal.
  unfold session_at at 1. cbn. by rewrite lookup_insert_eq.
Qed.

Lemma filter_fresh_uid (s : Simulator) :
  sim_wf s -> filter (fun e => ev_uid e <> m_uid s) (m_events s) = m_events s.
Proof.
  unfold sim_wf. induction (m_events s) as [|e l IH]; [done|].
  intros Hwf. apply Forall_cons in Hwf as [He Hl].
  rewrite filter_cons_True by lia. by rewrite IH.
Qed.

(** The refresh that follows the arming of a countdown with the flag
    [isInitiator]: the armed event is replaced by one with the next handle
    and the initiator flag of the session. *)
Lemma refresh_after_arming peer isInitiator w s :
  sim_wf (sim w) ->
  m_fstSessionMap (mac w) !! peer = Some s ->
  LLT s <> 0 ->
  m_events (sim (setup_response_done peer isInitiator w)) =
    m_events (sim w) ++
      [ {| ev_uid := m_uid (sim w); ev_ts := Now (sim w) + uint32 (LLT s * 32);
           ev_peer := peer; ev_band := NewBandId s; ev_isInitiator := isInitiator |} ] /\
  m_events (sim (refresh_countdown peer (setup_response_done peer isInitiator w))) =
    m_events (sim w) ++
      [ {| ev_uid := m_uid (sim w) + 1; ev_ts := Now (sim w) + uint32 (LLT s * 32);
           ev_peer := peer; ev_band := NewBandId s; ev_isInitiator := IsInitiator s |} ].
Proof.
  intros Hwf Hs Hz. rewrite (setup_response_done_pos _ _ _ _ Hs Hz).
  split; [reflexivity|].
  unfold refresh_countdown. cbn [mac sim]. rewrite store_session_lookup.
  cbn [CurrentState set_LinkLossCountDownEvent set_CurrentState LinkLossCountDownEvent].
  rewrite bool_decide_eq_true_2 by done.
  rewrite (IsRunning_last (m_events (sim w)) (countdown peer s isInitiator w)) by done.
  cbn. rewrite filter_app, (filter_fresh_uid _ Hwf).
  rewrite filter_cons_False by (cbn; intros H; by apply H).
  rewrite filter_nil, app_nil_r. reflexivity.
Qed.

(** X9: the initiator flag a countdown carries. When the countdown is
    armed, the flag bound into it does not come from the session: it is on
    when the arming is caused by a received Setup Response and off when it is
    caused by the confirmed delivery of a Setup Response. The refresh of
    [MacRxOk] and [MacTxOk] binds the initiator flag of the session instead,
    so a refresh can change the flag [ChangeBand] will be called with. Each
    of these countdowns is due after [32] times the timeout, the product
    formed in [uint32_t]. *)
Theorem refresh_rebinds_initiator_flag (w : World) (peer token : N) (s : FstSession) :
  sim_wf (sim w) ->
  m_qosSupported (mac w) = true ->
  m_fstSessionMap (mac w) !! peer = Some s ->
  LLT s <> 0 ->
  let event uid flag :=
    {| ev_uid := uid; ev_ts := Now (sim w) + uint32 (LLT s * 32); ev_peer := peer;
       ev_band := NewBandId s; ev_isInitiator := flag |} in
  (exists w1,
     Receive (fst_frame (GetAddress (mac w)) peer (FST_SETUP_RESPONSE token 0)) w
       = Returns w1 /\
     m_events (sim w1) = m_events (sim w) ++ [event (m_uid (sim w)) true] /\
     m_events (sim (MacRxOk peer w1)) =
       m_events (sim w) ++ [event (m_uid (sim w) + 1) (IsInitiator s)]) /\
  (let w1 := TxOk (fst_frame peer (GetAddress (mac w)) (FST_SETUP_RESPONSE token 0)) w in
   m_events (sim w1) = m_events (sim w) ++ [event (m_uid (sim w)) false] /\
   m_events (sim (MacTxOk peer w1)) =
     m_events (sim w) ++ [event (m_uid (sim w) + 1) (IsInitiator s)]).
Proof.
  intros Hwf Hqos Hs Hz event. split.
  - eexists. split.
    + unfold Receive, Receive_in. cbn. rewrite decide_False by (intros H; by apply H).
      rewrite Hqos. cbn. reflexivity.
    + apply (refresh_after_arming peer true w s Hwf Hs Hz).
  - apply (refresh_after_arming peer false w s Hwf Hs Hz).
Qed.

Lemma setup_response_done_txop peer isInitiator w :
  m_txop (mac (setup_response_done peer isInitiator w)) = m_txop (mac w).
Proof.
  unfold setup_response_done. case_decide; [|done].
  cbn [mac]. unfold ChangeBand. repeat case_decide; reflexivity.
Qed.

Lemma setup_response_done_edca peer isInitiator w ac :
  GetEdca ac (mac (setup_response_done peer isInitiator w)) = GetEdca ac (mac w).
Proof.
  unfold setup_response_done. case_decide; [|by destruct ac].
  cbn [mac]. unfold ChangeBand. repeat case_decide; by destruct ac.
Qed.

(** X10: the frames the handlers themselves queue. As long as a handler
    signals no band change (what the band-change callback of the device does
    on a signal, moving frames between the MACs and having an Ack Request
    queued, is not part of this statement), only [Receive] queues frames, in
    either build, and at most one: the Setup Response to a Setup Request and
    the Ack Response to an Ack Request, addressed to the sender of the
    received frame and queued behind the frames the [Txop] queue holds; for
    every other frame of the model it queues nothing, and [TxOk] queues
    nothing. [MacTxOk] and [MacRxOk] never signal a band change and queue
    nothing. In all these cases the four EDCA queues are as before. The
    frames of the model do not include block-ack action frames, which
    [Receive] answers on an EDCA queue. *)
Theorem only_Receive_queues_replies (w : World) :
  (forall build mpdu w', Receive_in build mpdu w = Returns w' ->
     m_bandChangedCallback (mac w') = m_bandChangedCallback (mac w) ->
     m_txop (mac w') = m_txop (mac w) ++
       match GetPacket mpdu with
       | MgtAction (FST (FST_SETUP_REQUEST requestHdr)) =>
           if decide (GetAddr1 mpdu = GetAddress (mac w)) then
             [fst_frame (GetAddr2 mpdu) (GetAddress (mac w))
                (FST_SETUP_RESPONSE (GetDialogToken requestHdr) 0)]
           else []
       | MgtAction (FST (FST_ACK_REQUEST token fstsID)) =>
           if decide (GetAddr1 mpdu = GetAddress (mac w)) then
             [fst_frame (GetAddr2 mpdu) (GetAddress (mac w))
                (FST_ACK_RESPONSE token fstsID)]
           else []
       | _ => []
       end /\
     forall ac, GetEdca ac (mac w') = GetEdca ac (mac w)) /\
  (forall item,
     m_bandChangedCallback (mac (TxOk item w)) = m_bandChangedCallback (mac w) ->
     m_txop (mac (TxOk item w)) = m_txop (mac w) /\
     forall ac, GetEdca ac (mac (TxOk item w)) = GetEdca ac (mac w)) /\
  (forall address,
     m_bandChangedCallback (mac (MacTxOk address w)) = m_bandChangedCallback (mac w) /\
     m_bandChangedCallback (mac (MacRxOk address w)) = m_bandChangedCallback (mac w) /\
     m_txop (mac (MacTxOk address w)) = m_txop (mac w) /\
     m_txop (mac (MacRxOk address w)) = m_txop (mac w) /\
     forall ac, GetEdca ac (mac (MacTxOk address w)) = GetEdca ac (mac w) /\
                GetEdca ac (mac (MacRxOk address w)) = GetEdca ac (mac w)).
Proof.
  split; [|split].
  - intros build mpdu w' HR _. unfold Receive_in in HR.
    case_decide as Hto.
    { injection HR as <-.
      destruct (GetPacket mpdu) as [[[]|]|]; rewrite ?decide_False by done;
        by rewrite app_nil_r. }
    destruct (GetPacket mpdu) as [[[]|]|]; try done;
      destruct (NS_ASSERT_aborts build (m_qosSupported (mac w))); try done;
      cbn in HR; try case_decide; injection HR as <-; rewrite ?decide_True by done;
      rewrite ?app_nil_r; try done.
    split; [apply setup_response_done_txop|].
    intros ac. apply setup_response_done_edca.
  - intros item _. unfold TxOk.
    destruct (GetPacket item) as [[[]|]|]; try done.
    split; [apply setup_response_done_txop|].
    intros ac. apply setup_response_done_edca.
  - intros address. unfold MacTxOk, MacRxOk, refresh_countdown.
    destruct (m_fstSessionMap (mac w) !! address) as [s|]; [|done].
    by destruct (_ && _).
Qed.

(** X11: the two ends of a handshake agree. The initiator [wi] initiates a
    session with the responder [wr]; the responder receives the queued Setup
    Request and queues its Setup Response; the response is delivered, which
    the responder learns from [TxOk] and the initiator from its receipt.
    Both sessions then carry the identifier (the session counter of the
    initiator advanced by one in [uint32_t]), the 4.9 GHz band and the
    link-loss timeout of the initiator (the timeout attribute of the
    responder plays no part) and are in the same state. With a zero timeout
    each end signals one band change to 802.11n at 5 GHz, the initiator with
    the initiator flag on and the responder with the flag off; otherwise
    each end schedules one countdown of [32] times the timeout, the product
    formed in [uint32_t]. *)
Theorem handshake_agreement (wi wr : World) :
  m_qosSupported (mac wi) = true ->
  m_qosSupported (mac wr) = true ->
  let a := GetAddress (mac wi) in
  let b := GetAddress (mac wr) in
  let llt := m_llt (mac wi) in
  let wi0 := on_mac (SetupFSTSession b) wi in
  exists request response wr1 wi1 si sr,
    last (m_txop (mac wi0)) = Some request /\
    Receive request wr = Returns wr1 /\
    last (m_txop (mac wr1)) = Some response /\
    Receive response wi0 = Returns wi1 /\
    m_fstSessionMap (mac wi1) !! b = Some si /\
    m_fstSessionMap (mac (TxOk response wr1)) !! a = Some sr /\
    ID si = uint32 (m_fstId (mac wi) + 1) /\ ID sr = ID si /\
    NewBandId si = Band_4_9GHz /\ NewBandId sr = Band_4_9GHz /\
    LLT si = llt /\ LLT sr = llt /\
    IsInitiator si = true /\ IsInitiator sr = false /\
    CurrentState sr = CurrentState si /\
    (llt = 0 ->
       CurrentState si = FST_TRANSITION_DONE_STATE /\
       m_bandChangedCallback (mac wi1) =
         m_bandChangedCallback (mac wi) ++ [(WIFI_PHY_STANDARD_80211n_5GHZ, b, true)] /\
       m_bandChangedCallback (mac (TxOk response wr1)) =
         m_bandChangedCallback (mac wr) ++ [(WIFI_PHY_STANDARD_80211n_5GHZ, a, false)] /\
       sim wi1 = sim wi /\ sim (TxOk response wr1) = sim wr) /\
    (llt <> 0 ->
       CurrentState si = FST_SETUP_COMPLETION_STATE /\
       m_bandChangedCallback (mac wi1) = m_bandChangedCallback (mac wi) /\
       m_bandChangedCallback (mac (TxOk response wr1)) = m_bandChangedCallback (mac wr) /\
       m_events (sim wi1) = m_events (sim wi) ++
         [ {| ev_uid := m_uid (sim wi); ev_ts := Now (sim wi) + uint32 (llt * 32);
              ev_peer := b; ev_band := Band_4_9GHz; ev_isInitiator := true |} ] /\
       m_events (sim (TxOk response wr1)) = m_events (sim wr) ++
         [ {| ev_uid := m_uid (sim wr); ev_ts := Now (sim wr) + uint32 (llt * 32);
              ev_peer := a; ev_band := Band_4_9GHz; ev_isInitiator := false |} ]).
Proof.
  intros Hqi Hqr a b llt wi0.
  set (s0 := fun role =>
    {| ID := uint32 (m_fstId (mac wi) + 1); CurrentState := FST_INITIAL_STATE;
       IsInitiator := role; NewBandId := Band_4_9GHz; LLT := llt;
       LinkLossCountDownEvent := None |}).
  set (request := fst_frame b a
    (FST_SETUP_REQUEST (SetupFSTSession_request (uint32 (m_fstId (mac wi) + 1)) llt))).
  set (response := fst_frame a b (FST_SETUP_RESPONSE 10 0)).
  set (wr1 := {| mac := SendFstSetupResponse a 10 0 (store_session a (s0 false) (mac wr));
                 sim := sim wr |}).
  assert (Hrequest : last (m_txop (mac wi0)) = Some request) by apply last_snoc.
  assert (HRr : Receive request wr = Returns wr1).
  { unfold Receive, Receive_in. cbn [request fst_frame GetAddr1 GetAddr2 GetPacket].
    rewrite decide_False by (intros H; by apply H). by rewrite Hqr. }
  assert (Hresponse : last (m_txop (mac wr1)) = Some response) by apply last_snoc.
  assert (HRi : Receive response wi0 = Returns (setup_response_done b true wi0)).
  { unfold Receive, Receive_in. cbn [response fst_frame GetAddr1 GetAddr2 GetPacket].
    rewrite decide_False by (intros H; by apply H).
    replace (m_qosSupported (mac wi0)) with true by (symmetry; exact Hqi).
    cbn [negb NS_ASSERT_aborts]. by rewrite decide_True. }
  assert (Hsi : m_fstSessionMap (mac wi0) !! b = Some (s0 true)) by apply lookup_insert_eq.
  assert (Hsr : m_fstSessionMap (mac wr1) !! a = Some (s0 false)) by apply lookup_insert_eq.
  assert (HT : TxOk response wr1 = setup_response_done a false wr1) by reflexivity.
  destruct (decide (llt = 0)) as [Hz|Hz].
  - rewrite (setup_response_done_zero _ _ _ _ Hsi Hz) in HRi.
    rewrite (setup_response_done_zero _ _ _ _ Hsr Hz) in HT.
    cbn [NewBandId s0] in HRi, HT. rewrite ChangeBand_4_9GHz in HRi, HT.
    eexists request, response, wr1, _,
      (set_CurrentState FST_TRANSITION_DONE_STATE (s0 true)),
      (set_CurrentState FST_TRANSITION_DONE_STATE (s0 false)).
    rewrite HT.
    split; [exact Hrequest|]. split; [exact HRr|]. split; [exact Hresponse|].
    split; [exact HRi|].
    split; [apply lookup_insert_eq|]. split; [apply lookup_insert_eq|].
    do 9 (split; [reflexivity|]).
    split; [intros _; repeat split | intros Hnz; done].
  - rewrite (setup_response_done_pos _ _ _ _ Hsi Hz) in HRi.
    rewrite (setup_response_done_pos _ _ _ _ Hsr Hz) in HT.
    eexists request, response, wr1, _,
      (set_LinkLossCountDownEvent (Some (m_uid (sim wi)))
         (set_CurrentState FST_SETUP_COMPLETION_STATE (s0 true))),
      (set_LinkLossCountDownEvent (Some (m_uid (sim wr)))
         (set_CurrentState FST_SETUP_COMPLETION_STATE (s0 false))).
    rewrite HT.
    split; [exact Hrequest|]. split; [exact HRr|]. split; [exact Hresponse|].
    split; [exact HRi|].
    split; [apply lookup_insert_eq|]. split; [apply lookup_insert_eq|].
    do 9 (split; [reflexivity|]).
    split; [intros Hnz; done | intros _; repeat split].
Qed.
(** ** Properties of the configuration for a standard *)

Lemma set_qosSupported_same m : set_qosSupported (m_qosSupported m) m = m.
Proof. by destruct m. Qed.

Lemma EnableAggregation_effect c :
  EnableAggregation c = SetMpduAggregator true (SetMsduAggregator true c).
Proof. destruct c as [m dmg edmg erp dsss rifs ht [|] [|] calls]; reflexivity. Qed.

(** X12: what the configuration for a standard means for the session
    handling. Of the session members, [FinishConfigureStandard] changes the
    QoS flag only: it switches the flag on for the DMG, EDMG, HT, VHT and HE
    standards and leaves it alone for 802.11a, b, g, holland and the 10 and
    5 MHz standards. In the debug build [Receive] therefore aborts on every
    FST frame addressed to a station that was not a QoS station and was
    configured for one of the latter standards; on a station configured for
    one of the former, and on every station in the optimized build, which
    has no assertion, it aborts on no FST frame but one with an unsupported
    action. *)
Theorem FinishConfigureStandard_then_Receive
  (standard : PhyStandard.WifiPhyStandard) (c c' : MacConfiguration) :
  FinishConfigureStandard standard c = Some c' ->
  let legacy :=
    match standard with
    | PhyStandard.WIFI_PHY_STANDARD_80211g
    | PhyStandard.WIFI_PHY_STANDARD_holland
    | PhyStandard.WIFI_PHY_STANDARD_80211a
    | PhyStandard.WIFI_PHY_STANDARD_80211_10MHZ
    | PhyStandard.WIFI_PHY_STANDARD_80211_5MHZ
    | PhyStandard.WIFI_PHY_STANDARD_80211b => true
    | _ => false
    end in
  GetSessions c' =
    set_qosSupported (m_qosSupported (GetSessions c) || negb legacy) (GetSessions c) /\
  forall (build : BuildProfile) (from : N) (a : FstAction) (sm : Simulator),
    Receive_in build (fst_frame (GetAddress (GetSessions c')) from a)
      {| mac := GetSessions c'; sim := sm |} = FatalError <->
    (build = debug /\ m_qosSupported (GetSessions c) = false /\ legacy = true) \/
    (exists code, a = FST_UNSUPPORTED code).
Proof.
  intros HF legacy.
  assert (Hm : GetSessions c' =
    set_qosSupported (m_qosSupported (GetSessions c) || negb legacy) (GetSessions c)).
  { destruct standard; cbn in HF; unfold configure_ht in HF;
      rewrite ?EnableAggregation_effect in HF; cbn in HF;
      try destruct (GetHtConfiguration c); cbn in HF; try discriminate;
      injection HF as <-; cbn; rewrite ?EnableAggregation_effect; cbn;
      rewrite ?orb_true_r, ?orb_false_r, ?set_qosSupported_same; reflexivity. }
  split; [exact Hm|]. intros build from a sm. unfold Receive_in.
  cbn [fst_frame GetAddr1 GetAddr2 GetPacket mac].
  rewrite decide_False by (intros H; by apply H).
  rewrite Hm. cbn [m_qosSupported set_qosSupported]. clearbody legacy.
  destruct build, (m_qosSupported (GetSessions c)), legacy, a; cbn;
    try case_decide; split; intros Hx;
    try discriminate; try reflexivity; eauto;
    destruct Hx as [(? & ? & ?)|[? ?]]; discriminate.
Qed.

(** X13: [FinishConfigureStandard] aborts exactly for a standard its switch
    does not name and for an HT, VHT or HE standard on a MAC without HT
    configuration. When it returns it has configured the contention window
    once: the minimal window is 31 for 802.11b and 15 for every other
    standard, the maximal window is 1023, and the DSSS-only flag is computed
    from the support flags as the call leaves them; the HT, VHT and HE
    standards hand the RIFS attribute to the HT configuration. *)
Theorem FinishConfigureStandard_outcome
  (standard : PhyStandard.WifiPhyStandard) (c : MacConfiguration) :
  let ht :=
    match standard with
    | PhyStandard.WIFI_PHY_STANDARD_80211ax_5GHZ
    | PhyStandard.WIFI_PHY_STANDARD_80211ac
    | PhyStandard.WIFI_PHY_STANDARD_80211n_5GHZ
    | PhyStandard.WIFI_PHY_STANDARD_80211ax_2_4GHZ
    | PhyStandard.WIFI_PHY_STANDARD_80211n_2_4GHZ => true
    | _ => false
    end in
  (FinishConfigureStandard standard c = None <->
     (exists code, standard = PhyStandard.WIFI_PHY_STANDARD_unlisted code) \/
     (ht = true /\ GetHtConfiguration c = None)) /\
  (forall c', FinishConfigureStandard standard c = Some c' ->
     ConfigureDcf_calls c' =
       ConfigureDcf_calls c ++
       [ (match standard with PhyStandard.WIFI_PHY_STANDARD_80211b => 31 | _ => 15 end,
          1023, m_dsssSupported c' && negb (m_erpSupported c')) ] /\
     m_rifsSupported c' = m_rifsSupported c /\
     GetHtConfiguration c' =
       if ht then Some (m_rifsSupported c) else GetHtConfiguration c).
Proof.
  intros ht. split.
  - destruct standard; cbn; unfold configure_ht;
      rewrite ?EnableAggregation_effect; cbn;
      try destruct (GetHtConfiguration c); cbn; split; intros H;
      try discriminate; try reflexivity; eauto;
      destruct H as [[? ?]|[? ?]]; discriminate.
  - intros c' HF.
    destruct standard; cbn in HF; unfold configure_ht in HF;
      rewrite ?EnableAggregation_effect in HF; cbn in HF;
      try destruct (GetHtConfiguration c) eqn:Hht; cbn in HF; try discriminate;
      injection HF as <-; cbn; rewrite ?EnableAggregation_effect; cbn; done.
Qed.

(** X14: [FinishConfigureStandard] never withdraws a support: a support
    flag that was set and an aggregator that was present are still there when
    it returns, whatever the standard. A MAC that supports ERP (it was
    configured for 802.11g or a 2.4 GHz HT or HE standard before) is for this
    reason never configured DSSS-only, also not by a configuration for
    802.11b. *)
Theorem support_is_never_withdrawn
  (standard : PhyStandard.WifiPhyStandard) (c c' : MacConfiguration) :
  FinishConfigureStandard standard c = Some c' ->
  (m_dmgSupported c = true -> m_dmgSupported c' = true) /\
  (m_edmgSupported c = true -> m_edmgSupported c' = true) /\
  (m_qosSupported (GetSessions c) = true -> m_qosSupported (GetSessions c') = true) /\
  (m_erpSupported c = true -> m_erpSupported c' = true) /\
  (m_dsssSupported c = true -> m_dsssSupported c' = true) /\
  (GetMsduAggregator c = true -> GetMsduAggregator c' = true) /\
  (GetMpduAggregator c = true -> GetMpduAggregator c' = true) /\
  (m_erpSupported c = true ->
     exists cwMin cwMax,
       last (ConfigureDcf_calls c') = Some (cwMin, cwMax, false)).
Proof.
  intros HF.
  destruct standard; cbn in HF; unfold configure_ht in HF;
    rewrite ?EnableAggregation_effect in HF; cbn in HF;
    try destruct (GetHtConfiguration c); cbn in HF; try discriminate;
    injection HF as <-; cbn; rewrite ?EnableAggregation_effect; cbn;
    repeat split; try done;
    intros Herp; rewrite ?Herp, last_snoc; cbn; rewrite ?andb_false_r; eauto.
Qed.

(** X15: switching a support off does not undo switching it on.
    [SetDmgSupported (true)] followed by [SetDmgSupported (false)], and the
    same for EDMG, leaves the MAC a QoS station without aggregators, whether
    or not it was one before and whether or not it had aggregators; and
    [SetErpSupported (true)] followed by [SetErpSupported (false)] leaves
    DSSS support on, so that the contention window is then configured
    DSSS-only. *)
Theorem support_switched_off_again (c : MacConfiguration) :
  let c1 := SetDmgSupported false (SetDmgSupported true c) in
  let c2 := SetEdmgSupported false (SetEdmgSupported true c) in
  let c3 := SetErpSupported false (SetErpSupported true c) in
  (m_dmgSupported c1 = false /\ m_qosSupported (GetSessions c1) = true /\
   GetMsduAggregator c1 = false /\ GetMpduAggregator c1 = false) /\
  (m_edmgSupported c2 = false /\ m_qosSupported (GetSessions c2) = true /\
   GetMsduAggregator c2 = false /\ GetMpduAggregator c2 = false) /\
  (m_erpSupported c3 = false /\ m_dsssSupported c3 = true /\
   forall cwMin cwMax,
     last (ConfigureDcf_calls (ConfigureContentionWindow cwMin cwMax c3)) =
       Some (cwMin, cwMax, true)).
Proof.
  cbv zeta. unfold SetDmgSupported, SetEdmgSupported.
  rewrite !EnableAggregation_effect. cbn.
  repeat split. intros cwMin cwMax. by rewrite last_snoc.
Qed.

(** X16: the RIFS attribute is read back as it was written, with or without
    an HT configuration. A configuration for an HT, VHT or HE standard
    overwrites what the HT configuration held with the value of the member,
    so that afterwards [GetRifsSupported] returns the member; a
    configuration for any other standard leaves what [GetRifsSupported]
    returns as it was. *)
Theorem RifsSupported_round_trip (c : MacConfiguration) :
  (forall enable,
     GetRifsSupported (SetRifsSupported enable c) = enable /\
     m_rifsSupported (SetRifsSupported enable c) = enable) /\
  (forall standard c',
     FinishConfigureStandard standard c = Some c' ->
     GetRifsSupported c' =
       match standard with
       | PhyStandard.WIFI_PHY_STANDARD_80211ax_5GHZ
       | PhyStandard.WIFI_PHY_STANDARD_80211ac
       | PhyStandard.WIFI_PHY_STANDARD_80211n_5GHZ
       | PhyStandard.WIFI_PHY_STANDARD_80211ax_2_4GHZ
       | PhyStandard.WIFI_PHY_STANDARD_80211n_2_4GHZ => m_rifsSupported c
       | _ => GetRifsSupported c
       end).
Proof.
  split.
  - intros enable. unfold GetRifsSupported, SetRifsSupported. cbn.
    by destruct (GetHtConfiguration c).
  - intros standard c' HF. unfold GetRifsSupported.
    destruct standard; cbn in HF; unfold configure_ht in HF;
      rewrite ?EnableAggregation_effect in HF; cbn in HF;
      try destruct (GetHtConfiguration c) eqn:Hht; cbn in HF; try discriminate;
      injection HF as <-; cbn; rewrite ?EnableAggregation_effect; cbn;
      rewrite ?Hht; done.
Qed.

(** ** Properties of the configuration of the device *)

Lemma technologies_ready d :
  forallb technology_ready (technologies d) = true <->
  map_Forall (fun _ t => Mac t <> 0 /\ Phy t <> 0 /\ StationManager t <> 0)
    (m_list (GetDevice d)).
Proof.
  unfold technologies. rewrite forallb_forall, map_Forall_to_list, Forall_forall.
  split.
  - intros H [standard t] Ht. cbn.
    assert (Hr : technology_ready t = true).
    { apply H. apply list_elem_of_In, list_elem_of_fmap. by exists (standard, t). }
    unfold technology_ready in Hr. apply negb_true_iff in Hr.
    apply orb_false_iff in Hr as [Hr Hs]. apply orb_false_iff in Hr as [Hm Hp].
    apply bool_decide_eq_false in Hm, Hp, Hs. done.
  - intros H t Ht. apply list_elem_of_In, list_elem_of_fmap in Ht as ([standard t'] & -> & Ht).
    specialize (H _ Ht). cbn in H. destruct H as (Hm & Hp & Hs).
    unfold technology_ready. cbn.
    by rewrite !bool_decide_eq_false_2.
Qed.

Lemma technologies_not_ready d standard t :
  m_list (GetDevice d) !! standard = Some t ->
  Mac t = 0 \/ Phy t = 0 \/ StationManager t = 0 ->
  forallb technology_ready (technologies d) = false.
Proof.
  intros Ht Hnull. apply not_true_is_false. rewrite technologies_ready.
  intros H. specialize (H standard t Ht). cbn in H.
  destruct H as (Hm & Hp & Hs). by destruct Hnull as [?|[?|?]].
Qed.

Lemma CompleteConfig_complete d :
  m_configComplete d = true -> CompleteConfig d = d.
Proof. intros Hc. unfold CompleteConfig. by rewrite Hc, orb_true_r. Qed.

(** X17: [AddNewWifiTechnology] registers the three objects under the
    standard and touches nothing else: the technology in use stays in use,
    also when the call replaces the technology registered under the standard
    in use. After the call [GetTechnologyMac] and [GetTechnologyPhy] return
    the MAC and the PHY just added and leave the device as it is, and
    [SwitchTechnology] puts the three objects just added in use. *)
Theorem AddNewWifiTechnology_registers (phy mac station : N)
  (standard : WifiPhyStandard) (operational : bool) (d : MultiBandNetDevice) :
  let d1 := AddNewWifiTechnology phy mac station standard operational d in
  (m_mac d1, m_phy d1, m_stationManager d1, m_standard d1) =
    (m_mac d, m_phy d, m_stationManager d, m_standard d) /\
  (m_macs d1, m_managers d1, m_calls d1) = (m_macs d, m_managers d, m_calls d) /\
  (forall standard', standard' <> standard ->
     m_list d1 !! standard' = m_list d !! standard') /\
  GetTechnologyMac standard d1 = (mac, d1) /\
  GetTechnologyPhy standard d1 = (phy, d1) /\
  (let d2 := SwitchTechnology standard d1 in
   m_mac d2 = mac /\ m_phy d2 = phy /\ m_stationManager d2 = station /\
   m_standard d2 = standard /\ m_list d2 = m_list d1).
Proof.
  intros d1. split; [reflexivity|]. split; [reflexivity|].
  split; [intros standard' Hne; cbn; by rewrite lookup_insert_ne|].
  assert (Hl : m_list d1 !! standard =
    Some {| Phy := phy; Mac := mac; StationManager := station;
            Operational := operational |}) by apply lookup_insert_eq.
  unfold GetTechnologyMac, GetTechnologyPhy, SwitchTechnology. rewrite Hl. cbn [default].
  rewrite (insert_id _ _ _ Hl). cbn [Mac Phy StationManager].
  repeat split.
Qed.

(** While a technology of null pointers is registered under a standard, a
    setup call that does not add a technology under that standard keeps it
    there and completes nothing. *)
Lemma null_technology_kept standard call d :
  (forall phy mac station operational,
     call <> AddNewWifiTechnology_call phy mac station standard operational) ->
  m_list (GetDevice d) !! standard = Some WifiTechnology_default ->
  m_list (GetDevice (setup_call call d)) !! standard = Some WifiTechnology_default /\
  m_configComplete (setup_call call d) = m_configComplete d /\
  m_connected (setup_call call d) = m_connected d.
Proof.
  intros Hcall Hl.
  assert (Hkeep : forall standard',
    <[standard' := default WifiTechnology_default (m_list (GetDevice d) !! standard')]>
      (m_list (GetDevice d)) !! standard = Some WifiTechnology_default).
  { intros standard'. destruct (decide (standard' = standard)) as [->|Hne].
    - by rewrite Hl, lookup_insert_eq.
    - by rewrite lookup_insert_ne. }
  assert (Hnot : forall d', GetDevice d' = GetDevice d ->
    forallb technology_ready (technologies d') = false).
  { intros d' Hd'. apply (technologies_not_ready _ standard WifiTechnology_default).
    - by rewrite Hd'.
    - by left. }
  destruct call as [phy mac station standard' operational|standard'|standard'|standard'| |node];
    cbn [setup_call].
  - assert (Hne : standard' <> standard).
    { intros ->. by apply (Hcall phy mac station operational). }
    cbn. by rewrite lookup_insert_ne.
  - cbn. by rewrite Hkeep.
  - cbn. by rewrite Hkeep.
  - cbn. by rewrite Hkeep.
  - unfold CompleteConfig. destruct (_ || _); [done|]. by rewrite Hnot.
  - unfold SetNode, CompleteConfig. cbn [m_node m_configComplete].
    destruct (_ || _); [done|]. by rewrite Hnot.
Qed.

(** X18: asking for the MAC of a standard that was never added returns the
    null pointer and registers a technology of three null pointers under
    that standard. With it registered [CompleteConfig] changes nothing,
    [SetNode] cannot complete the configuration, and [DoInitialize] aborts;
    and this lasts until a technology is added under that standard: after
    any sequence of setup calls none of which is an [AddNewWifiTechnology]
    for that standard, the technology of null pointers is still registered,
    the configuration is no more complete and no more connected than before,
    and [DoInitialize] aborts. *)
Theorem GetTechnologyMac_registers_null_technology (standard : WifiPhyStandard)
  (d : DeviceConfiguration) :
  m_list (GetDevice d) !! standard = None ->
  let d1 := on_device (fun d => (GetTechnologyMac standard d).2) d in
  (GetTechnologyMac standard (GetDevice d)).1 = 0 /\
  m_list (GetDevice d1) = <[standard := WifiTechnology_default]> (m_list (GetDevice d)) /\
  CompleteConfig d1 = d1 /\
  (forall node,
     m_configComplete (SetNode node d1) = m_configComplete d /\
     m_connected (SetNode node d1) = m_connected d) /\
  DoInitialize d1 = None /\
  (forall calls : list SetupCall,
     Forall (fun call => forall phy mac station operational,
               call <> AddNewWifiTechnology_call phy mac station standard operational)
       calls ->
     m_list (GetDevice (setup_calls calls d1)) !! standard = Some WifiTechnology_default /\
     m_configComplete (setup_calls calls d1) = m_configComplete d /\
     m_connected (setup_calls calls d1) = m_connected d /\
     DoInitialize (setup_calls calls d1) = None).
Proof.
  intros Hnone d1.
  assert (Hl : m_list (GetDevice d1) =
    <[standard := WifiTechnology_default]> (m_list (GetDevice d))).
  { cbn. by rewrite Hnone. }
  assert (Hnot : forall d', GetDevice d' = GetDevice d1 ->
    forallb technology_ready (technologies d') = false).
  { intros d' Hd'. apply (technologies_not_ready _ standard WifiTechnology_default).
    - rewrite Hd', Hl. apply lookup_insert_eq.
    - by left. }
  split; [unfold GetTechnologyMac; by rewrite Hnone|]. split; [exact Hl|].
  split; [|split; [|split]].
  - unfold CompleteConfig. destruct (_ || _); [done|].
    by rewrite Hnot.
  - intros node. unfold SetNode, CompleteConfig. cbn [m_node m_configComplete].
    destruct (_ || _); [done|]. by rewrite Hnot.
  - unfold DoInitialize. by rewrite Hnot.
  - intros calls Hcalls.
    assert (Hinv : forall d2 : DeviceConfiguration,
      m_list (GetDevice d2) !! standard = Some WifiTechnology_default ->
      m_list (GetDevice (setup_calls calls d2)) !! standard
        = Some WifiTechnology_default /\
      m_configComplete (setup_calls calls d2) = m_configComplete d2 /\
      m_connected (setup_calls calls d2) = m_connected d2).
    { induction Hcalls as [|call calls Hcall Hcalls IH]; intros d2 Hd2; [done|].
      destruct (null_technology_kept standard call d2 Hcall Hd2) as (Hl2 & Hc2 & Hn2).
      change (setup_calls (call :: calls) d2)
        with (setup_calls calls (setup_call call d2)).
      destruct (IH _ Hl2) as (Hl3 & Hc3 & Hn3).
      split; [exact Hl3|]. split; congruence. }
    destruct (Hinv d1) as (Hl2 & Hc2 & Hn2); [rewrite Hl; apply lookup_insert_eq|].
    split; [exact Hl2|]. split; [exact Hc2|]. split; [exact Hn2|].
    unfold DoInitialize.
    by rewrite (technologies_not_ready _ standard WifiTechnology_default Hl2) by (by left).
Qed.

(** X19: [CompleteConfig] connects all technologies or none. With a node,
    with the configuration not yet complete and with no null pointer in any
    registered technology, it marks the configuration complete and connects
    the objects of every registered technology, adding nothing else; in
    every other case it changes nothing. It never touches the device
    members, and a second call changes nothing. *)
Theorem CompleteConfig_all_or_nothing (d : DeviceConfiguration) :
  let ready :=
    m_node d <> 0 /\ m_configComplete d = false /\
    map_Forall (fun _ t => Mac t <> 0 /\ Phy t <> 0 /\ StationManager t <> 0)
      (m_list (GetDevice d)) in
  (ready ->
     m_configComplete (CompleteConfig d) = true /\
     forall triple,
       triple ∈ m_connected (CompleteConfig d) <->
       triple ∈ m_connected d \/
       exists standard t,
         m_list (GetDevice d) !! standard = Some t /\
         triple = (Mac t, Phy t, StationManager t)) /\
  (~ ready -> CompleteConfig d = d) /\
  GetDevice (CompleteConfig d) = GetDevice d /\
  m_node (CompleteConfig d) = m_node d /\
  CompleteConfig (CompleteConfig d) = CompleteConfig d.
Proof.
  cbv zeta.
  destruct (bool_decide (m_node d = 0)) eqn:Hnode.
  { assert (HC : CompleteConfig d = d) by (unfold CompleteConfig; by rewrite Hnode).
    rewrite !HC. apply bool_decide_eq_true in Hnode.
    split; [intros (? & _); done|]. done. }
  apply bool_decide_eq_false in Hnode.
  destruct (m_configComplete d) eqn:Hc.
  { assert (HC : CompleteConfig d = d) by (by apply CompleteConfig_complete).
    rewrite !HC. split; [intros (_ & ? & _); done|]. done. }
  destruct (forallb technology_ready (technologies d)) eqn:Hready.
  - assert (HC : CompleteConfig d =
      {| GetDevice := GetDevice d; m_node := m_node d; m_configComplete := true;
         m_connected :=
           m_connected d ∪
           list_to_set ((fun t => (Mac t, Phy t, StationManager t)) <$> technologies d) |}).
    { unfold CompleteConfig. rewrite bool_decide_eq_false_2 by done.
      by rewrite Hc, Hready. }
    apply technologies_ready in Hready.
    split; [|split; [|split; [by rewrite HC|split; [by rewrite HC|]]]].
    + intros _. rewrite HC. split; [done|]. intros triple. cbn [m_connected].
      rewrite elem_of_union, elem_of_list_to_set, list_elem_of_fmap.
      unfold technologies. split.
      * intros [H|(t & -> & Ht)]; [by left|right].
        apply list_elem_of_fmap in Ht as ([standard t'] & -> & Ht).
        apply elem_of_map_to_list in Ht. by exists standard, t'.
      * intros [H|(standard & t & Ht & ->)]; [by left|right].
        exists t. split; [done|]. apply list_elem_of_fmap.
        exists (standard, t). split; [done|]. by apply elem_of_map_to_list.
    + intros Hnot. exfalso. apply Hnot. done.
    + rewrite HC. by apply CompleteConfig_complete.
  - assert (HC : CompleteConfig d = d).
    { unfold CompleteConfig. rewrite bool_decide_eq_false_2 by done.
      by rewrite Hc, Hready. }
    rewrite !HC. split; [|done].
    intros (_ & _ & Hall). apply technologies_ready in Hall. congruence.
Qed.

Lemma setup_call_complete call d :
  m_configComplete d = true ->
  m_configComplete (setup_call call d) = true /\
  m_connected (setup_call call d) = m_connected d.
Proof.
  intros Hc. destruct call; cbn; try done.
  - by rewrite (CompleteConfig_complete _ Hc).
  - unfold SetNode. by rewrite CompleteConfig_complete.
Qed.

(** X20: a completed configuration is final. Once the configuration is
    marked complete, no sequence of [AddNewWifiTechnology],
    [GetTechnologyMac], [GetTechnologyPhy], [SwitchTechnology],
    [CompleteConfig] and [SetNode] calls connects another technology or
    takes the mark away. In particular a device that is given its node
    before any technology is added is marked complete with nothing
    connected, and the technologies added afterwards are never connected. *)
Theorem completed_configuration_is_final :
  (forall (calls : list SetupCall) (d : DeviceConfiguration),
     m_configComplete d = true ->
     m_configComplete (setup_calls calls d) = true /\
     m_connected (setup_calls calls d) = m_connected d) /\
  (forall (h : gmap N RegularWifiMac) (standard : WifiPhyStandard) (node : N)
          (calls : list SetupCall),
     node <> 0 ->
     let d := setup_calls calls (SetNode node (MultiBandNetDevice_new h standard)) in
     m_configComplete d = true /\ m_connected d = ∅).
Proof.
  assert (Hfinal : forall (calls : list SetupCall) (d : DeviceConfiguration),
    m_configComplete d = true ->
    m_configComplete (setup_calls calls d) = true /\
    m_connected (setup_calls calls d) = m_connected d).
  { induction calls as [|call calls IH]; intros d Hc; [done|].
    destruct (setup_call_complete call d Hc) as [Hc' Hconn].
    change (setup_calls (call :: calls) d) with (setup_calls calls (setup_call call d)).
    destruct (IH _ Hc') as [Hc2 Hconn2]. split; [exact Hc2|].
    by rewrite Hconn2. }
  split; [exact Hfinal|].
  intros h standard node calls Hnode d.
  assert (Hd : SetNode node (MultiBandNetDevice_new h standard) =
    {| GetDevice := GetDevice (MultiBandNetDevice_new h standard); m_node := node;
       m_configComplete := true; m_connected := ∅ |}).
  { unfold SetNode, CompleteConfig. cbn [m_node m_configComplete orb].
    rewrite bool_decide_eq_false_2 by done. cbn. f_equal. }
  unfold d. rewrite Hd.
  match goal with
  | |- context [setup_calls calls ?x] => exact (Hfinal calls x eq_refl)
  end.
Qed.

(** X21: a band change to a standard that was never added, or that was
    added with a null MAC, aborts, and so does a band change on a device with
    no technology in use; a session cannot be initiated on such a device
    either. *)
Theorem BandChanged_without_technology_aborts (standard : WifiPhyStandard)
  (address : N) (isInitiator : bool) (d : MultiBandNetDevice) :
  m_macs d !! 0 = None ->
  (m_list d !! standard = None \/
   (exists t, m_list d !! standard = Some t /\ Mac t = 0) \/
   m_mac d = 0 ->
   BandChanged standard address isInitiator d = None) /\
  (m_mac d = 0 -> EstablishFastSessionTransferSession address d = None).
Proof.
  intros Hnull. split.
  - intros Hcase. unfold BandChanged, BandChanged_migrate.
    assert (Ht : TransferPacketsByAddress address DCA (m_mac d)
                   (m_mac (SwitchTechnology standard d))
                   (m_macs (SwitchTechnology standard d)) = None).
    { unfold TransferPacketsByAddress. cbn [SwitchTechnology m_mac m_macs].
      destruct Hcase as [Hnone | [(t & Ht & Hmac) | Hold]].
      - rewrite Hnone. cbn. rewrite Hnull. by destruct (m_macs d !! m_mac d).
      - rewrite Ht. cbn. rewrite Hmac, Hnull. by destruct (m_macs d !! m_mac d).
      - by rewrite Hold, Hnull. }
    unfold transfer_step at 5. rewrite Ht. reflexivity.
  - intros Hold. unfold EstablishFastSessionTransferSession. by rewrite Hold, Hnull.
Qed.

(** ** Properties of the capability elements *)

(** X22: the lengths announced in the capability elements against the
    configured A-MSDU sizes. For sizes the attribute checker admits (at most
    11398 for each access category) the maximum MPDU length of the VHT
    capabilities is at least 56 above the largest configured size, and for a
    largest size of at most 7935 it is exactly 56 above the maximum A-MSDU
    length of the HT capabilities; for a larger size the HT capabilities
    announce 7935, less than what is configured. *)
Theorem capabilities_cover_configured_size (vo vi be bk : N) :
  vo <= 11398 -> vi <= 11398 -> be <= 11398 -> bk <= 11398 ->
  let size := maxAmsduSize vo vi be bk in
  let ht := GetHtCapabilities_MaxAmsduLength vo vi be bk in
  let vht := GetVhtCapabilities_MaxMpduLength vo vi be bk in
  (vo <= size /\ vi <= size /\ be <= size /\ bk <= size) /\
  size + 56 <= vht /\
  (size <= 7935 -> size <= ht /\ vht = ht + 56) /\
  (7935 < size -> ht = 7935 /\ vht = 11454).
Proof.
  intros Hvo Hvi Hbe Hbk. cbv zeta.
  unfold GetHtCapabilities_MaxAmsduLength, GetVhtCapabilities_MaxMpduLength.
  assert (Hsize : maxAmsduSize vo vi be bk <= 11398) by (unfold maxAmsduSize; lia).
  split; [unfold maxAmsduSize; lia|].
  destruct (maxAmsduSize vo vi be bk <=? 3839) eqn:H1;
    [apply N.leb_le in H1 | apply N.leb_gt in H1];
    (destruct (maxAmsduSize vo vi be bk <=? 7935) eqn:H2;
      [apply N.leb_le in H2 | apply N.leb_gt in H2]); lia.
Qed.

(** X23: the bit fields of the HE capabilities. The channel width set never
    has the 160 MHz bit without the 80 MHz bit, so it is never 4 or 5, and
    the guard-interval field never has the 800 ns bit without the 1600 ns
    bit, so it is never 2; both fit their fields. *)
Theorem HeCapabilities_bits (channelWidth : N) (is2_4Ghz is5Ghz : bool)
  (guardInterval : Z) :
  let channelWidthSet := GetHeCapabilities_ChannelWidthSet channelWidth is2_4Ghz is5Ghz in
  let gi := GetHeCapabilities_HeLtfAndGi guardInterval in
  (N.testbit channelWidthSet 2 = true -> N.testbit channelWidthSet 1 = true) /\
  channelWidthSet < 8 /\ channelWidthSet <> 4 /\ channelWidthSet <> 5 /\
  (N.testbit channelWidthSet 0 = true <-> 40 <= channelWidth /\ is2_4Ghz = true) /\
  (N.testbit gi 1 = true -> N.testbit gi 0 = true) /\
  gi < 4 /\ gi <> 2 /\
  (gi = 3 <-> guardInterval = 800%Z).
Proof.
  cbv zeta. unfold GetHeCapabilities_ChannelWidthSet, GetHeCapabilities_HeLtfAndGi.
  destruct (40 <=? channelWidth) eqn:H40; [apply N.leb_le in H40 | apply N.leb_gt in H40];
    (destruct (80 <=? channelWidth) eqn:H80;
      [apply N.leb_le in H80 | apply N.leb_gt in H80]);
    (destruct (160 <=? channelWidth) eqn:H160;
      [apply N.leb_le in H160 | apply N.leb_gt in H160]);
    try lia;
    destruct is2_4Ghz, is5Ghz; cbn;
    (destruct (guardInterval <=? 1600)%Z eqn:Hgi;
      [apply Z.leb_le in Hgi | apply Z.leb_gt in Hgi]);
    (destruct (guardInterval =? 800)%Z eqn:H800;
      [apply Z.eqb_eq in H800 | apply Z.eqb_neq in H800]);
    try lia; cbn; repeat split; intros; try done; try lia.
Qed.

(** ** The further properties at concrete stations and devices *)

(** X5 at station 1: the Setup Request of peer 7 with a zero timeout. *)
Lemma responder_setup_witness :
  m_qosSupported (mac (World_new 1 5)) = true /\
  exists w1,
    Receive (fst_frame 1 7 (FST_SETUP_REQUEST (SetupFSTSession_request 3 0)))
      (World_new 1 5) = Returns w1 /\
    m_fstSessionMap (mac w1) !! 7 = Some responder_session /\
    m_txop (mac w1) = [fst_frame 7 1 (FST_SETUP_RESPONSE 10 0)] /\
    m_bandChangedCallback (mac (TxOk (fst_frame 7 1 (FST_SETUP_RESPONSE 10 0)) w1)) =
      [(WIFI_PHY_STANDARD_80211n_5GHZ, 7, false)].
Proof.
  split; [reflexivity|].
  destruct (responder_setup (World_new 1 5) 7 (SetupFSTSession_request 3 0) eq_refl)
    as (w1 & HR & Hs & Hq & _ & _ & Hzero & _).
  exists w1. split; [exact HR|]. split; [exact Hs|]. split; [exact Hq|].
  destruct (Hzero eq_refl) as (_ & _ & Hlog). exact Hlog.
Defined.

(** X6 at station 1: the request of peer 7 names a band without standard. *)
Lemma transition_done_without_band_change_witness :
  m_qosSupported (mac (World_new 1 5)) = true /\
  Band_ID (GetNewBand (GetSessionTransition request_for_unknown_band)) = Band_other 9 /\
  GetLlt request_for_unknown_band = 0 /\
  exists w1 w2,
    Receive (fst_frame 1 7 (FST_SETUP_REQUEST request_for_unknown_band)) (World_new 1 5)
      = Returns w1 /\
    w2 = TxOk (fst_frame 7 1 (FST_SETUP_RESPONSE 10 0)) w1 /\
    CurrentState <$> m_fstSessionMap (mac w2) !! 7 = Some FST_TRANSITION_DONE_STATE /\
    m_bandChangedCallback (mac w2) = [].
Proof.
  split; [reflexivity|]. split; [reflexivity|]. split; [reflexivity|].
  destruct (transition_done_without_band_change (World_new 1 5) 7
              request_for_unknown_band 9 eq_refl eq_refl eq_refl)
    as (w1 & w2 & HR & Hw2 & Hst & Hcb & _).
  exists w1, w2. split; [exact HR|]. split; [exact Hw2|]. split; [exact Hst | exact Hcb].
Defined.

(** X8 between station 1, the initiator of session 1 with station 7, and
    station 7. *)
Lemma ack_exchange_witness :
  m_qosSupported (mac initiator_world) = true /\
  m_qosSupported (mac (World_new 7 5)) = true /\
  exists wr1,
    Receive (fst_frame 7 1 (FST_ACK_REQUEST 0 1)) (World_new 7 5) = Returns wr1 /\
    m_txop (mac wr1) = [fst_frame 1 7 (FST_ACK_RESPONSE 0 1)].
Proof.
  split; [reflexivity|]. split; [reflexivity|].
  destruct (ack_exchange initiator_world (World_new 7 5) WIFI_PHY_STANDARD_80211n_5GHZ
              eq_refl eq_refl)
    as (_ & _ & _ & wr1 & wi2 & HR & Hq & _).
  exists wr1. split; [exact HR | exact Hq].
Defined.

(** X9 at station 1, whose session with peer 7 is a responder session: the
    countdown armed by a received Setup Response carries the flag on, the
    one that replaces it at the refresh carries the flag off. *)
Lemma refresh_rebinds_initiator_flag_witness :
  sim_wf (sim responder_world_9) /\
  m_qosSupported (mac responder_world_9) = true /\
  m_fstSessionMap (mac responder_world_9) !! 7 = Some responder_session_9 /\
  LLT responder_session_9 <> 0 /\
  exists w1,
    Receive (fst_frame 1 7 (FST_SETUP_RESPONSE 10 0)) responder_world_9 = Returns w1 /\
    ev_isInitiator <$> m_events (sim w1) = [true] /\
    ev_isInitiator <$> m_events (sim (MacRxOk 7 w1)) = [false].
Proof.
  assert (Hwf : sim_wf (sim responder_world_9)) by constructor.
  assert (Hs : m_fstSessionMap (mac responder_world_9) !! 7 = Some responder_session_9)
    by (vm_compute; reflexivity).
  assert (Hz : LLT responder_session_9 <> 0) by discriminate.
  split; [exact Hwf|]. split; [reflexivity|]. split; [exact Hs|]. split; [exact Hz|].
  destruct (refresh_rebinds_initiator_flag responder_world_9 7 10 responder_session_9
              Hwf eq_refl Hs Hz)
    as [(w1 & HR & Hev & Hev') _].
  exists w1. split; [exact HR|]. rewrite Hev, Hev'. split; reflexivity.
Defined.

(** X11 between station 1 (link-loss timeout 5) and station 7. *)
Lemma handshake_agreement_witness :
  m_qosSupported (mac (World_new 1 5)) = true /\
  m_qosSupported (mac (World_new 7 0)) = true /\
  exists wr1 sr,
    Receive (fst_frame 7 1 (FST_SETUP_REQUEST (SetupFSTSession_request 1 5)))
      (World_new 7 0) = Returns wr1 /\
    m_fstSessionMap (mac (TxOk (fst_frame 1 7 (FST_SETUP_RESPONSE 10 0)) wr1)) !! 1
      = Some sr /\
    ID sr = 1 /\ LLT sr = 5 /\ CurrentState sr = FST_SETUP_COMPLETION_STATE.
Proof.
  split; [reflexivity|]. split; [reflexivity|].
  destruct (handshake_agreement (World_new 1 5) (World_new 7 0) eq_refl eq_refl)
    as (request & response & wr1 & wi1 & si & sr & Hrequest & HRr & Hresponse & _ & _
        & Hsr & Hid & Hids & _ & _ & _ & Hllt & _ & _ & Hst & _ & Hpos).
  injection Hrequest as <-.
  assert (Hq : m_txop (mac wr1) = [fst_frame 1 7 (FST_SETUP_RESPONSE 10 0)]).
  { vm_compute in HRr. injection HRr as <-. reflexivity. }
  rewrite Hq in Hresponse. injection Hresponse as <-.
  exists wr1, sr. split; [exact HRr|]. split; [exact Hsr|].
  split; [by rewrite Hids, Hid|]. split; [exact Hllt|].
  rewrite Hst. apply Hpos. discriminate.
Defined.

(** X12 at a MAC configured for 802.11a: a Teardown addressed to it aborts
    in the debug build and not in the optimized build. *)
Lemma FinishConfigureStandard_then_Receive_witness :
  FinishConfigureStandard PhyStandard.WIFI_PHY_STANDARD_80211a
    (MacConfiguration_new 1 false None) = Some configured_for_80211a /\
  Receive (fst_frame 1 7 (FST_TEAR_DOWN 0))
    {| mac := GetSessions configured_for_80211a; sim := Simulator_new |} = FatalError /\
  Receive_in optimized (fst_frame 1 7 (FST_TEAR_DOWN 0))
    {| mac := GetSessions configured_for_80211a; sim := Simulator_new |} <> FatalError.
Proof.
  split; [reflexivity|].
  destruct (FinishConfigureStandard_then_Receive PhyStandard.WIFI_PHY_STANDARD_80211a
              (MacConfiguration_new 1 false None) configured_for_80211a eq_refl)
    as [_ Hfatal].
  split.
  - apply (Hfatal debug 7 (FST_TEAR_DOWN 0) Simulator_new). left. repeat split.
  - intros Hx. apply (Hfatal optimized 7 (FST_TEAR_DOWN 0) Simulator_new) in Hx.
    destruct Hx as [(Hb & _)|(code & Hc)]; discriminate.
Defined.

(** X14 at a MAC configured for 802.11g and then for 802.11b. *)
Lemma support_is_never_withdrawn_witness :
  FinishConfigureStandard PhyStandard.WIFI_PHY_STANDARD_80211b configured_for_80211g =
    Some (ConfigureContentionWindow 31 1023 (SetDsssSupported true configured_for_80211g)) /\
  exists cwMin cwMax,
    last (ConfigureDcf_calls
            (ConfigureContentionWindow 31 1023
               (SetDsssSupported true configured_for_80211g)))
      = Some (cwMin, cwMax, false).
Proof.
  split; [reflexivity|].
  destruct (support_is_never_withdrawn PhyStandard.WIFI_PHY_STANDARD_80211b
              configured_for_80211g _ eq_refl)
    as (_ & _ & _ & _ & _ & _ & _ & Hdsss).
  apply Hdsss. reflexivity.
Defined.

(** X18 on a device without technologies: after the MAC of 802.11n at
    5 GHz was asked for, a node and the 60 GHz technology do not complete the
    configuration. *)
Lemma GetTechnologyMac_registers_null_technology_witness :
  m_list (GetDevice (MultiBandNetDevice_new ∅ WIFI_PHY_STANDARD_80211ad))
    !! WIFI_PHY_STANDARD_80211n_5GHZ = None /\
  let d1 :=
    on_device (fun d => (GetTechnologyMac WIFI_PHY_STANDARD_80211n_5GHZ d).2)
      (MultiBandNetDevice_new ∅ WIFI_PHY_STANDARD_80211ad) in
  let calls :=
    [ AddNewWifiTechnology_call 10 11 12 WIFI_PHY_STANDARD_80211ad true;
      SetNode_call 1; CompleteConfig_call ] in
  DoInitialize d1 = None /\
  m_configComplete (setup_calls calls d1) = false /\
  DoInitialize (setup_calls calls d1) = None.
Proof.
  split; [reflexivity|]. cbv zeta.
  destruct (GetTechnologyMac_registers_null_technology WIFI_PHY_STANDARD_80211n_5GHZ
              (MultiBandNetDevice_new ∅ WIFI_PHY_STANDARD_80211ad) eq_refl)
    as (_ & _ & _ & _ & Hinit & Hcalls).
  split; [exact Hinit|].
  destruct (Hcalls [ AddNewWifiTechnology_call 10 11 12 WIFI_PHY_STANDARD_80211ad true;
                     SetNode_call 1; CompleteConfig_call ])
    as (_ & Hc & _ & Hinit').
  { repeat constructor; intros phy mac station operational; discriminate. }
  split; [exact Hc | exact Hinit'].
Defined.

(** X21 on the two-band device: a band change to 2.4 GHz. *)
Lemma BandChanged_without_technology_aborts_witness :
  m_macs (two_band_device STA) !! 0 = None /\
  m_list (two_band_device STA) !! WIFI_PHY_STANDARD_80211n_2_4GHZ = None /\
  BandChanged WIFI_PHY_STANDARD_80211n_2_4GHZ 7 true (two_band_device STA) = None.
Proof.
  assert (Hnull : m_macs (two_band_device STA) !! 0 = None) by (vm_compute; reflexivity).
  assert (Hnone : m_list (two_band_device STA) !! WIFI_PHY_STANDARD_80211n_2_4GHZ = None)
    by (vm_compute; reflexivity).
  split; [exact Hnull|]. split; [exact Hnone|].
  destruct (BandChanged_without_technology_aborts WIFI_PHY_STANDARD_80211n_2_4GHZ 7 true
              (two_band_device STA) Hnull) as [Habort _].
  apply Habort. left. exact Hnone.
Defined.

(** X22 with an A-MSDU size of 9000 for the best-effort category. *)
Lemma capabilities_cover_configured_size_witness :
  GetHtCapabilities_MaxAmsduLength 0 0 9000 0 = 7935 /\
  GetVhtCapabilities_MaxMpduLength 0 0 9000 0 = 11454.
Proof.
  destruct (capabilities_cover_configured_size 0 0 9000 0) as (_ & _ & _ & Hlarge);
    [lia | lia | lia | lia |].
  apply Hlarge. reflexivity.
Defined.

